(** * RepoRelay: GitHub collector, alert sync, findings converter, auto-triage
    and EPSS updater, embedded in Rocq.

    Python values are modelled as follows: strings are [String.string]
    (ASCII; [str.lower] lower-cases ASCII letters), timestamps are [Z]
    seconds since the epoch and dates are [Z] day numbers, EPSS scores are
    rationals [Q] in the triage rules and IEEE binary64 floats (Rocq's
    primitive [float], as Python's [float]) in the EPSS updater, whose
    arithmetic rounds, a raised Python exception is the [Raise] branch of [py],
    and a Django model instance updated with [setattr] is a [gmap] from
    attribute names to values. *)

From stdpp Require Import base gmap strings list.
From Stdlib Require Import ZArith QArith Qabs String Ascii Bool Floats.

Local Open Scope string_scope.

(* ------------------------------------------------------------------ *)
(** ** Python runtime *)

(** An exception object: [Exc] for subclasses of [Exception], [BaseExc]
    for the other subclasses of [BaseException] ([KeyboardInterrupt],
    [SystemExit], ...).  [str(e)] is the message. *)
Inductive exc :=
| Exc (cls msg : string)
| BaseExc (cls msg : string).

Definition exc_str (e : exc) : string :=
  match e with Exc _ m => m | BaseExc _ m => m end.

(** [except Exception] catches exactly the [Exc] exceptions. *)
Definition is_Exception (e : exc) : bool :=
  match e with Exc _ _ => true | BaseExc _ _ => false end.

(** A Python computation that returns a value or raises. *)
Inductive py (A : Type) :=
| Ok (a : A)
| Raise (e : exc).
Arguments Ok {A} a.
Arguments Raise {A} e.

Notation "'let?' x ':=' m 'in' k" :=
  (match m with Ok x => k | Raise e => Raise e end)
  (at level 200, x pattern, m at level 100, k at level 200).

(** Python values stored in model attributes. *)
Inductive pyval :=
| PNone
| PBool (b : bool)
| PInt (z : Z)
| PStr (s : string)
| PTime (t : Z)
| PDate (d : Z)
| PTest (id : nat)
| PUser (id : nat).

(** A model instance: attribute name to value ([setattr]/[getattr]). *)
Abbreviation pyobj := (gmap string pyval).

(* ------------------------------------------------------------------ *)
(** ** String helpers (Python [str] methods) *)

Definition ascii_lower (c : ascii) : ascii :=
  let n := nat_of_ascii c in
  if (65 <=? n)%nat && (n <=? 90)%nat then ascii_of_nat (n + 32) else c.

(** [s.lower()] *)
Fixpoint str_lower (s : string) : string :=
  match s with
  | EmptyString => EmptyString
  | String c s' => String (ascii_lower c) (str_lower s')
  end.

(** [s.startswith(p)] *)
Definition startswith (s p : string) : bool := String.prefix p s.

(** [s.endswith(p)] *)
Definition endswith (s p : string) : bool :=
  let n := String.length s in
  let k := String.length p in
  (k <=? n)%nat && String.eqb (substring (n - k) k s) p.

(** [needle in hay] for strings. *)
Fixpoint str_contains (hay needle : string) : bool :=
  String.prefix needle hay ||
  match hay with
  | EmptyString => false
  | String _ hay' => str_contains hay' needle
  end.

(** [x in xs] for a list of strings. *)
Definition list_contains (xs : list string) (x : string) : bool :=
  existsb (String.eqb x) xs.

(** [s[:n]] *)
Definition truncate (n : nat) (s : string) : string := substring 0 n s.

(** [s.replace(old, new)] for a non-empty [old]. *)
Fixpoint replace_fuel (fuel : nat) (old new s : string) : string :=
  match fuel with
  | O => s
  | S fuel' =>
      match s with
      | EmptyString => EmptyString
      | String c s' =>
          if String.prefix old s
          then new ++ replace_fuel fuel' old new
                        (substring (String.length old) (String.length s) s)
          else String c (replace_fuel fuel' old new s')
      end
  end.
Definition str_replace (old new s : string) : string :=
  replace_fuel (String.length s) old new s.

(** [s.split(sep)] for a one-character separator. *)
Fixpoint split_on (sep : ascii) (s : string) : list string :=
  match s with
  | EmptyString => [EmptyString]
  | String c s' =>
      if Ascii.eqb c sep then EmptyString :: split_on sep s'
      else match split_on sep s' with
           | w :: ws => String c w :: ws
           | [] => [String c EmptyString]
           end
  end.

(** [str.isspace] on ASCII characters. *)
Definition is_space (c : ascii) : bool :=
  let n := nat_of_ascii c in
  ((9 <=? n)%nat && (n <=? 13)%nat) || ((28 <=? n)%nat && (n <=? 32)%nat).

Fixpoint lstrip (s : string) : string :=
  match s with
  | EmptyString => EmptyString
  | String c s' => if is_space c then lstrip s' else s
  end.

Fixpoint str_rev (s : string) : string :=
  match s with
  | EmptyString => EmptyString
  | String c s' => str_rev s' ++ String c EmptyString
  end.

(** [s.strip()] *)
Definition strip (s : string) : string := str_rev (lstrip (str_rev (lstrip s))).

(** ["\n".join(parts)] *)
Fixpoint join (sep : string) (parts : list string) : string :=
  match parts with
  | [] => ""
  | [p] => p
  | p :: ps => p ++ sep ++ join sep ps
  end.

Definition nl : string := String (ascii_of_nat 10) EmptyString.

(** [str(n)] for an integer. *)
Fixpoint digits_of (fuel : nat) (n : N) (acc : string) : string :=
  match fuel with
  | O => acc
  | S fuel' =>
      let d := String (ascii_of_N (48 + N.modulo n 10)) acc in
      if (n <? 10)%N then d else digits_of fuel' (N.div n 10) d
  end.
Definition str_of_Z (z : Z) : string :=
  match z with
  | Z0 => "0"
  | Zpos p => digits_of (Pos.size_nat p) (Npos p) ""
  | Zneg p => "-" ++ digits_of (Pos.size_nat p) (Npos p) ""
  end.

(** [int(s)] on an already stripped string: optional sign, then decimal
    digits with single underscores between digits; [None] is the
    [ValueError]. *)
Definition digit_val (c : ascii) : option Z :=
  let n := nat_of_ascii c in
  if (48 <=? n)%nat && (n <=? 57)%nat then Some (Z.of_nat (n - 48)) else None.

Fixpoint parse_digits (s : string) (acc : Z) (prev_digit : bool) : option Z :=
  match s with
  | EmptyString => if prev_digit then Some acc else None
  | String c s' =>
      if Ascii.eqb c "_" then
        if prev_digit then
          match s' with
          | String c2 _ => if digit_val c2 then parse_digits s' acc false else None
          | EmptyString => None
          end
        else None
      else match digit_val c with
           | Some d => parse_digits s' (acc * 10 + d) true
           | None => None
           end
  end.

Definition parse_py_int (s : string) : option Z :=
  match s with
  | String "-" s' => option_map Z.opp (parse_digits s' 0 false)
  | String "+" s' => parse_digits s' 0 false
  | _ => parse_digits s 0 false
  end.

(** [d.get(k, default)] for a dict literal kept as an association list. *)
Fixpoint dict_get {V} (d : list (string * V)) (k : string) (default : V) : V :=
  match d with
  | [] => default
  | (k', v) :: d' => if String.eqb k k' then v else dict_get d' k default
  end.

(* ------------------------------------------------------------------ *)
(** ** findings_converter.py: GitHubFindingsConverter *)

Module FindingsConverter.

(** The [GitHubAlert] row as the converter reads it (with its
    [repository] relation flattened in). Text columns are [""] when
    empty; nullable integer and datetime columns are options. *)
Record gh_alert := {
  a_id : nat;
  a_repo_name : string;
  a_repo_github_repo_id : Z;
  a_repo_product : option nat;
  a_alert_type : string;
  a_github_alert_id : string;
  a_state : string;
  a_severity : option string;
  a_title : string;
  a_description : string;
  a_html_url : string;
  a_cve : string;
  a_package_name : string;
  a_package_ecosystem : string;
  a_vulnerable_version : string;
  a_patched_version : string;
  a_cwe : string;
  a_rule_id : string;
  a_file_path : string;
  a_secret_type : string;
  a_start_line : option Z;
  a_end_line : option Z;
  a_created_at : option Z;
  a_fixed_at : option Z
}.

Definition SEVERITY_MAP : list (string * string) :=
  [("critical", "Critical"); ("high", "High"); ("moderate", "Medium");
   ("medium", "Medium"); ("low", "Low"); ("warning", "Low");
   ("error", "High"); ("note", "Info"); ("info", "Info")].

Definition TEST_TYPE_DEPENDABOT := "GitHub Dependabot".
Definition TEST_TYPE_CODEQL := "GitHub CodeQL".
Definition TEST_TYPE_SECRET_SCANNING := "GitHub Secret Scanning".

(** [_map_severity] *)
Definition _map_severity (github_severity : option string) : string :=
  let severity :=
    match github_severity with
    | Some s => if String.eqb s "" then "info" else str_lower s
    | None => "info"
    end in
  dict_get SEVERITY_MAP severity "Info".

(** [datetime.date()] of a timestamp (UTC). *)
Definition day_of (t : Z) : Z := t / 86400.

Definition opt_int (o : option Z) : pyval :=
  match o with Some z => PInt z | None => PNone end.

(** Python truthiness of a nullable integer column. *)
Definition int_truthy (o : option Z) : bool :=
  match o with Some z => negb (Z.eqb z 0) | None => false end.

Definition nonempty (s : string) : bool := negb (String.eqb s "").

(** [_build_unique_id] *)
Definition _build_unique_id (a : gh_alert) : string :=
  "github-" ++ a_alert_type a ++ "-" ++ str_of_Z (a_repo_github_repo_id a)
  ++ "-" ++ a_github_alert_id a.

(** The [date] entry shared by the three converters; [now] is
    [timezone.now()]. *)
Definition alert_date (a : gh_alert) (now : Z) : pyval :=
  match a_created_at a with
  | Some t => PDate (day_of t)
  | None => PDate (day_of now)
  end.

(** [_convert_dependabot_alert] *)
Definition _convert_dependabot_alert (system_user : pyval) (a : gh_alert)
    (test : nat) (now : Z) : list (string * pyval) :=
  let package_info0 :=
    if nonempty (a_package_name a) then a_package_name a else "Unknown package" in
  let package_info :=
    if nonempty (a_package_ecosystem a)
    then package_info0 ++ " (" ++ a_package_ecosystem a ++ ")"
    else package_info0 in
  let title := package_info ++ ": " ++ a_title a in
  let description_parts :=
    List.concat [(if nonempty (a_description a) then [a_description a] else []);
     (if nonempty (a_package_name a)
        then [nl ++ "**Package:** " ++ a_package_name a] else []);
     (if nonempty (a_package_ecosystem a)
        then ["**Ecosystem:** " ++ a_package_ecosystem a] else []);
     (if nonempty (a_vulnerable_version a)
        then ["**Vulnerable Version:** " ++ a_vulnerable_version a] else []);
     (if nonempty (a_patched_version a)
        then ["**Patched Version:** " ++ a_patched_version a] else []);
     [nl ++ "**GitHub Alert:** " ++ a_html_url a]] in
  let description := join nl description_parts in
  let mitigation :=
    if nonempty (a_patched_version a)
    then PStr ("Upgrade " ++ a_package_name a ++ " to version "
               ++ a_patched_version a ++ " or later.")
    else PNone in
  [("title", PStr (truncate 511 title));
   ("description", PStr description);
   ("severity", PStr (_map_severity (a_severity a)));
   ("cve", if nonempty (a_cve a) then PStr (a_cve a) else PNone);
   ("mitigation", mitigation);
   ("component_name", PStr (a_package_name a));
   ("component_version", PStr (a_vulnerable_version a));
   ("references", PStr (a_html_url a));
   ("unique_id_from_tool", PStr (_build_unique_id a));
   ("vuln_id_from_tool", PStr (a_github_alert_id a));
   ("test", PTest test);
   ("reporter", system_user);
   ("date", alert_date a now)].

(** The CWE number: [int(alert.cwe.replace('CWE-', '').split(',')[0].strip())],
    [None] when [int] raises (the [except] branch). *)
Definition parse_cwe (cwe : string) : option Z :=
  match split_on "," (str_replace "CWE-" "" cwe) with
  | w :: _ => parse_py_int (strip w)
  | [] => None
  end.

(** [_convert_codeql_alert] *)
Definition _convert_codeql_alert (system_user : pyval) (a : gh_alert)
    (test : nat) (now : Z) : list (string * pyval) :=
  let title := a_title a in
  let location :=
    a_file_path a ++
    (if int_truthy (a_start_line a) then
       ":" ++ str_of_Z (default 0%Z (a_start_line a)) ++
       (if int_truthy (a_end_line a) &&
           negb (bool_decide (a_end_line a = a_start_line a))
        then "-" ++ str_of_Z (default 0%Z (a_end_line a)) else "")
     else "") in
  let description_parts :=
    List.concat [(if nonempty (a_description a) then [a_description a] else []);
     (if nonempty (a_file_path a) then [nl ++ "**Location:** " ++ location] else []);
     (if nonempty (a_rule_id a) then ["**Rule:** " ++ a_rule_id a] else []);
     [nl ++ "**GitHub Alert:** " ++ a_html_url a]] in
  let cwe_number :=
    if nonempty (a_cwe a) then opt_int (parse_cwe (a_cwe a)) else PNone in
  [("title", PStr (truncate 511 title));
   ("description", PStr (join nl description_parts));
   ("severity", PStr (_map_severity (a_severity a)));
   ("cwe", cwe_number);
   ("file_path", PStr (a_file_path a));
   ("line", opt_int (a_start_line a));
   ("references", PStr (a_html_url a));
   ("unique_id_from_tool", PStr (_build_unique_id a));
   ("vuln_id_from_tool",
      PStr (if nonempty (a_rule_id a) then a_rule_id a else a_github_alert_id a));
   ("test", PTest test);
   ("reporter", system_user);
   ("date", alert_date a now)].

(** [_convert_secret_scanning_alert] *)
Definition _convert_secret_scanning_alert (system_user : pyval) (a : gh_alert)
    (test : nat) (now : Z) : list (string * pyval) :=
  let secret_type :=
    if nonempty (a_secret_type a) then a_secret_type a else "Exposed Secret" in
  let title := secret_type ++ ": " ++ a_title a in
  let location :=
    a_file_path a ++
    (if int_truthy (a_start_line a)
     then ":" ++ str_of_Z (default 0%Z (a_start_line a)) else "") in
  let description_parts :=
    List.concat [(if nonempty (a_description a) then [a_description a] else []);
     (if nonempty (a_secret_type a)
        then [nl ++ "**Secret Type:** " ++ a_secret_type a] else []);
     (if nonempty (a_file_path a) then ["**Location:** " ++ location] else []);
     [nl ++ "**GitHub Alert:** " ++ a_html_url a]] in
  [("title", PStr (truncate 511 title));
   ("description", PStr (join nl description_parts));
   ("severity", PStr "Critical");
   ("file_path", PStr (a_file_path a));
   ("line", opt_int (a_start_line a));
   ("references", PStr (a_html_url a));
   ("unique_id_from_tool", PStr (_build_unique_id a));
   ("vuln_id_from_tool", PStr (a_github_alert_id a));
   ("test", PTest test);
   ("reporter", system_user);
   ("date", alert_date a now)].

(** [convert_alert_to_finding_fields] *)
Definition convert_alert_to_finding_fields (system_user : pyval) (a : gh_alert)
    (test : nat) (now : Z) : py (list (string * pyval)) :=
  if String.eqb (a_alert_type a) "dependabot" then
    Ok (_convert_dependabot_alert system_user a test now)
  else if String.eqb (a_alert_type a) "codeql" then
    Ok (_convert_codeql_alert system_user a test now)
  else if String.eqb (a_alert_type a) "secret_scanning" then
    Ok (_convert_secret_scanning_alert system_user a test now)
  else Raise (Exc "ValueError" ("Unknown alert type: " ++ a_alert_type a)).

#[global] Instance pyval_eq_dec : EqDecision pyval.
Proof. solve_decision. Defined.

(** The part of the database the converter reads and writes. Engagements
    and tests are kept by their [get_or_create] lookup keys, their row id
    being their position; findings are model instances by id. *)
Record db := {
  engagements : list (nat * string);
  test_types : list string;
  tests : list (nat * string);
  findings : gmap nat pyobj;
  next_finding_id : nat;
  alert_finding : gmap nat nat
}.

Fixpoint index_of {A} `{EqDecision A} (x : A) (l : list A) : option nat :=
  match l with
  | [] => None
  | y :: l' => if decide (x = y) then Some 0%nat
               else option_map S (index_of x l')
  end.

(** [Model.objects.get_or_create(...)] on a table kept as a key list. *)
Definition get_or_create_row {A} `{EqDecision A} (key : A) (rows : list A)
    : nat * list A :=
  match index_of key rows with
  | Some i => (i, rows)
  | None => (List.length rows, (rows ++ [key])%list)
  end.

Definition set_engagements (st : db) (e : list (nat * string)) : db :=
  {| engagements := e; test_types := test_types st; tests := tests st;
     findings := findings st; next_finding_id := next_finding_id st;
     alert_finding := alert_finding st |}.

Definition set_tests (st : db) (t : list (nat * string)) : db :=
  {| engagements := engagements st; test_types := test_types st; tests := t;
     findings := findings st; next_finding_id := next_finding_id st;
     alert_finding := alert_finding st |}.

(** [_get_or_create_engagement] *)
Definition _get_or_create_engagement (a : gh_alert) (st : db) : py (nat * db) :=
  match a_repo_product a with
  | None => Raise (Exc "ValueError" ("Repository " ++ a_repo_name a ++ " has no product"))
  | Some product =>
      let engagement_name := "GitHub Security Alerts - " ++ a_repo_name a in
      let '(eid, rows) := get_or_create_row (product, engagement_name) (engagements st) in
      Ok (eid, set_engagements st rows)
  end.

Definition test_type_map : list (string * string) :=
  [("dependabot", TEST_TYPE_DEPENDABOT); ("codeql", TEST_TYPE_CODEQL);
   ("secret_scanning", TEST_TYPE_SECRET_SCANNING)].

(** [_get_or_create_test] *)
Definition _get_or_create_test (alert_type : string) (engagement : nat) (st : db)
    : py (nat * db) :=
  let test_type_name := dict_get test_type_map alert_type "" in
  if String.eqb test_type_name "" then
    Raise (Exc "ValueError" ("Unknown alert type: " ++ alert_type))
  else if negb (list_contains (test_types st) test_type_name) then
    Raise (Exc "ValueError" ("Test_Type not found: " ++ test_type_name))
  else
    let '(tid, rows) := get_or_create_row (engagement, test_type_name) (tests st) in
    Ok (tid, set_tests st rows).

(** A fresh [Finding()] instance: the model's field defaults. *)
Definition new_finding : pyobj :=
  list_to_map [("active", PBool true); ("verified", PBool false);
               ("is_mitigated", PBool false); ("mitigated", PNone);
               ("mitigated_by", PNone); ("risk_accepted", PBool false);
               ("false_p", PBool false); ("out_of_scope", PBool false)].

(** [for field, value in finding_fields.items(): setattr(finding, field, value)] *)
Definition set_fields (f : pyobj) (fields : list (string * pyval)) : pyobj :=
  foldl (fun acc '(k, v) => <[k := v]> acc) f fields.

(** [_apply_state_to_finding] *)
Definition _apply_state_to_finding (system_user : pyval) (f : pyobj)
    (a : gh_alert) (now : Z) : pyobj :=
  if String.eqb (a_state a) "open" then
    set_fields f [("active", PBool true);
                  ("verified", PBool false); ("is_mitigated", PBool false);
                  ("mitigated", PNone); ("mitigated_by", PNone);
                  ("risk_accepted", PBool false); ("false_p", PBool false);
                  ("out_of_scope", PBool false)]
  else if String.eqb (a_state a) "fixed" then
    set_fields f [("active", PBool false); ("is_mitigated", PBool true);
                  ("mitigated", match a_fixed_at a with
                                | Some t => PTime t
                                | None => PTime now
                                end);
                  ("mitigated_by", system_user)]
  else if String.eqb (a_state a) "dismissed" then
    set_fields f [("active", PBool false); ("risk_accepted", PBool true)]
  else f.

(** [Finding.objects.get(test=test, unique_id_from_tool=unique_id)]:
    [Ok None] is [Finding.DoesNotExist]. *)
Definition find_finding (test : nat) (uid : string) (st : db)
    : py (option (nat * pyobj)) :=
  let hits := map_to_list (filter (fun kf : nat * pyobj =>
                kf.2 !! "test" = Some (PTest test) /\
                kf.2 !! "unique_id_from_tool" = Some (PStr uid))
              (findings st)) in
  match hits with
  | [] => Ok None
  | [hit] => Ok (Some hit)
  | _ => Raise (Exc "MultipleObjectsReturned" "get() returned more than one Finding")
  end.

(** [finding.save()] followed by [alert.finding = finding; alert.save()]. *)
Definition save_and_link (existing : option nat) (f : pyobj) (alert_id : nat)
    (st : db) : pyobj * db :=
  let '(fid, f', next) :=
    match existing with
    | Some fid => (fid, f, next_finding_id st)
    | None => (next_finding_id st, <["id" := PInt (Z.of_nat (next_finding_id st))]> f,
               S (next_finding_id st))
    end in
  (f', {| engagements := engagements st; test_types := test_types st;
          tests := tests st; findings := <[fid := f']> (findings st);
          next_finding_id := next;
          alert_finding := <[alert_id := fid]> (alert_finding st) |}).

(** [create_or_update_finding], under [@transaction.atomic]: on an
    exception no write survives, so the error carries no database. *)
Definition create_or_update_finding (system_user : pyval) (a : gh_alert)
    (now : Z) (st : db) : py ((pyobj * bool) * db) :=
  let? (engagement, st1) := _get_or_create_engagement a st in
  let? (test, st2) := _get_or_create_test (a_alert_type a) engagement st1 in
  let unique_id := _build_unique_id a in
  let? found := find_finding test unique_id st2 in
  let '(existing, finding, created) :=
    match found with
    | Some (fid, f) => (Some fid, f, false)
    | None => (None, new_finding, true)
    end in
  let? finding_fields := convert_alert_to_finding_fields system_user a test now in
  let finding := set_fields finding finding_fields in
  let finding := _apply_state_to_finding system_user finding a now in
  let '(finding, st3) := save_and_link existing finding (a_id a) st2 in
  Ok ((finding, created), st3).

(** The value the last entry for [k] in an update list assigns. *)
Fixpoint assoc_last (l : list (string * pyval)) (k : string) : option pyval :=
  match l with
  | [] => None
  | (k', v) :: l' =>
      match assoc_last l' k with
      | Some w => Some w
      | None => if String.eqb k k' then Some v else None
      end
  end.

(** The assignments [_apply_state_to_finding] performs, as an update list. *)
Definition state_updates (system_user : pyval) (a : gh_alert) (now : Z)
    : list (string * pyval) :=
  if String.eqb (a_state a) "open" then
    [("active", PBool true); ("verified", PBool false);
     ("is_mitigated", PBool false); ("mitigated", PNone);
     ("mitigated_by", PNone); ("risk_accepted", PBool false);
     ("false_p", PBool false); ("out_of_scope", PBool false)]
  else if String.eqb (a_state a) "fixed" then
    [("active", PBool false); ("is_mitigated", PBool true);
     ("mitigated", match a_fixed_at a with
                   | Some t => PTime t
                   | None => PTime now
                   end);
     ("mitigated_by", system_user)]
  else if String.eqb (a_state a) "dismissed" then
    [("active", PBool false); ("risk_accepted", PBool true)]
  else [].

(** Running the projection twice, the second time on the database the
    first call left, at clock readings [now1] and [now2]. *)
Definition project_twice (system_user : pyval) (a : gh_alert) (now1 now2 : Z)
    (st : db) : py ((pyobj * bool) * (pyobj * bool)) :=
  let? (r1, st1) := create_or_update_finding system_user a now1 st in
  let? (r2, _) := create_or_update_finding system_user a now2 st1 in
  Ok (r1, r2).

End FindingsConverter.

(* ------------------------------------------------------------------ *)
(** ** alerts_collector.py: GitHubAlertsCollector *)

Module AlertsCollector.

(** The [Repository] columns the collector reads and writes. *)
Record repository := {
  r_id : nat;
  r_name : string;
  r_github_url : string;
  r_dependabot_alert_count : nat;
  r_codeql_alert_count : nat;
  r_secret_scanning_alert_count : nat;
  r_last_alert_sync : option Z
}.

(** The [GitHubAlertSync] cursor row. *)
Record alert_sync := {
  dependabot_last_sync : option Z;
  codeql_last_sync : option Z;
  secret_scanning_last_sync : option Z;
  dependabot_alerts_fetched : nat;
  codeql_alerts_fetched : nat;
  secret_scanning_alerts_fetched : nat;
  full_sync_completed : bool;
  last_sync_error : string;
  last_sync_error_at : option Z
}.

(** A row created by [GitHubAlertSync.objects.get_or_create]. *)
Definition default_alert_sync : alert_sync :=
  {| dependabot_last_sync := None; codeql_last_sync := None;
     secret_scanning_last_sync := None; dependabot_alerts_fetched := 0;
     codeql_alerts_fetched := 0; secret_scanning_alerts_fetched := 0;
     full_sync_completed := false; last_sync_error := ""; last_sync_error_at := None |}.

(** [SyncResult] *)
Record sync_result := {
  repository_id : nat;
  repository_name : string;
  dependabot_count : nat;
  codeql_count : nat;
  secret_scanning_count : nat;
  errors : list string;
  success : bool
}.

Definition new_result (repo : repository) : sync_result :=
  {| repository_id := r_id repo; repository_name := r_name repo;
     dependabot_count := 0; codeql_count := 0; secret_scanning_count := 0;
     errors := []; success := true |}.

Definition fail_result (r : sync_result) (msg : string) : sync_result :=
  {| repository_id := repository_id r; repository_name := repository_name r;
     dependabot_count := dependabot_count r; codeql_count := codeql_count r;
     secret_scanning_count := secret_scanning_count r;
     errors := (errors r ++ [msg])%list; success := false |}.

(** [s.rstrip('/')] *)
Definition rstrip_slash (s : string) : string :=
  let fix drop (r : string) : string :=
    match r with
    | String "/" r' => drop r'
    | _ => r
    end in
  str_rev (drop (str_rev s)).

(** [_parse_repository_identifier]; [("", "")] stands for [(None, None)]. *)
Definition _parse_repository_identifier (repo : repository) : string * string :=
  let from_name :=
    if str_contains (r_name repo) "/" then
      match split_on "/" (r_name repo) with
      | [o; n] => Some (o, n)
      | _ => None
      end
    else None in
  let from_url :=
    if FindingsConverter.nonempty (r_github_url repo) then
      match rev (split_on "/" (rstrip_slash (r_github_url repo))) with
      | n :: o :: _ => Some (o, n)
      | _ => None
      end
    else None in
  match from_url with
  | Some p => p
  | None => match from_name with Some p => p | None => ("", "") end
  end.

(** The outcome of one taxonomy's [_sync_*_alerts] call: the number of
    alerts fetched and upserted, or the exception it re-raised. *)
Record fetch_outcomes := {
  fetch_dependabot : py nat;
  fetch_codeql : py nat;
  fetch_secret_scanning : py nat
}.

Section SyncRepository.

(** [_should_sync] reads [GitHubAlertSync.last_successful_sync], a model
    property outside this code base; the sync below is stated for any
    eligibility decision. *)
Variable should_sync : repository -> option alert_sync -> Z -> bool.

(** The success branch: cursor and repository counters after the three
    taxonomies succeeded. *)
Definition tracker_after_success (t : alert_sync) (now : Z) (n1 n2 n3 : nat)
    : alert_sync :=
  {| dependabot_last_sync := Some now; codeql_last_sync := Some now;
     secret_scanning_last_sync := Some now; dependabot_alerts_fetched := n1;
     codeql_alerts_fetched := n2; secret_scanning_alerts_fetched := n3;
     full_sync_completed := true; last_sync_error := "";
     last_sync_error_at := last_sync_error_at t |}.

Definition tracker_after_error (t : alert_sync) (now : Z) (msg : string)
    : alert_sync :=
  {| dependabot_last_sync := dependabot_last_sync t; codeql_last_sync := codeql_last_sync t;
     secret_scanning_last_sync := secret_scanning_last_sync t;
     dependabot_alerts_fetched := dependabot_alerts_fetched t;
     codeql_alerts_fetched := codeql_alerts_fetched t;
     secret_scanning_alerts_fetched := secret_scanning_alerts_fetched t;
     full_sync_completed := full_sync_completed t;
     last_sync_error := truncate 1000 msg; last_sync_error_at := Some now |}.

Definition repo_after_success (repo : repository) (now : Z) (n1 n2 n3 : nat)
    : repository :=
  {| r_id := r_id repo; r_name := r_name repo; r_github_url := r_github_url repo;
     r_dependabot_alert_count := n1; r_codeql_alert_count := n2;
     r_secret_scanning_alert_count := n3; r_last_alert_sync := Some now |}.

(** [sync_repository_alerts repo force]: the result (or the exception that
    escapes), the cursor row and the repository row afterwards. *)
Definition sync_repository_alerts (repo : repository) (force : bool)
    (tracker : option alert_sync) (now : Z) (o : fetch_outcomes)
    : py sync_result * option alert_sync * repository :=
  let result := new_result repo in
  if negb force && negb (should_sync repo tracker now) then (Ok result, tracker, repo)
  else
    let '(owner, name) := _parse_repository_identifier repo in
    if negb (FindingsConverter.nonempty owner) || negb (FindingsConverter.nonempty name) then
      (Ok (fail_result result "Could not parse repository owner/name"), tracker, repo)
    else
      let sync_tracker := match tracker with Some t => t | None => default_alert_sync end in
      let on_error (r : sync_result) (e : exc) :=
        if is_Exception e then
          (Ok (fail_result r (exc_str e)),
           Some (tracker_after_error sync_tracker now (exc_str e)), repo)
        else (Raise e, Some sync_tracker, repo) in
      match fetch_dependabot o with
      | Raise e => on_error result e
      | Ok n1 =>
          let r1 := {| repository_id := r_id repo; repository_name := r_name repo;
                       dependabot_count := n1; codeql_count := 0;
                       secret_scanning_count := 0; errors := []; success := true |} in
          match fetch_codeql o with
          | Raise e => on_error r1 e
          | Ok n2 =>
              let r2 := {| repository_id := r_id repo; repository_name := r_name repo;
                           dependabot_count := n1; codeql_count := n2;
                           secret_scanning_count := 0; errors := []; success := true |} in
              match fetch_secret_scanning o with
              | Raise e => on_error r2 e
              | Ok n3 =>
                  (Ok {| repository_id := r_id repo; repository_name := r_name repo;
                         dependabot_count := n1; codeql_count := n2;
                         secret_scanning_count := n3; errors := []; success := true |},
                   Some (tracker_after_success sync_tracker now n1 n2 n3),
                   repo_after_success repo now n1 n2 n3)
              end
          end
      end.

(** The exception the [try] block of [sync_repository_alerts] sees, if
    any: the first taxonomy whose fetch raised. *)
Definition first_taxonomy_error (o : fetch_outcomes) : option exc :=
  match fetch_dependabot o with
  | Raise e => Some e
  | Ok _ =>
      match fetch_codeql o with
      | Raise e => Some e
      | Ok _ => match fetch_secret_scanning o with Raise e => Some e | Ok _ => None end
      end
  end.

End SyncRepository.

(** [RateLimitStatus] *)
Record rate_limit_status := {
  graphql_remaining : Z;
  graphql_limit : Z;
  rest_remaining : Z;
  rest_limit : Z
}.

Definition graphql_percent_used (q : rate_limit_status) : Q :=
  if (0 <? graphql_limit q)%Z
  then ((1 - inject_Z (graphql_remaining q) / inject_Z (graphql_limit q)) * 100)%Q
  else 0%Q.

Definition rest_percent_used (q : rate_limit_status) : Q :=
  if (0 <? rest_limit q)%Z
  then ((1 - inject_Z (rest_remaining q) / inject_Z (rest_limit q)) * 100)%Q
  else 0%Q.

(** [RateLimitStatus.should_pause]: more than 80% used on either API. *)
Definition should_pause (q : rate_limit_status) : bool :=
  negb (Qle_bool (graphql_percent_used q) 80) || negb (Qle_bool (rest_percent_used q) 80).

(** [_should_pause_for_rate_limits]: the source never reads the live quota
    [q] (the placeholder body is [return False]). *)
Definition _should_pause_for_rate_limits (q : rate_limit_status) : bool := false.

Section SyncOrganization.

Variable should_sync : repository -> option alert_sync -> Z -> bool.

(** Loop body of [sync_organization_alerts] over the repositories selected
    by [_get_repositories_for_sync]. [quota i] is the live rate-limit status
    before the [i]-th repository, [outcomes] the result of each repository's
    three taxonomy fetches; the cursor rows are keyed by repository id. *)
Fixpoint sync_loop (force : bool) (quota : nat -> rate_limit_status)
    (outcomes : repository -> fetch_outcomes) (now : Z) (i : nat)
    (repos : list repository) (cursors : gmap nat alert_sync)
    : py (list sync_result) * gmap nat alert_sync :=
  match repos with
  | [] => (Ok [], cursors)
  | repo :: rest =>
      if _should_pause_for_rate_limits (quota i) then (Ok [], cursors)
      else
        let '(r, tr, _) :=
          sync_repository_alerts should_sync repo force (cursors !! r_id repo) now
            (outcomes repo) in
        let cursors' := match tr with
                        | Some t => <[r_id repo := t]> cursors
                        | None => cursors
                        end in
        match r with
        | Raise e => (Raise e, cursors')
        | Ok res =>
            let '(rs, cursors'') := sync_loop force quota outcomes now (S i) rest cursors' in
            (let? l := rs in Ok (res :: l), cursors'')
        end
  end.

Definition sync_organization_alerts (force : bool) (quota : nat -> rate_limit_status)
    (outcomes : repository -> fetch_outcomes) (now : Z)
    (repositories : list repository) (cursors : gmap nat alert_sync)
    : py (list sync_result) * gmap nat alert_sync :=
  sync_loop force quota outcomes now 1 repositories cursors.

End SyncOrganization.

End AlertsCollector.

(* ------------------------------------------------------------------ *)
(** ** signal_detector.py and collector.py: path-pattern signals *)

Module PatternSignals.

(** The regular expressions built from glob patterns: [re.compile] on
    the fragment the glob translation produces. An escaped character
    [\c] and an ordinary character are literals, [.] is any character but a
    newline, [.*] any run of such characters. *)
Inductive rtok := RLit (c : ascii) | RDot | RDotStar.

Definition newline : ascii := ascii_of_nat 10.

Fixpoint re_compile (r : string) : list rtok :=
  match r with
  | EmptyString => []
  | String "\" (String c r') => RLit c :: re_compile r'
  | String "." (String "*" r') => RDotStar :: re_compile r'
  | String "." r' => RDot :: re_compile r'
  | String c r' => RLit c :: re_compile r'
  end.

(** Character comparison, with [re.IGNORECASE] when [ic]. *)
Definition char_eq (ic : bool) (c c' : ascii) : bool :=
  if ic then Ascii.eqb (ascii_lower c) (ascii_lower c') else Ascii.eqb c c'.

(** A match of the token list at the start of [s] (backtracking on [.*]). *)
Fixpoint rmatch (ic : bool) (ts : list rtok) (s : string) : bool :=
  match ts with
  | [] => true
  | RLit c :: ts' =>
      match s with
      | String c' s' => char_eq ic c c' && rmatch ic ts' s'
      | EmptyString => false
      end
  | RDot :: ts' =>
      match s with
      | String c' s' => negb (Ascii.eqb c' newline) && rmatch ic ts' s'
      | EmptyString => false
      end
  | RDotStar :: ts' =>
      (fix star (s : string) : bool :=
         rmatch ic ts' s ||
         match s with
         | String c' s' => negb (Ascii.eqb c' newline) && star s'
         | EmptyString => false
         end) s
  end.

(** [regex.search(s)]: a match at some position of [s]. *)
Fixpoint rsearch (ic : bool) (ts : list rtok) (s : string) : bool :=
  rmatch ic ts s ||
  match s with
  | String _ s' => rsearch ic ts s'
  | EmptyString => false
  end.

(** [pattern.replace('.', r'\.').replace('*', '.*')] *)
Definition glob_to_regex (pattern : string) : string :=
  str_replace "*" ".*" (str_replace "." "\." pattern).

(** [SignalDetector._detect_pattern] over the cached file tree. *)
Definition _detect_pattern (file_tree_cache : list string) (patterns : list string) : bool :=
  match file_tree_cache with
  | [] => false
  | _ =>
      existsb (fun pattern =>
        if str_contains pattern "*" then
          let regex := re_compile (glob_to_regex pattern) in
          existsb (fun path => rsearch false regex path) file_tree_cache
        else if endswith pattern "/" then
          existsb (fun path => startswith path pattern) file_tree_cache
        else list_contains file_tree_cache pattern) patterns
  end.

(** [SignalDetector._detect_file_exact] *)
Definition _detect_file_exact (file_tree_cache : list string) (filename : string) : bool :=
  match file_tree_cache with
  | [] => false
  | _ => list_contains file_tree_cache filename
  end.

(** [GitHubRepositoryCollector._check_patterns] *)
Definition _check_patterns (file_paths : list string) (patterns : list string) : bool :=
  existsb (fun pattern =>
    if str_contains pattern "*" then
      let regex := re_compile (glob_to_regex pattern) in
      existsb (fun path => rsearch true regex path) file_paths
    else if endswith pattern "/" then
      existsb (fun path => startswith (str_lower path) (str_lower pattern)) file_paths
    else existsb (fun path => str_contains (str_lower path) (str_lower pattern)) file_paths)
    patterns.

Definition DOCKERFILE_PATTERNS : list string :=
  ["Dockerfile"; "Dockerfile.*"; "docker/Dockerfile"; ".docker/Dockerfile"].
Definition KUBERNETES_PATTERNS : list string :=
  ["kubernetes/"; "k8s/"; ".kube/"; "helm/"; "charts/"; "deployment.yaml";
   "deployment.yml"; "kustomization.yaml"].
Definition CI_CD_PATTERNS : list string :=
  [".github/workflows/"; ".gitlab-ci.yml"; "Jenkinsfile"; ".travis.yml"; ".circleci/";
   "azure-pipelines.yml"; ".buildkite/"; "bitbucket-pipelines.yml"].
Definition TERRAFORM_PATTERNS : list string := ["*.tf"; "terraform/"; ".terraform/"].
Definition DEPLOYMENT_SCRIPT_PATTERNS : list string :=
  ["deploy.sh"; "scripts/deploy"; "deployment/"; "bin/deploy"].
Definition MONITORING_PATTERNS : list string :=
  ["datadog.yaml"; "prometheus.yml"; "grafana/"; "newrelic.yml"; ".dd/"; "apm-config"].
Definition TEST_PATTERNS : list string :=
  ["test/"; "tests/"; "spec/"; "__tests__/"; "*.test.js"; "*.spec.ts"; "test_*.py"].
Definition DOCS_PATTERNS : list string :=
  ["docs/"; "documentation/"; "README.md"; "CONTRIBUTING.md"].
Definition API_SPEC_PATTERNS : list string :=
  ["openapi.yaml"; "openapi.json"; "swagger.yaml"; "swagger.json"; "api-spec.yaml";
   "api/"; ".spectral.yml"].
Definition SECURITY_PATTERNS : list string :=
  ["SECURITY.md"; "security.txt"; ".well-known/security.txt"].
Definition SECURITY_SCANNING_PATTERNS : list string :=
  [".github/workflows/security"; ".github/workflows/codeql"; "semgrep.yml"; ".semgrep/";
   "sonar-project.properties"].
Definition GITLEAKS_PATTERNS : list string :=
  [".gitleaks.toml"; "gitleaks.toml"; ".gitleaks.yaml"].
Definition SAST_PATTERNS : list string :=
  [".semgrep.yml"; "semgrep.yaml"; ".bandit"; "sonar-project.properties"; ".codeql/"].
Definition DATABASE_MIGRATION_PATTERNS : list string :=
  ["migrations/"; "db/migrations/"; "alembic/"; "flyway/"; "liquibase/"].
Definition SSL_PATTERNS : list string := ["ssl/"; "certs/"; "tls.conf"; "nginx.conf"].
Definition PACKAGE_PATTERNS : list (string * list string) :=
  [("node", ["package.json"]); ("python", ["requirements.txt"; "setup.py"; "pyproject.toml"]);
   ("go", ["go.mod"]); ("java", ["pom.xml"; "build.gradle"]); ("ruby", ["Gemfile"]);
   ("rust", ["Cargo.toml"]); ("php", ["composer.json"])].

End PatternSignals.

(* ------------------------------------------------------------------ *)
(** ** What a path pattern means *)

Module PatternSpec.
Import PatternSignals.

(** The characters the configured patterns are written with: letters,
    digits and [_ - / . *]; none of them but [.] and [*] means anything
    to [re]. *)
Definition glob_char (c : ascii) : bool :=
  let n := nat_of_ascii c in
  ((48 <=? n)%nat && (n <=? 57)%nat) || ((65 <=? n)%nat && (n <=? 90)%nat)
  || ((97 <=? n)%nat && (n <=? 122)%nat)
  || existsb (Ascii.eqb c) ["_"; "-"; "/"; "."; "*"]%char.

Definition glob_safe (p : string) : bool := forallb glob_char (list_ascii_of_string p).

Definition no_newline (u : string) : Prop :=
  forall c, In c (list_ascii_of_string u) -> c <> newline.

(** [glob_full eqc p s]: [s] as a whole matches [p], each [*] standing for
    any run of characters other than a newline and any other character for
    one character equal to it under [eqc]. *)
Inductive glob_full (eqc : ascii -> ascii -> bool) : string -> string -> Prop :=
| glob_nil : glob_full eqc "" ""
| glob_lit c p c' s :
    c <> "*"%char -> eqc c c' = true -> glob_full eqc p s ->
    glob_full eqc (String c p) (String c' s)
| glob_star p u s :
    no_newline u -> glob_full eqc p s -> glob_full eqc (String "*" p) (u ++ s).

(** [p] matches somewhere inside [path]. *)
Definition glob_occurs (eqc : ascii -> ascii -> bool) (p path : string) : Prop :=
  exists pre mid post, path = pre ++ mid ++ post /\ glob_full eqc p mid.

(** A pattern matching a path, case-sensitively: wildcard patterns
    anywhere in the path, directory patterns as a prefix, file patterns
    as the whole path. *)
Definition matches_exact (p path : string) : Prop :=
  if str_contains p "*" then glob_occurs Ascii.eqb p path
  else if endswith p "/" then exists rest, path = p ++ rest
  else path = p.

(** The same, case-insensitively, file patterns as a substring. *)
Definition matches_folded (p path : string) : Prop :=
  if str_contains p "*" then glob_occurs (char_eq true) p path
  else if endswith p "/" then exists rest, str_lower path = str_lower p ++ rest
  else exists pre post, str_lower path = pre ++ str_lower p ++ post.

(** The tokens [re_compile] makes of a translated glob. *)
Fixpoint glob_tokens (p : string) : list rtok :=
  match p with
  | EmptyString => []
  | String "*" p' => RDotStar :: glob_tokens p'
  | String c p' => RLit c :: glob_tokens p'
  end.

(** [s.replace(c, new)] for a one-character [c]. *)
Fixpoint replace_char (c : ascii) (new s : string) : string :=
  match s with
  | EmptyString => EmptyString
  | String c' s' => if Ascii.eqb c' c then new ++ replace_char c new s'
                    else String c' (replace_char c new s')
  end.

End PatternSpec.

(* ------------------------------------------------------------------ *)
(** ** tier_classifier.py: TierClassifier *)

Module TierClassifier.

(** A signal mapping; its keys are distinct, [signals.get(k, False)] is
    [dict_get signals k false]. *)
Abbreviation signals_t := (list (string * bool)).

Inductive tier_t := Tier (n : nat) | Archived.

Record classification := {
  tier : tier_t;
  business_criticality : string;
  confidence_score : Z;
  reasons : list string
}.

Definition TIER_MAPPING (t : tier_t) : string :=
  match t with
  | Tier 1 => "very high"
  | Tier 2 => "high"
  | Tier 3 => "medium"
  | Tier 4 => "low"
  | Tier _ => ""
  | Archived => "none"
  end.

Definition get (signals : signals_t) (k : string) : bool := dict_get signals k false.

(** [_is_tier_1]: [Some reason] when it returns [True] after appending
    [reason] to [self.reasons]. *)
Definition _is_tier_1 (signals : signals_t) : option string :=
  let has_containers := get signals "has_dockerfile" || get signals "has_kubernetes_config" in
  let has_environments := get signals "has_environments" in
  let has_monitoring := get signals "has_monitoring_config" in
  let is_active := get signals "recent_commits_30d" in
  if has_containers && has_environments && has_monitoring && is_active then
    Some "Containerized production system with monitoring and active maintenance"
  else
    let has_k8s := get signals "has_kubernetes_config" in
    let has_releases := get signals "has_releases" in
    let has_protection := get signals "has_branch_protection" in
    if has_k8s && has_releases && has_protection && has_monitoring then
      Some "Kubernetes-based production system with release management"
    else None.

Definition _is_tier_2 (signals : signals_t) : option string :=
  let has_cicd := get signals "has_ci_cd" in
  let has_releases := get signals "has_releases" in
  let has_protection := get signals "has_branch_protection" in
  let multiple_contributors := get signals "multiple_contributors" in
  if has_cicd && has_releases && has_protection && multiple_contributors then
    Some "Well-maintained codebase with release process and team collaboration"
  else
    let has_containers := get signals "has_dockerfile" || get signals "has_kubernetes_config" in
    let has_monitoring := get signals "has_monitoring_config" in
    let is_active := get signals "recent_commits_30d" in
    if has_containers && (has_monitoring || has_cicd) && is_active then
      Some "Containerized system with production indicators"
    else None.

Definition _is_tier_3 (signals : signals_t) : option string :=
  let has_tests := get signals "has_tests" in
  let is_active := get signals "recent_commits_30d" in
  let has_docs := get signals "has_documentation" in
  if has_tests && is_active && has_docs then
    Some "Active development with testing and documentation"
  else
    let has_cicd := get signals "has_ci_cd" in
    if has_cicd && is_active then Some "Active development with automated testing"
    else
      let multiple_contributors := get signals "multiple_contributors" in
      if is_active && multiple_contributors then Some "Actively maintained by team"
      else None.

Definition count (signals : signals_t) (names : list string) : Z :=
  fold_left (fun acc s => acc + (if get signals s then 1 else 0))%Z names 0%Z.

Definition _calculate_confidence (signals : signals_t) (tier : nat) : Z :=
  let prod_count := count signals
    ["has_dockerfile"; "has_kubernetes_config"; "has_environments";
     "has_releases"; "has_monitoring_config"; "has_branch_protection"] in
  let dev_count := count signals
    ["has_ci_cd"; "has_tests"; "recent_commits_30d"; "active_prs_30d";
     "multiple_contributors"; "consistent_commit_pattern"] in
  let sec_count := count signals
    ["has_security_scanning"; "has_secret_scanning"; "has_dependency_scanning";
     "has_sast_config"] in
  let org_count := count signals
    ["has_documentation"; "has_api_specs"; "has_codeowners"; "has_security_md"] in
  let score :=
    match tier with
    | 1%nat => (prod_count * 15 + dev_count * 5 + sec_count * 5 + org_count * 3)%Z
    | 2%nat => (prod_count * 10 + dev_count * 10 + sec_count * 5 + org_count * 3)%Z
    | 3%nat => (prod_count * 5 + dev_count * 12 + sec_count * 5 + org_count * 5)%Z
    | _ => (prod_count * 3 + dev_count * 5 + sec_count * 3 + org_count * 10)%Z
    end in
  Z.min score 100.

Definition _build_result (t : nat) (conf : Z) (reasons : list string) : classification :=
  {| tier := Tier t; business_criticality := TIER_MAPPING (Tier t);
     confidence_score := conf; reasons := reasons |}.

(** [classify(signals, days_since_last_commit)]; [None] is a missing day
    count. *)
Definition classify (signals : signals_t) (days_since_last_commit : option Z)
    : classification :=
  let archived :=
    match days_since_last_commit with
    | Some d => negb (d =? 0)%Z && (180 <? d)%Z
    | None => false
    end in
  if archived then
    {| tier := Archived; business_criticality := TIER_MAPPING Archived;
       confidence_score := 100;
       reasons := ["No commits in " ++ str_of_Z (default 0%Z days_since_last_commit) ++ " days"] |}
  else
    match _is_tier_1 signals with
    | Some r => _build_result 1 (_calculate_confidence signals 1) [r]
    | None =>
    match _is_tier_2 signals with
    | Some r => _build_result 2 (_calculate_confidence signals 2) [r]
    | None =>
    match _is_tier_3 signals with
    | Some r => _build_result 3 (_calculate_confidence signals 3) [r]
    | None =>
        _build_result 4 (_calculate_confidence signals 4)
          ["Does not meet criteria for higher tiers"]
    end end end.

End TierClassifier.

(* ------------------------------------------------------------------ *)
(** ** The two producers of signal mappings *)

Module SignalSources.
Import PatternSignals.

(** What the PyGithub probes of [SignalDetector] return, each already
    through its own [try]/[except] (a failed probe returns [False]). *)
Record api_probes := {
  p_environments : bool;          (* _detect_github_environments *)
  p_releases : bool;              (* _detect_github_releases *)
  p_branch_protection : bool;     (* _detect_branch_protection *)
  p_recent_commits_30d : bool;    (* _detect_recent_commits(30) *)
  p_active_prs_30d : bool;        (* _detect_active_prs(30) *)
  p_multiple_contributors : bool; (* _detect_multiple_contributors(90) *)
  p_dependabot : bool;            (* _detect_dependabot *)
  p_recent_releases_90d : bool;   (* _detect_recent_releases(90) *)
  p_commit_pattern : bool;        (* _detect_commit_pattern *)
  p_readme_length : option nat;   (* len of get_readme(), None if it raises *)
  p_vulnerability_alert : bool    (* _detect_secret_scanning_enabled *)
}.

Definition _detect_documentation (tree : list string) (p : api_probes) : bool :=
  let has_docs_dir := _detect_pattern tree (firstn (List.length DOCS_PATTERNS - 2) DOCS_PATTERNS) in
  match p_readme_length p with
  | Some n => has_docs_dir || (500 <? n)%nat
  | None => has_docs_dir
  end.

(** [path.rsplit('/', 1)[0]] for a path containing ['/']. *)
Definition dirname (path : string) : string :=
  match rev (split_on "/" path) with
  | _ :: rest => join "/" (rev rest)
  | [] => path
  end.

Definition _detect_monorepo (tree : list string) : bool :=
  let package_files_found :=
    List.concat (map (fun '(_, files) =>
      List.concat (map (fun package_file =>
        let matches := filter (fun path => endswith path package_file) tree in
        if (1 <? List.length matches)%nat then matches else []) files))
      PACKAGE_PATTERNS) in
  if (2 <=? List.length package_files_found)%nat then
    let directories :=
      map dirname (filter (fun path => str_contains path "/") package_files_found) in
    (2 <=? List.length (nodup string_dec directories))%nat
  else false.

Definition _detect_dependency_scanning (tree : list string) : bool :=
  (_detect_file_exact tree ".github/dependabot.yml" || _detect_file_exact tree ".github/dependabot.yaml")
  || (_detect_file_exact tree "renovate.json" || _detect_file_exact tree ".renovaterc").

(** [SignalDetector.detect_all_signals], given the cached file tree. *)
Definition detect_all_signals (tree : list string) (p : api_probes) : list (string * bool) :=
  [("has_dockerfile", _detect_pattern tree DOCKERFILE_PATTERNS);
   ("has_kubernetes_config", _detect_pattern tree KUBERNETES_PATTERNS);
   ("has_ci_cd", _detect_pattern tree CI_CD_PATTERNS);
   ("has_terraform", _detect_pattern tree TERRAFORM_PATTERNS);
   ("has_deployment_scripts", _detect_pattern tree DEPLOYMENT_SCRIPT_PATTERNS);
   ("has_procfile", _detect_file_exact tree "Procfile");
   ("has_environments", p_environments p);
   ("has_releases", p_releases p);
   ("has_branch_protection", p_branch_protection p);
   ("has_monitoring_config", _detect_pattern tree MONITORING_PATTERNS);
   ("has_ssl_config", _detect_pattern tree SSL_PATTERNS);
   ("has_database_migrations", _detect_pattern tree DATABASE_MIGRATION_PATTERNS);
   ("recent_commits_30d", p_recent_commits_30d p);
   ("active_prs_30d", p_active_prs_30d p);
   ("multiple_contributors", p_multiple_contributors p);
   ("has_dependabot_activity", p_dependabot p);
   ("recent_releases_90d", p_recent_releases_90d p);
   ("consistent_commit_pattern", p_commit_pattern p);
   ("has_tests", _detect_pattern tree TEST_PATTERNS);
   ("has_documentation", _detect_documentation tree p);
   ("has_api_specs", _detect_pattern tree API_SPEC_PATTERNS);
   ("has_codeowners", _detect_file_exact tree "CODEOWNERS" || _detect_file_exact tree ".github/CODEOWNERS");
   ("has_security_md", _detect_pattern tree SECURITY_PATTERNS);
   ("is_monorepo", _detect_monorepo tree);
   ("has_security_scanning", _detect_pattern tree SECURITY_SCANNING_PATTERNS);
   ("has_secret_scanning", p_vulnerability_alert p);
   ("has_dependency_scanning", _detect_dependency_scanning tree);
   ("has_gitleaks_config", _detect_pattern tree GITLEAKS_PATTERNS);
   ("has_sast_config", _detect_pattern tree SAST_PATTERNS)].

(** The parsed GraphQL repository data; ISO timestamps are kept as
    seconds, a missing or empty one as [None]. *)
Record pull_request := { pr_updatedAt : option Z; pr_author : string }.

Record repo_data := {
  fileTree : list string;
  environments_totalCount : Z;
  releases_totalCount : Z;
  releases_recent : list (option Z);
  branchProtection_totalCount : Z;
  pullRequests_recent : list pull_request;
  vulnerabilityAlerts_totalCount : Z;
  codeowners_content : string;
  commits_lastCommitDate : option Z;
  commits_contributorCount : Z;
  readme : option string
}.

Definition days_s (days : Z) : Z := days * 86400.

Definition _has_recent_release (rd : repo_data) (now : Z) (days : Z) : bool :=
  existsb (fun c => match c with
                    | Some created_at => (now - days_s days <=? created_at)%Z
                    | None => false
                    end) (releases_recent rd).

Definition _has_recent_commits (rd : repo_data) (now : Z) (days : Z) : bool :=
  match commits_lastCommitDate rd with
  | Some d => (now - days_s days <=? d)%Z
  | None => false
  end.

Definition _has_active_prs (rd : repo_data) (now : Z) (days : Z) : bool :=
  existsb (fun pr => match pr_updatedAt pr with
                     | Some u => (now - days_s days <=? u)%Z
                     | None => false
                     end) (pullRequests_recent rd).

Definition _has_dependabot_prs (rd : repo_data) : bool :=
  existsb (fun pr => let author := str_lower (pr_author pr) in
                     FindingsConverter.nonempty author && str_contains author "dependabot")
    (pullRequests_recent rd).

(** [GitHubRepositoryCollector._detect_signals_from_graphql] *)
Definition _detect_signals_from_graphql (rd : repo_data) (now : Z) : list (string * bool) :=
  let file_paths := fileTree rd in
  [("has_dockerfile", _check_patterns file_paths DOCKERFILE_PATTERNS);
   ("has_kubernetes_config", _check_patterns file_paths KUBERNETES_PATTERNS);
   ("has_ci_cd", _check_patterns file_paths CI_CD_PATTERNS);
   ("has_terraform", _check_patterns file_paths TERRAFORM_PATTERNS);
   ("has_deployment_scripts", _check_patterns file_paths DEPLOYMENT_SCRIPT_PATTERNS);
   ("has_environments", (0 <? environments_totalCount rd)%Z);
   ("has_monitoring", _check_patterns file_paths MONITORING_PATTERNS);
   ("has_releases", (0 <? releases_totalCount rd)%Z);
   ("recent_release_90d", _has_recent_release rd now 90);
   ("has_branch_protection", (0 <? branchProtection_totalCount rd)%Z);
   ("has_codeowners", FindingsConverter.nonempty (codeowners_content rd));
   ("recent_commits_30d", _has_recent_commits rd now 30);
   ("recent_commits_90d", _has_recent_commits rd now 90);
   ("active_contributors", (2 <=? commits_contributorCount rd)%Z);
   ("active_prs_30d", _has_active_prs rd now 30);
   ("has_dependabot", _has_dependabot_prs rd);
   ("has_tests", _check_patterns file_paths TEST_PATTERNS);
   ("has_documentation", _check_patterns file_paths DOCS_PATTERNS);
   ("has_readme", match readme rd with Some r => FindingsConverter.nonempty r | None => false end);
   ("readme_length_500", match readme rd with
                         | Some r => FindingsConverter.nonempty r && (500 <=? String.length r)%nat
                         | None => false end);
   ("has_api_spec", _check_patterns file_paths API_SPEC_PATTERNS);
   ("has_changelog", _check_patterns file_paths ["CHANGELOG"; "CHANGELOG.md"; "HISTORY.md"]);
   ("has_security_policy", _check_patterns file_paths ["SECURITY.md"; ".github/SECURITY.md"]);
   ("has_secret_scanning", (0 <? vulnerabilityAlerts_totalCount rd)%Z);
   ("has_sbom", _check_patterns file_paths [".sbom"; "sbom.json"; "sbom.xml"; "bom.json"]);
   ("has_security_txt", _check_patterns file_paths ["security.txt"; ".well-known/security.txt"]);
   ("has_code_scanning", _check_patterns file_paths [".github/workflows/codeql"; "codeql"]);
   ("has_package_manager", _check_patterns file_paths
      ["package.json"; "requirements.txt"; "Gemfile"; "pom.xml"; "build.gradle"; "Cargo.toml"; "go.mod"]);
   ("has_license", _check_patterns file_paths ["LICENSE"; "LICENSE.md"; "LICENSE.txt"; "COPYING"]);
   ("has_contributing_guide", _check_patterns file_paths ["CONTRIBUTING.md"; ".github/CONTRIBUTING.md"]);
   ("has_code_of_conduct", _check_patterns file_paths ["CODE_OF_CONDUCT.md"; ".github/CODE_OF_CONDUCT.md"]);
   ("has_issue_templates", _check_patterns file_paths [".github/ISSUE_TEMPLATE/"; ".github/issue_template.md"]);
   ("has_pr_template", _check_patterns file_paths [".github/pull_request_template.md"; ".github/PULL_REQUEST_TEMPLATE"]);
   ("has_gitignore", _check_patterns file_paths [".gitignore"])].

End SignalSources.

(* ------------------------------------------------------------------ *)
(** ** auto_triage/rules.py and auto_triage/engine.py *)

Module AutoTriage.

(** The [Product] columns the rules read. *)
Record product := {
  business_criticality : string;
  has_kubernetes_config : bool;
  has_environments : bool;
  has_releases : bool;
  recent_commits_30d : bool;
  active_prs_30d : bool;
  multiple_contributors : bool;
  days_since_last_commit : option Z
}.

(** A [Finding] with [test.engagement.product] loaded ([None]: no
    product); EPSS scores are kept as exact rationals. *)
Record finding := {
  severity : string;
  epss_score : option Q;
  f_product : option product
}.

Definition PENDING := "PENDING".
Definition DISMISS := "DISMISS".
Definition ESCALATE := "ESCALATE".
Definition ACCEPT_RISK := "ACCEPT_RISK".

Definition get_product (f : finding) : option product := f_product f.

Definition is_tierN (bc : string) (f : finding) : bool :=
  match get_product f with
  | Some p => String.eqb (business_criticality p) bc
  | None => false
  end.
Definition is_tier1_product := is_tierN "very high".
Definition is_tier2_product := is_tierN "high".
Definition is_tier3_product := is_tierN "medium".
Definition is_tier4_product := is_tierN "low".
Definition is_archived_product := is_tierN "none".

Definition has_high_epss (f : finding) (threshold : Q) : bool :=
  match epss_score f with Some s => Qle_bool threshold s | None => false end.
Definition has_medium_epss (f : finding) (min_threshold max_threshold : Q) : bool :=
  match epss_score f with
  | Some s => Qle_bool min_threshold s && negb (Qle_bool max_threshold s)
  | None => false
  end.
Definition has_low_epss (f : finding) (threshold : Q) : bool :=
  match epss_score f with Some s => negb (Qle_bool threshold s) | None => false end.

Definition is_critical_or_high_severity (f : finding) : bool :=
  list_contains ["Critical"; "High"] (severity f).
Definition is_low_or_info_severity (f : finding) : bool :=
  list_contains ["Low"; "Info"] (severity f).

Definition has_production_signal (f : finding) : bool :=
  match get_product f with
  | Some p => has_kubernetes_config p || has_environments p || has_releases p
  | None => false
  end.
Definition has_active_development (f : finding) : bool :=
  match get_product f with
  | Some p => recent_commits_30d p && active_prs_30d p && multiple_contributors p
  | None => false
  end.
Definition is_dormant_repo (f : finding) (days_threshold : Z) : bool :=
  match get_product f with
  | Some p => match days_since_last_commit p with
              | Some d => (days_threshold <? d)%Z
              | None => false
              end
  | None => false
  end.

(** Reading the module-level name [finding] inside a rule: [rules.py]
    binds no such global. *)
Definition global_finding_lookup : py finding :=
  Raise (Exc "NameError" "name 'finding' is not defined").

(** Python's short-circuit [and] on conditions that may raise. *)
Definition py_and (a : py bool) (b : unit -> py bool) : py bool :=
  let? x := a in if x then b tt else Ok false.

Record rule := {
  name : string;
  condition : finding -> py bool;
  decision : string;
  reason : string;
  confidence : option Z    (* rule.get('confidence', 80) *)
}.

Definition mk (n : string) (c : finding -> py bool) (d r : string) (conf : Z) : rule :=
  {| name := n; condition := c; decision := d; reason := r; confidence := Some conf |}.

Definition TRIAGE_RULES : list rule := [
  mk "critical_high_epss_tier1"
    (fun f => Ok (is_tier1_product f && has_high_epss f (7 # 10)
                  && is_critical_or_high_severity f && has_production_signal f))
    ESCALATE "Critical/High severity with very high EPSS score (≥70%) in Tier 1 production repository - immediate action required" 95;
  mk "high_epss_tier1_production"
    (fun f => Ok (is_tier1_product f && has_high_epss f (5 # 10) && has_production_signal f))
    ESCALATE "High EPSS score (≥50%) in Tier 1 production repository - requires priority remediation" 90;
  mk "critical_severity_tier1"
    (fun f => Ok (is_tier1_product f && is_critical_or_high_severity f && has_high_epss f (3 # 10)))
    ESCALATE "Critical/High severity in Tier 1 repository with moderate EPSS (≥30%)" 85;
  mk "high_epss_tier2_production"
    (fun f => Ok (is_tier2_product f && has_high_epss f (6 # 10) && has_production_signal f))
    ESCALATE "High EPSS score (≥60%) in Tier 2 production repository" 85;
  mk "critical_severity_tier2_active"
    (fun f => Ok (is_tier2_product f && is_critical_or_high_severity f
                  && has_high_epss f (4 # 10) && has_active_development f))
    ESCALATE "Critical/High severity in active Tier 2 repository with elevated EPSS (≥40%)" 80;
  mk "accept_archived_repo"
    (fun f => Ok (is_archived_product f))
    ACCEPT_RISK "Finding in archived repository - no active maintenance planned" 95;
  mk "accept_dormant_low_risk"
    (fun f => Ok (is_dormant_repo f 180 && has_low_epss f (1 # 10)
                  && negb (is_critical_or_high_severity f)))
    ACCEPT_RISK "Low risk finding in dormant repository (180+ days no commits) - deferred until repository reactivation" 85;
  mk "accept_low_epss_tier4"
    (fun f => Ok (is_tier4_product f && has_low_epss f (5 # 100) && is_low_or_info_severity f))
    ACCEPT_RISK "Low severity with minimal EPSS (<5%) in Tier 4 repository - accepted risk" 80;
  mk "dismiss_very_low_epss_tier3_or_4"
    (fun f => Ok ((is_tier3_product f || is_tier4_product f) && has_low_epss f (2 # 100)
                  && negb (is_critical_or_high_severity f)))
    DISMISS "Very low EPSS score (<2%) in non-critical repository (Tier 3/4) - minimal exploitation risk" 85;
  mk "dismiss_info_severity_low_epss"
    (fun f => py_and (let? g := global_finding_lookup in Ok (String.eqb (severity g) "Info"))
                     (fun _ => Ok (has_low_epss f (1 # 10))))
    DISMISS "Informational severity with low EPSS (<10%) - not actionable" 90;
  mk "dismiss_low_epss_tier4_no_production"
    (fun f => Ok (is_tier4_product f && has_low_epss f (1 # 10) && negb (has_production_signal f)))
    DISMISS "Low EPSS (<10%) in non-production Tier 4 repository - minimal business impact" 80;
  mk "review_medium_epss_tier2"
    (fun f => Ok (is_tier2_product f && has_medium_epss f (2 # 10) (5 # 10)))
    PENDING "Medium EPSS score (20-50%) in Tier 2 repository - manual assessment recommended" 70;
  mk "review_high_severity_no_epss"
    (fun f => py_and (Ok (is_critical_or_high_severity f))
                (fun _ => py_and (let? g := global_finding_lookup in
                                  Ok (match epss_score g with None => true | Some _ => false end))
                            (fun _ => Ok (is_tier1_product f || is_tier2_product f))))
    PENDING "High/Critical severity in Tier 1/2 without EPSS score - manual triage required" 75;
  mk "default_pending" (fun _ => Ok true)
    PENDING "No specific auto-triage rule matched - requires manual review" 50
].

Record triage_result := {
  t_decision : string;
  t_reason : string;
  t_rule_name : string;
  t_confidence : Z
}.

Definition no_match : triage_result :=
  {| t_decision := PENDING; t_reason := "No auto-triage rule matched - requires manual review";
     t_rule_name := "default"; t_confidence := 0 |}.

(** The [for rule in self.rules] loop of [triage_single_finding]. *)
Fixpoint evaluate_rules (rules : list rule) (f : finding) : py triage_result :=
  match rules with
  | [] => Ok no_match
  | r :: rest =>
      match condition r f with
      | Ok true =>
          Ok {| t_decision := decision r; t_reason := reason r; t_rule_name := name r;
                t_confidence := default 80%Z (confidence r) |}
      | Ok false => evaluate_rules rest f
      | Raise e => if is_Exception e then evaluate_rules rest f else Raise e
      end
  end.

(** [AutoTriageEngine(rules).triage_single_finding(finding)];
    [self.rules = rules or TRIAGE_RULES], so [None] and [[]] both select
    the default rules. *)
Definition triage_single_finding (rules : list rule) (f : finding) : py triage_result :=
  let rules := match rules with [] => TRIAGE_RULES | _ => rules end in
  evaluate_rules rules f.

End AutoTriage.

(* ------------------------------------------------------------------ *)
(** ** epss_service/updater.py: EPSSUpdater._update_findings_with_scores *)

Module EPSSUpdater.

#[local] Set Warnings "-inexact-float".
Local Open Scope float_scope.

(** [SIGNIFICANT_CHANGE_THRESHOLD = 0.2]: the double nearest to 0.2, as
    Python reads the literal. *)
Definition SIGNIFICANT_CHANGE_THRESHOLD : float := 0.2.

Record finding := {
  f_id : nat;
  epss_score : option float;
  epss_percentile : option float
}.

(** The score dictionary [EPSSClient] builds for a CVE:
    [{'epss': float(...), 'percentile': float(...)}] (never empty). *)
Record score_data := { epss : float; percentile : float }.

Record stats := {
  findings_updated : nat;
  findings_unchanged : nat;
  findings_new_score : nat;
  significant_changes : nat;
  errors : nat
}.

Record state := {
  st_stats : stats;
  findings_to_triage : list nat;
  writes : list finding   (* the rows saved, in order *)
}.

Definition bump_updated (s : stats) :=
  {| findings_updated := S (findings_updated s); findings_unchanged := findings_unchanged s;
     findings_new_score := findings_new_score s; significant_changes := significant_changes s;
     errors := errors s |}.
Definition bump_unchanged (s : stats) :=
  {| findings_updated := findings_updated s; findings_unchanged := S (findings_unchanged s);
     findings_new_score := findings_new_score s; significant_changes := significant_changes s;
     errors := errors s |}.
Definition bump_new (s : stats) :=
  {| findings_updated := findings_updated s; findings_unchanged := findings_unchanged s;
     findings_new_score := S (findings_new_score s); significant_changes := significant_changes s;
     errors := errors s |}.
Definition bump_significant (s : stats) :=
  {| findings_updated := findings_updated s; findings_unchanged := findings_unchanged s;
     findings_new_score := findings_new_score s; significant_changes := S (significant_changes s);
     errors := errors s |}.
Definition bump_errors (s : stats) :=
  {| findings_updated := findings_updated s; findings_unchanged := findings_unchanged s;
     findings_new_score := findings_new_score s; significant_changes := significant_changes s;
     errors := S (errors s) |}.

(** Python's [x or d] for an optional float [x]: [None], [0.0] and
    [-0.0] are falsy, every other float (NaN included) is truthy. *)
Definition float_or (x : option float) (d : float) : float :=
  match x with
  | Some v => if PrimFloat.eqb v 0 then d else v
  | None => d
  end.

(** Python's [x == v] for an optional float [x] and a float [v]
    ([None == v] is [False]; floats compare as IEEE doubles). *)
Definition opt_float_eq (x : option float) (v : float) : bool :=
  match x with Some u => PrimFloat.eqb u v | None => false end.

Section Update.
(** [finding.save(update_fields=[...])] in its [transaction.atomic()]
    block, for the finding of that id: it goes through or raises. *)
Variable save : nat -> py unit.

(** One iteration of the [for finding in findings] loop. [cves] maps
    finding ids to CVE ids, [scores] CVE ids to fetched score data. The
    first component is [Raise e] when an exception escapes the loop (a
    non-[Exception] raised by the save), the second the state reached. *)
Definition update_one (cves : gmap nat string) (scores : gmap string score_data)
    (trigger_triage : bool) (st : state) (f : finding) : py unit * state :=
  match cves !! f_id f with
  | None => (Ok tt, st)
  | Some cve =>
      if negb (FindingsConverter.nonempty cve) then (Ok tt, st) else
      match scores !! cve with
      | None => (Ok tt, st)
      | Some sd =>
          let new_epss := epss sd in
          let new_percentile := percentile sd in
          let old_epss := float_or (epss_score f) 0.0 in
          let is_significant_change :=
            PrimFloat.leb SIGNIFICANT_CHANGE_THRESHOLD (PrimFloat.abs (new_epss - old_epss)) in
          let tracked :=
            match epss_score f with
            | None => Some (bump_new (st_stats st))
            | Some old =>
                if PrimFloat.eqb old new_epss && opt_float_eq (epss_percentile f) new_percentile
                then None
                else Some (bump_updated (st_stats st))
            end in
          match tracked with
          | None =>
              (Ok tt, {| st_stats := bump_unchanged (st_stats st);
                         findings_to_triage := findings_to_triage st; writes := writes st |})
          | Some s1 =>
              let s2 := if is_significant_change then bump_significant s1 else s1 in
              let tri := if is_significant_change && trigger_triage
                         then (findings_to_triage st ++ [f_id f])%list
                         else findings_to_triage st in
              match save (f_id f) with
              | Ok _ =>
                  (Ok tt, {| st_stats := s2; findings_to_triage := tri;
                             writes := (writes st ++ [{| f_id := f_id f; epss_score := Some new_epss;
                                                         epss_percentile := Some new_percentile |}])%list |})
              | Raise e =>
                  if is_Exception e
                  then (Ok tt, {| st_stats := bump_errors s2; findings_to_triage := tri;
                                  writes := writes st |})
                  else (Raise e, {| st_stats := s2; findings_to_triage := tri; writes := writes st |})
              end
          end
      end
  end.

(** The loop over the findings; it stops at the first exception that
    escapes. The final [_trigger_auto_triage(findings_to_triage)] call is
    not modelled: the queue it receives is [findings_to_triage]. *)
Fixpoint update_loop (cves : gmap nat string) (scores : gmap string score_data)
    (trigger_triage : bool) (fs : list finding) (st : state) : py unit * state :=
  match fs with
  | [] => (Ok tt, st)
  | f :: fs' =>
      match update_one cves scores trigger_triage st f with
      | (Ok _, st1) => update_loop cves scores trigger_triage fs' st1
      | (Raise e, st1) => (Raise e, st1)
      end
  end.

Definition _update_findings_with_scores (findings : list finding) (cves : gmap nat string)
    (scores : gmap string score_data) (trigger_triage : bool) (st : state) : py unit * state :=
  update_loop cves scores trigger_triage findings st.

End Update.

End EPSSUpdater.

(* ------------------------------------------------------------------ *)
(** ** auto_triage/engine.py: applying decisions to findings *)

Module TriageEngine.
Import AutoTriage.

(** A [Finding] row as the engine reads it: its id, the fields the rules
    read, and the stored [auto_triage_decision]. *)
Record db_finding := {
  tf_id : nat;
  tf_finding : finding;
  auto_triage_decision : string
}.

(** [self.stats] apart from [total_findings], which the callers set from
    [findings.count()]. *)
Record engine_stats := {
  dismissed : nat;
  escalated : nat;
  accepted_risk : nat;
  pending : nat;
  errors : nat
}.

(** The three columns [_apply_triage_to_finding] saves. *)
Record triage_write := {
  w_id : nat;
  w_decision : string;
  w_reason : string;
  w_at : Z
}.

Definition bump_pending (s : engine_stats) : engine_stats :=
  {| dismissed := dismissed s; escalated := escalated s; accepted_risk := accepted_risk s;
     pending := S (pending s); errors := errors s |}.

Definition bump_errors (s : engine_stats) : engine_stats :=
  {| dismissed := dismissed s; escalated := escalated s; accepted_risk := accepted_risk s;
     pending := pending s; errors := S (errors s) |}.

(** The [if]/[elif] chain on [decision_data['decision']] after the save. *)
Definition bump_decision (d : string) (s : engine_stats) : engine_stats :=
  if String.eqb d DISMISS then
    {| dismissed := S (dismissed s); escalated := escalated s; accepted_risk := accepted_risk s;
       pending := pending s; errors := errors s |}
  else if String.eqb d ESCALATE then
    {| dismissed := dismissed s; escalated := S (escalated s); accepted_risk := accepted_risk s;
       pending := pending s; errors := errors s |}
  else if String.eqb d ACCEPT_RISK then
    {| dismissed := dismissed s; escalated := escalated s; accepted_risk := S (accepted_risk s);
       pending := pending s; errors := errors s |}
  else bump_pending s.

Section Engine.

(** [self.rules] as passed to [AutoTriageEngine(rules)]. *)
Variable rules : list rule.
(** The outcome of [finding.save(update_fields=...)] for the finding with
    this id; the [transaction.atomic] block keeps no write when it raises. *)
Variable save : nat -> py unit.
(** [timezone.now()] when the finding with this id is written. *)
Variable now : nat -> Z.

(** [_apply_triage_to_finding]: the stats and the writes so far. The
    closing [logger.debug] reads [finding.cve or finding.title[:50]];
    [title] is a non-null column, so it does not raise. *)
Definition _apply_triage_to_finding (tf : db_finding) (st : engine_stats)
    (ws : list triage_write) : py (engine_stats * list triage_write) :=
  let? d := triage_single_finding rules (tf_finding tf) in
  if String.eqb (auto_triage_decision tf) (t_decision d) then Ok (bump_pending st, ws)
  else
    let w := {| w_id := tf_id tf; w_decision := t_decision d;
                w_reason := t_reason d ++ " (Rule: " ++ t_rule_name d ++ ", Confidence: "
                            ++ str_of_Z (t_confidence d) ++ "%)";
                w_at := now (tf_id tf) |} in
    let? _ := save (tf_id tf) in
    Ok (bump_decision (t_decision d) st, (ws ++ [w])%list).

(** [_triage_findings_queryset] *)
Fixpoint _triage_findings_queryset (fs : list db_finding) (st : engine_stats)
    (ws : list triage_write) : py (engine_stats * list triage_write) :=
  match fs with
  | [] => Ok (st, ws)
  | tf :: rest =>
      match _apply_triage_to_finding tf st ws with
      | Ok (st', ws') => _triage_findings_queryset rest st' ws'
      | Raise e =>
          if is_Exception e then _triage_findings_queryset rest (bump_errors st) ws
          else Raise e
      end
  end.

End Engine.

End TriageEngine.

(* ------------------------------------------------------------------ *)
(** ** epss_service/updater.py: CVE extraction and batched fetching *)

Module EPSSFetch.
Import EPSSUpdater.

Definition ascii_upper (c : ascii) : ascii :=
  let n := nat_of_ascii c in
  if (97 <=? n)%nat && (n <=? 122)%nat then ascii_of_nat (n - 32) else c.

(** [s.upper()] *)
Fixpoint str_upper (s : string) : string :=
  match s with
  | EmptyString => EmptyString
  | String c s' => String (ascii_upper c) (str_upper s')
  end.

(** [s.split()] (no argument: runs of whitespace separate, empty words are
    dropped). [split_ws_go s] is the word [s] starts with (possibly empty)
    and the words after it. *)
Fixpoint split_ws_go (s : string) : string * list string :=
  match s with
  | EmptyString => (EmptyString, [])
  | String c s' =>
      let '(w, ws) := split_ws_go s' in
      if is_space c then (EmptyString, match w with EmptyString => ws | _ => w :: ws end)
      else (String c w, ws)
  end.

Definition split_ws (s : string) : list string :=
  let '(w, ws) := split_ws_go s in
  match w with EmptyString => ws | _ => w :: ws end.

(** A [Finding] as [_extract_cves_from_findings] reads it; [cf_cve] is
    [None] for a null [cve] column. *)
Record cve_finding := { cf_id : nat; cf_cve : option string }.

Definition index_error : exc := Exc "IndexError" "list index out of range".

(** The loop of [_extract_cves_from_findings] from the dictionary built
    so far. *)
Fixpoint extract_loop (fs : list cve_finding) (cves : gmap nat string)
    : py (gmap nat string) :=
  match fs with
  | [] => Ok cves
  | f :: rest =>
      match cf_cve f with
      | Some s =>
          if FindingsConverter.nonempty s then
            match split_ws (hd "" (split_on "," (strip s))) with
            | [] => Raise index_error
            | w :: _ =>
                let cve := str_upper w in
                extract_loop rest
                  (if startswith cve "CVE-" then <[cf_id f := cve]> cves else cves)
            end
          else extract_loop rest cves
      | None => extract_loop rest cves
      end
  end.

(** [_extract_cves_from_findings] *)
Definition _extract_cves_from_findings (fs : list cve_finding) : py (gmap nat string) :=
  extract_loop fs ∅.

Definition BATCH_SIZE : nat := 100.

(** [range(0, n, BATCH_SIZE)] *)
Definition batch_starts (n : nat) : list nat :=
  map (fun k => k * BATCH_SIZE)%nat (seq 0 ((n + BATCH_SIZE - 1) / BATCH_SIZE)).

(** [cves[i:i + BATCH_SIZE]] for each [i] of the range. *)
Definition batches (cves : list string) : list (list string) :=
  map (fun i => firstn BATCH_SIZE (skipn i cves)) (batch_starts (List.length cves)).

Section Fetch.

(** [self.epss_client.get_scores(batch)]: the scores or the exception. *)
Variable get_scores : list string -> py (gmap string score_data).

(** The loop of [_fetch_epss_scores] from [all_scores] and the [errors]
    counter so far; [all_scores.update(batch_scores)] lets the batch win. *)
Fixpoint fetch_loop (bs : list (list string)) (all_scores : gmap string score_data)
    (errs : nat) : py (gmap string score_data * nat) :=
  match bs with
  | [] => Ok (all_scores, errs)
  | batch :: rest =>
      match get_scores batch with
      | Ok batch_scores => fetch_loop rest (batch_scores ∪ all_scores) errs
      | Raise e => if is_Exception e then fetch_loop rest all_scores (S errs) else Raise e
      end
  end.

(** [_fetch_epss_scores(cves)]: the scores and the [errors] counter, from
    its value [errs] before the call. *)
Definition _fetch_epss_scores (cves : list string) (errs : nat)
    : py (gmap string score_data * nat) :=
  fetch_loop (batches cves) ∅ errs.

End Fetch.

End EPSSFetch.

(* ------------------------------------------------------------------ *)
(** ** alerts_collector.py: _build_alert_fields *)

Module AlertFields.

(** The parsed alert data: key to string, [None] for a JSON [null]. The
    [raw_data] entry, a nested object copied through unchanged, is not
    kept. *)
Abbreviation alert_data := (list (string * option string)).

Definition type_error : exc := Exc "TypeError" "'NoneType' object is not subscriptable".

Definition opt_str (v : option string) : pyval :=
  match v with Some s => PStr s | None => PNone end.

Definition opt_time (v : option Z) : pyval :=
  match v with Some t => PTime t | None => PNone end.

(** [alert_data.get(k, "")[:n]] *)
Definition slice_get (d : alert_data) (k : string) (n : nat) : py pyval :=
  match dict_get d k (Some "") with
  | Some s => Ok (PStr (truncate n s))
  | None => Raise type_error
  end.

(** [alert_data.get(k, "")[:n] if alert_data.get(k) else ""] *)
Definition guarded_get (d : alert_data) (k : string) (n : nat) : pyval :=
  match dict_get d k None with
  | Some s => if FindingsConverter.nonempty s then PStr (truncate n s) else PStr ""
  | None => PStr ""
  end.

Section BuildFields.

(** [self._parse_datetime]: it catches its own errors and returns [None]. *)
Variable _parse_datetime : option string -> option Z.

(** [_build_alert_fields(alert_data)]; the dict display is evaluated left
    to right, so the first [None] slice raises. *)
Definition _build_alert_fields (d : alert_data) : py (list (string * pyval)) :=
  let state := opt_str (dict_get d "state" (Some "")) in
  let severity := opt_str (dict_get d "severity" (Some "")) in
  let? title := slice_get d "title" 500 in
  let description := opt_str (dict_get d "description" (Some "")) in
  let? html_url := slice_get d "html_url" 600 in
  Ok [("state", state); ("severity", severity); ("title", title);
      ("description", description); ("html_url", html_url);
      ("cve", guarded_get d "cve" 50); ("package_name", guarded_get d "package_name" 255);
      ("cwe", guarded_get d "cwe" 50); ("rule_id", guarded_get d "rule_id" 200);
      ("file_path", guarded_get d "file_path" 1000);
      ("secret_type", guarded_get d "secret_type" 200);
      ("created_at", opt_time (_parse_datetime (dict_get d "created_at" None)));
      ("updated_at", opt_time (_parse_datetime (dict_get d "updated_at" None)));
      ("dismissed_at", opt_time (_parse_datetime (dict_get d "dismissed_at" None)));
      ("fixed_at", opt_time (_parse_datetime (dict_get d "fixed_at" None)))].

End BuildFields.

End AlertFields.

(* ------------------------------------------------------------------ *)
(** ** findings_converter.py: sync_repository_findings *)

Module FindingsSync.
Import FindingsConverter.

Record sync_stats := {
  total_alerts : nat;
  created : nat;
  updated : nat;
  errors : nat
}.

(** The [for alert in alerts] loop; [clock i] is [timezone.now()] while
    the [i]-th alert is converted. A failed [create_or_update_finding]
    is rolled back by its [transaction.atomic]. *)
Fixpoint sync_findings_loop (system_user : pyval) (clock : nat -> Z) (i : nat)
    (alerts : list gh_alert) (s : sync_stats) (st : db) : py (sync_stats * db) :=
  match alerts with
  | [] => Ok (s, st)
  | a :: rest =>
      match create_or_update_finding system_user a (clock i) st with
      | Ok ((_, was_created), st') =>
          let s' := if was_created
                    then {| total_alerts := total_alerts s; created := S (created s);
                            updated := updated s; errors := errors s |}
                    else {| total_alerts := total_alerts s; created := created s;
                            updated := S (updated s); errors := errors s |} in
          sync_findings_loop system_user clock (S i) rest s' st'
      | Raise e =>
          if is_Exception e then
            sync_findings_loop system_user clock (S i) rest
              {| total_alerts := total_alerts s; created := created s;
                 updated := updated s; errors := S (errors s) |} st
          else Raise e
      end
  end.

(** [sync_repository_findings(repository)] over the repository's alerts. *)
Definition sync_repository_findings (system_user : pyval) (clock : nat -> Z)
    (alerts : list gh_alert) (st : db) : py (sync_stats * db) :=
  sync_findings_loop system_user clock 0 alerts
    {| total_alerts := List.length alerts; created := 0; updated := 0; errors := 0 |} st.

End FindingsSync.

(* ------------------------------------------------------------------ *)
(** ** rest_client.py: GitHubRESTClient._map_codeql_severity *)

Module RestClient.

(** The [mapping] of [_map_codeql_severity]. *)
Definition codeql_severity_mapping : list (string * string) :=
  [("critical", "critical"); ("high", "high"); ("medium", "medium"); ("low", "low");
   ("warning", "low"); ("note", "info"); ("error", "medium")].

(** [_map_codeql_severity(rule.get("security_severity_level"))]: the
    [severity] that [_parse_codeql_alert] stores in the parsed alert, and
    that [_build_alert_fields] copies into the [GitHubAlert] row. *)
Definition _map_codeql_severity (security_severity_level : option string) : string :=
  match security_severity_level with
  | None => "medium"
  | Some l =>
      if String.eqb l "" then "medium"
      else dict_get codeql_severity_mapping (str_lower l) "medium"
  end.

(** A CodeQL [security_severity_level] that [_map_codeql_severity] does
    not recognise: missing, or not a key of its mapping once lower-cased. *)
Definition codeql_level_unrecognized (level : option string) : Prop :=
  match level with
  | None => True
  | Some l => ~ In (str_lower l) (map fst codeql_severity_mapping)
  end.

End RestClient.

(* ------------------------------------------------------------------ *)
(** ** Notions used by the properties below *)

Module EPSSFetchSpec.
Import EPSSFetch.

(** A character a CVE id kept by the extraction may contain. *)
Definition cve_char (c : ascii) : bool := negb (Ascii.eqb c ",") && negb (is_space c).

(** Whether the first comma-separated field of [t] is blank: after the
    leading whitespace, [t] ends or continues with a comma. *)
Definition first_field_blank (t : string) : bool :=
  match lstrip t with EmptyString => true | String c _ => Ascii.eqb c "," end.

(** The shape of every value the extraction keeps. *)
Definition kept_cve (c : string) : Prop :=
  startswith c "CVE-" = true /\ str_upper c = c /\
  forallb cve_char (list_ascii_of_string c) = true.

(** A finding whose [cve] is non-empty but whose first comma-separated
    field is blank. *)
Definition blank_cve (f : cve_finding) : Prop :=
  match cf_cve f with
  | Some s => s <> "" /\ first_field_blank s = true
  | None => False
  end.

End EPSSFetchSpec.

Module EPSSBatchSpec.
Import EPSSUpdater.

Section FetchSpec.
Variable get_scores : list string -> py (gmap string score_data).

Definition batch_failed (b : list string) : bool :=
  match get_scores b with Ok _ => false | Raise _ => true end.

End FetchSpec.

End EPSSBatchSpec.

Module EPSSUpdateSpec.
Import EPSSUpdater.

Section UpdateSpec.
Variable cves : gmap nat string.
Variable scores : gmap string score_data.

(** Whether the loop reaches the scoring step for [f]: a non-empty CVE
    with a fetched score. *)
Definition scored (f : finding) : bool :=
  match cves !! f_id f with
  | Some c => FindingsConverter.nonempty c &&
              match scores !! c with Some _ => true | None => false end
  | None => false
  end.

Definition counted (s : stats) : nat :=
  (findings_updated s + findings_unchanged s + findings_new_score s)%nat.

(** A row written for [f] carries the fetched score of [f]'s CVE. *)
Definition carries_score (f : finding) (w : finding) : Prop :=
  f_id w = f_id f /\
  exists c sd, cves !! f_id f = Some c /\ scores !! c = Some sd /\
               epss_score w = Some (epss sd) /\ epss_percentile w = Some (percentile sd).

End UpdateSpec.

(** The bookkeeping identity of the loop: every finding counted as
    updated or new either gets its row saved or adds one to [errors]. *)
Definition balanced (st st' : state) : Prop :=
  (List.length (writes st') + errors (st_stats st') +
   findings_updated (st_stats st) + findings_new_score (st_stats st) =
   List.length (writes st) + errors (st_stats st) +
   findings_updated (st_stats st') + findings_new_score (st_stats st'))%nat.

End EPSSUpdateSpec.

Module AlertsSpec.

(** [t] is a run of slashes (possibly empty). *)
Definition all_slashes (t : string) : bool :=
  forallb (fun c => Ascii.eqb c "/") (list_ascii_of_string t).

End AlertsSpec.

Module AlertFieldsSpec.

(** The text columns of [GitHubAlert] that [_build_alert_fields] cuts,
    with their limits. *)
Definition text_limits : list (string * nat) :=
  [("title", 500); ("html_url", 600); ("cve", 50); ("package_name", 255);
   ("cwe", 50); ("rule_id", 200); ("file_path", 1000); ("secret_type", 200)]%nat.

End AlertFieldsSpec.

Module FindingsSyncSpec.
Import FindingsConverter.

(** The alert's repository has no product. *)
Definition no_product (a : gh_alert) : bool :=
  match a_repo_product a with Some _ => false | None => true end.

End FindingsSyncSpec.

Module TriageEngineSpec.
Import AutoTriage TriageEngine.

Section EngineSpec.
Variable rules : list rule.
Variable save : nat -> py unit.
Variable now : nat -> Z.

(** The five counters of [self.stats] besides [total_findings]. *)
Definition stats_total (s : engine_stats) : nat :=
  dismissed s + escalated s + accepted_risk s + pending s + errors s.

(** The findings whose decision changed and whose save went through. *)
Definition written (tf : db_finding) : bool :=
  match triage_single_finding rules (tf_finding tf) with
  | Ok d => if String.eqb (auto_triage_decision tf) (t_decision d) then false
            else match save (tf_id tf) with Ok _ => true | Raise _ => false end
  | Raise _ => false
  end.

(** The findings for which [_apply_triage_to_finding] raised. *)
Definition failed (tf : db_finding) : bool :=
  match triage_single_finding rules (tf_finding tf) with
  | Ok d => if String.eqb (auto_triage_decision tf) (t_decision d) then false
            else match save (tf_id tf) with Ok _ => false | Raise _ => true end
  | Raise _ => true
  end.

(** A write that records the rule decision for a finding of [fs] whose
    stored decision was different. *)
Definition decision_write (fs : list db_finding) (w : triage_write) : Prop :=
  exists tf d, In tf fs /\ w_id w = tf_id tf /\
    triage_single_finding rules (tf_finding tf) = Ok d /\
    w_decision w = t_decision d /\ w_decision w <> auto_triage_decision tf /\
    w_at w = now (tf_id tf).

End EngineSpec.

End TriageEngineSpec.

(* ------------------------------------------------------------------ *)
(** ** Concrete inputs *)

Module Scenarios.
Import FindingsConverter.

(** A CodeQL alert of repository [acme/api], created at [t = 1000]. *)
Definition codeql_alert (state : string) (severity : option string)
    (fixed_at : option Z) : gh_alert := {|
  a_id := 7; a_repo_name := "acme/api"; a_repo_github_repo_id := 42;
  a_repo_product := Some 1%nat; a_alert_type := "codeql"; a_github_alert_id := "3";
  a_state := state; a_severity := severity; a_title := "SQL injection";
  a_description := ""; a_html_url := "https://github.com/acme/api/security/code-scanning/3";
  a_cve := ""; a_package_name := ""; a_package_ecosystem := "";
  a_vulnerable_version := ""; a_patched_version := ""; a_cwe := "CWE-89";
  a_rule_id := "py/sql-injection"; a_file_path := "app.py"; a_secret_type := "";
  a_start_line := Some 10%Z; a_end_line := Some 12%Z; a_created_at := Some 1000%Z;
  a_fixed_at := fixed_at |}.

(** A database holding the CodeQL test type and nothing else. *)
Definition db0 : db := {|
  engagements := []; test_types := [TEST_TYPE_CODEQL]; tests := [];
  findings := ∅; next_finding_id := 1; alert_finding := ∅ |}.

Definition system_user : pyval := PStr "github-collector".

End Scenarios.

Module AlertScenarios.
Import AlertsCollector.

Definition repo (id : nat) (name : string) : repository := {|
  r_id := id; r_name := name; r_github_url := "https://github.com/acme/" ++ name;
  r_dependabot_alert_count := 0; r_codeql_alert_count := 0;
  r_secret_scanning_alert_count := 0; r_last_alert_sync := None |}.

Definition all_ok : fetch_outcomes :=
  {| fetch_dependabot := Ok 3%nat; fetch_codeql := Ok 1%nat; fetch_secret_scanning := Ok 0%nat |}.

(** The CodeQL endpoint answering 403. *)
Definition codeql_forbidden : fetch_outcomes :=
  {| fetch_dependabot := Ok 3%nat;
     fetch_codeql := Raise (Exc "GithubException" "403 Forbidden");
     fetch_secret_scanning := Ok 0%nat |}.

(** 10% of the GraphQL quota left, 80% of the REST quota left. *)
Definition low_graphql_quota : rate_limit_status :=
  {| graphql_remaining := 500; graphql_limit := 5000;
     rest_remaining := 4000; rest_limit := 5000 |}.

Definition never_synced (_ : repository) (_ : option alert_sync) (_ : Z) : bool := true.

End AlertScenarios.

Module SignalScenarios.
Import SignalSources.

Definition now : Z := 1700000000.

(** A containerised service with a Prometheus configuration. *)
Definition prod_tree : list string := ["Dockerfile"; "prometheus.yml"; "README.md"].

(** The PyGithub probes of that repository. *)
Definition prod_probes : api_probes := {|
  p_environments := true; p_releases := true; p_branch_protection := true;
  p_recent_commits_30d := true; p_active_prs_30d := true; p_multiple_contributors := true;
  p_dependabot := false; p_recent_releases_90d := false; p_commit_pattern := true;
  p_readme_length := Some 1200%nat; p_vulnerability_alert := false |}.

(** The same repository as returned by the bulk GraphQL query. *)
Definition prod_repo_data : repo_data := {|
  fileTree := prod_tree; environments_totalCount := 2; releases_totalCount := 5;
  releases_recent := [Some (now - 86400)%Z]; branchProtection_totalCount := 1;
  pullRequests_recent := [{| pr_updatedAt := Some (now - 3600)%Z; pr_author := "alice" |}];
  vulnerabilityAlerts_totalCount := 0; codeowners_content := "";
  commits_lastCommitDate := Some (now - 86400)%Z; commits_contributorCount := 4;
  readme := None |}.

End SignalScenarios.

Module TriageScenarios.
Import AutoTriage.

Definition tier1_k8s_product : product := {|
  business_criticality := "very high"; has_kubernetes_config := true;
  has_environments := false; has_releases := false; recent_commits_30d := true;
  active_prs_30d := true; multiple_contributors := true; days_since_last_commit := Some 3%Z |}.

Definition tier2_plain_product : product := {|
  business_criticality := "high"; has_kubernetes_config := false;
  has_environments := false; has_releases := false; recent_commits_30d := false;
  active_prs_30d := false; multiple_contributors := false; days_since_last_commit := None |}.

Definition critical_finding : finding :=
  {| severity := "Critical"; epss_score := Some (75 # 100); f_product := Some tier1_k8s_product |}.

Definition info_finding : finding :=
  {| severity := "Info"; epss_score := Some (5 # 100); f_product := Some tier2_plain_product |}.

(** The answer of [triage_single_finding] when rule [r] fires. *)
Definition rule_result (r : rule) : triage_result :=
  {| t_decision := decision r; t_reason := reason r; t_rule_name := name r;
     t_confidence := default 80%Z (confidence r) |}.

(** Every condition of [rules] that raises on [f] raises an [Exception]
    (not a bare [BaseException]). *)
Definition raises_only_exceptions (rules : list rule) (f : finding) : bool :=
  forallb (fun r => match condition r f with Raise e => is_Exception e | Ok _ => true end) rules.

Definition escalate_critical_tier1 : triage_result := {|
  t_decision := ESCALATE;
  t_reason := "Critical/High severity with very high EPSS score (≥70%) in Tier 1 production repository - immediate action required";
  t_rule_name := "critical_high_epss_tier1";
  t_confidence := 95 |}.

End TriageScenarios.

Module EPSSScenarios.
Import EPSSUpdater.

#[local] Set Warnings "-inexact-float".
Local Open Scope float_scope.

Definition zero_stats : stats :=
  {| findings_updated := 0%nat; findings_unchanged := 0%nat; findings_new_score := 0%nat;
     significant_changes := 0%nat; errors := 0%nat |}.
Definition st0 : state := {| st_stats := zero_stats; findings_to_triage := []; writes := [] |}.

(** A finding scored 0.1 (percentile 0.5) whose CVE is now scored 0.4. *)
Definition f1 : finding := {| f_id := 1%nat; epss_score := Some 0.1; epss_percentile := Some 0.5 |}.
Definition cves1 : gmap nat string := {[ 1%nat := "CVE-2024-0001" ]}.
Definition scores1 : gmap string score_data :=
  {[ "CVE-2024-0001" := {| epss := 0.4; percentile := 0.9 |} ]}.


(** A database whose saves go through, and one whose saves fail. *)
Definition save_ok : nat -> py unit := fun _ => Ok tt.

End EPSSScenarios.

Module FindingsConverterFacts.
Import FindingsConverter.

Lemma lookup_set_fields (m : pyobj) (l : list (string * pyval)) (k : string) :
  set_fields m l !! k =
  match assoc_last l k with Some v => Some v | None => m !! k end.
Proof.
  revert m. induction l as [|[k' v] l IH]; intros m; [reflexivity|].
  cbn [set_fields foldl assoc_last]. unfold set_fields in IH. rewrite IH.
  destruct (assoc_last l k); [reflexivity|].
  destruct (String.eqb_spec k k') as [->|Hne].
  - apply lookup_insert_eq.
  - apply lookup_insert_ne. congruence.
Qed.

Lemma apply_state_as_updates sys f a now :
  _apply_state_to_finding sys f a now = set_fields f (state_updates sys a now).
Proof.
  unfold _apply_state_to_finding, state_updates.
  destruct (String.eqb (a_state a) "open"); [reflexivity|].
  destruct (String.eqb (a_state a) "fixed"); [reflexivity|].
  destruct (String.eqb (a_state a) "dismissed"); reflexivity.
Qed.

Lemma index_of_app_None `{EqDecision A} (x : A) (l : list A) :
  index_of x l = None -> index_of x (l ++ [x]) = Some (List.length l).
Proof.
  induction l as [|y l IH]; simpl.
  - intros _. destruct (decide (x = x)); [reflexivity|congruence].
  - destruct (decide (x = y)); [discriminate|].
    destruct (index_of x l); [discriminate|]. intros _. rewrite IH; reflexivity.
Qed.

Lemma get_or_create_row_again `{EqDecision A} (key : A) rows i rows' :
  get_or_create_row key rows = (i, rows') ->
  get_or_create_row key rows' = (i, rows').
Proof.
  unfold get_or_create_row. destruct (index_of key rows) eqn:E; intros H.
  - inversion H; subst. rewrite E. reflexivity.
  - inversion H; subst. rewrite index_of_app_None by exact E. reflexivity.
Qed.

Lemma engagement_again a st e st' st'' :
  _get_or_create_engagement a st = Ok (e, st') ->
  engagements st'' = engagements st' ->
  _get_or_create_engagement a st'' = Ok (e, st'') /\
  st' = set_engagements st (engagements st').
Proof.
  unfold _get_or_create_engagement. destruct (a_repo_product a) as [p|]; [|discriminate].
  destruct (get_or_create_row _ (engagements st)) as [i rows] eqn:E. intros H Heq.
  inversion H; subst; clear H. simpl in Heq.
  apply get_or_create_row_again in E. split; [|reflexivity].
  destruct st''; simpl in Heq |- *; subst. rewrite E. reflexivity.
Qed.

Lemma test_again ty e st t st' st'' :
  _get_or_create_test ty e st = Ok (t, st') ->
  tests st'' = tests st' -> test_types st'' = test_types st ->
  _get_or_create_test ty e st'' = Ok (t, st'') /\
  st' = set_tests st (tests st').
Proof.
  unfold _get_or_create_test.
  destruct (String.eqb (dict_get test_type_map ty "") "") ; [discriminate|].
  destruct (negb (list_contains (test_types st) _)) eqn:Hc; [discriminate|].
  destruct (get_or_create_row _ (tests st)) as [i rows] eqn:E. intros H Heq Hty.
  inversion H; subst; clear H. simpl in Heq.
  apply get_or_create_row_again in E. split; [|reflexivity].
  destruct st''; simpl in Heq, Hty |- *; subst. destruct st; simpl in *. rewrite Hc, E. reflexivity.
Qed.

Lemma engagement_shape a st e st' :
  _get_or_create_engagement a st = Ok (e, st') ->
  st' = set_engagements st (engagements st').
Proof.
  unfold _get_or_create_engagement. destruct (a_repo_product a); [|discriminate].
  destruct (get_or_create_row _ (engagements st)). intros H. inversion H. reflexivity.
Qed.

Lemma test_shape ty e st t st' :
  _get_or_create_test ty e st = Ok (t, st') -> st' = set_tests st (tests st').
Proof.
  unfold _get_or_create_test.
  destruct (String.eqb (dict_get test_type_map ty "") ""); [discriminate|].
  destruct (negb (list_contains (test_types st) _)); [discriminate|].
  destruct (get_or_create_row _ (tests st)). intros H. inversion H. reflexivity.
Qed.

Lemma convert_now_indep sys a t now1 now2 :
  a_created_at a <> None ->
  convert_alert_to_finding_fields sys a t now1 =
  convert_alert_to_finding_fields sys a t now2.
Proof.
  intros Hc. unfold convert_alert_to_finding_fields, _convert_dependabot_alert,
    _convert_codeql_alert, _convert_secret_scanning_alert, alert_date.
  destruct (a_created_at a); [reflexivity|congruence].
Qed.

Lemma convert_keys sys a t now lf :
  convert_alert_to_finding_fields sys a t now = Ok lf ->
  assoc_last lf "test" = Some (PTest t) /\
  assoc_last lf "unique_id_from_tool" = Some (PStr (_build_unique_id a)) /\
  assoc_last lf "id" = None.
Proof.
  unfold convert_alert_to_finding_fields.
  destruct (String.eqb (a_alert_type a) "dependabot");
    [intros H; inversion H; subst; split_and!; reflexivity|].
  destruct (String.eqb (a_alert_type a) "codeql");
    [intros H; inversion H; subst; split_and!; reflexivity|].
  destruct (String.eqb (a_alert_type a) "secret_scanning");
    [intros H; inversion H; subst; split_and!; reflexivity|discriminate].
Qed.

Lemma state_updates_keys sys a now :
  assoc_last (state_updates sys a now) "test" = None /\
  assoc_last (state_updates sys a now) "unique_id_from_tool" = None /\
  assoc_last (state_updates sys a now) "id" = None.
Proof.
  unfold state_updates.
  destruct (String.eqb (a_state a) "open"); [split_and!; reflexivity|].
  destruct (String.eqb (a_state a) "fixed"); [split_and!; reflexivity|].
  destruct (String.eqb (a_state a) "dismissed"); split_and!; reflexivity.
Qed.

Lemma state_updates_now_indep sys a now1 now2 :
  (a_state a = "fixed" -> a_fixed_at a <> None) ->
  state_updates sys a now1 = state_updates sys a now2.
Proof.
  intros Hfix. unfold state_updates.
  destruct (String.eqb (a_state a) "open"); [reflexivity|].
  destruct (String.eqb_spec (a_state a) "fixed") as [Hf|]; [|reflexivity].
  destruct (a_fixed_at a) eqn:Ef; [reflexivity|].
  exfalso. exact (Hfix Hf eq_refl).
Qed.

Lemma find_after_save t uid st found f aid :
  find_finding t uid st = Ok found ->
  f !! "test" = Some (PTest t) ->
  f !! "unique_id_from_tool" = Some (PStr uid) ->
  let '(fsaved, st') := save_and_link (option_map fst found) f aid st in
  find_finding t uid st' =
    Ok (Some (match found with Some (fid, _) => fid | None => next_finding_id st end,
              fsaved)) /\
  findings st' !! (match found with Some (fid, _) => fid | None => next_finding_id st end)
    = Some fsaved.
Proof.
  unfold find_finding. intros Hfind Ht Hu.
  set (P := fun kf : nat * pyobj =>
              kf.2 !! "test" = Some (PTest t) /\
              kf.2 !! "unique_id_from_tool" = Some (PStr uid)) in *.
  assert (Hfilt : (found = None /\ filter P (findings st) = ∅) \/
                  (exists fid f0, found = Some (fid, f0) /\
                                  filter P (findings st) = {[fid := f0]})).
  { destruct (map_to_list (filter P (findings st))) as [|[k v] [|? ?]] eqn:E.
    - left. inversion Hfind. split; [reflexivity|]. by apply map_to_list_empty_iff.
    - right. inversion Hfind; subst. exists k, v. split; [reflexivity|].
      rewrite <- (list_to_map_to_list (filter P (findings st))), E.
      simpl. apply insert_empty.
    - discriminate. }
  unfold save_and_link.
  destruct Hfilt as [[-> Hf] | (fid & f0 & -> & Hf)]; simpl.
  - assert (HP : P (next_finding_id st,
                    <["id" := PInt (Z.of_nat (next_finding_id st))]> f)).
    { unfold P; simpl. rewrite !lookup_insert_ne by discriminate. auto. }
    rewrite map_filter_insert_True by exact HP. rewrite Hf, insert_empty,
      map_to_list_singleton. split; [reflexivity|]. apply lookup_insert_eq.
  - assert (HP : P (fid, f)) by (unfold P; simpl; auto).
    rewrite map_filter_insert_True by exact HP. rewrite Hf, insert_singleton_eq,
      map_to_list_singleton. split; [reflexivity|]. apply lookup_insert_eq.
Qed.

Lemma set_fields_stable (f : pyobj) l1 l2 :
  (forall k v, match assoc_last l2 k with Some w => Some w | None => assoc_last l1 k end
               = Some v -> f !! k = Some v) ->
  set_fields (set_fields f l1) l2 = f.
Proof.
  intros Hf. apply map_eq. intros k. rewrite !lookup_set_fields.
  specialize (Hf k). destruct (assoc_last l2 k) eqn:E2.
  - symmetry. apply Hf. reflexivity.
  - destruct (assoc_last l1 k) eqn:E1; [symmetry; apply Hf; reflexivity|reflexivity].
Qed.

Lemma create_or_update_unfold sys a now st :
  create_or_update_finding sys a now st =
  (let? (engagement, st1) := _get_or_create_engagement a st in
   let? (test, st2) := _get_or_create_test (a_alert_type a) engagement st1 in
   let? found := find_finding test (_build_unique_id a) st2 in
   let? lf := convert_alert_to_finding_fields sys a test now in
   let base := match found with Some (_, f) => f | None => new_finding end in
   let '(finding, st3) :=
     save_and_link (option_map fst found)
       (set_fields (set_fields base lf) (state_updates sys a now)) (a_id a) st2 in
   Ok ((finding, match found with Some _ => false | None => true end), st3)).
Proof.
  unfold create_or_update_finding.
  destruct (_get_or_create_engagement a st) as [[e st1]|]; [|reflexivity].
  destruct (_get_or_create_test (a_alert_type a) e st1) as [[t st2]|]; [|reflexivity].
  destruct (find_finding t (_build_unique_id a) st2) as [[[fid f]|]|]; [| |reflexivity];
  (destruct (convert_alert_to_finding_fields sys a t now); [|reflexivity]);
  rewrite apply_state_as_updates; reflexivity.
Qed.

(** C1 (amended): when the alert carries its creation time, and carries
    its fix time whenever it is in state [fixed], a second projection of
    the unchanged alert, at any later clock reading, returns the same
    finding record with [created = False] and leaves the database as the
    first projection left it. *)
Theorem create_or_update_finding_idempotent sys a now1 now2 st f1 c1 st1 :
  create_or_update_finding sys a now1 st = Ok ((f1, c1), st1) ->
  (a_state a = "fixed" -> a_fixed_at a <> None) ->
  a_created_at a <> None ->
  create_or_update_finding sys a now2 st1 = Ok ((f1, false), st1).
Proof.
  intros H Hfix Hcr. rewrite create_or_update_unfold in H |- *.
  destruct (_get_or_create_engagement a st) as [[e sta]|] eqn:Ee; [|discriminate].
  destruct (_get_or_create_test (a_alert_type a) e sta) as [[t stb]|] eqn:Et;
    [|discriminate].
  destruct (find_finding t (_build_unique_id a) stb) as [found|] eqn:Ef; [|discriminate].
  destruct (convert_alert_to_finding_fields sys a t now1) as [lf|] eqn:Ec;
    [|discriminate].
  cbv zeta in H.
  set (base := match found with Some (_, f) => f | None => new_finding end) in H.
  set (ls := state_updates sys a now1) in H.
  set (fbase := set_fields (set_fields base lf) ls) in H.
  destruct (save_and_link (option_map fst found) fbase (a_id a) stb) as [fs st3] eqn:Es.
  injection H as <- _ <-.
  destruct (convert_keys _ _ _ _ _ Ec) as (Hlt & Hlu & Hli).
  destruct (state_updates_keys sys a now1) as (Hst & Hsu & Hsi).
  assert (Hfb : forall k v,
            match assoc_last ls k with Some w => Some w | None => assoc_last lf k end
            = Some v -> fbase !! k = Some v).
  { intros k v Hkv. unfold fbase. rewrite !lookup_set_fields.
    destruct (assoc_last ls k); [exact Hkv|]. destruct (assoc_last lf k); [exact Hkv|].
    discriminate. }
  pose proof (find_after_save t (_build_unique_id a) stb found fbase (a_id a) Ef) as Hsave.
  rewrite Es in Hsave.
  destruct Hsave as [Hfind Hlook].
  { apply Hfb. fold ls in Hst. rewrite Hst, Hlt. reflexivity. }
  { apply Hfb. fold ls in Hsu. rewrite Hsu, Hlu. reflexivity. }
  set (fid := match found with Some (fid, _) => fid | None => next_finding_id stb end)
    in Hfind, Hlook.
  (* what the first save wrote *)
  assert (Hst3 : st3 = {| engagements := engagements stb; test_types := test_types stb;
                          tests := tests stb; findings := <[fid := fs]> (findings stb);
                          next_finding_id := next_finding_id st3;
                          alert_finding := <[a_id a := fid]> (alert_finding stb) |} /\
                 (forall k v, match assoc_last ls k with Some w => Some w
                              | None => assoc_last lf k end = Some v -> fs !! k = Some v)).
  { unfold save_and_link in Es. unfold fid.
    destruct found as [[fid0 f0]|]; simpl in Es; injection Es as <- <-.
    - split; [reflexivity|exact Hfb].
    - split; [reflexivity|]. intros k v Hkv.
      destruct (String.eqb_spec k "id") as [->|Hne].
      + fold ls in Hsi. rewrite Hsi, Hli in Hkv. discriminate.
      + rewrite lookup_insert_ne by congruence. apply Hfb. exact Hkv. }
  destruct Hst3 as [Hst3 Hfs].
  (* the second call takes the same path *)
  pose proof (test_shape _ _ _ _ _ Et) as Hstb.
  destruct (engagement_again a st e sta st3 Ee) as [He2 _].
  { rewrite Hst3, Hstb. reflexivity. }
  rewrite He2.
  destruct (test_again (a_alert_type a) e sta t stb st3 Et) as [Ht2 _].
  { rewrite Hst3. reflexivity. }
  { rewrite Hst3, Hstb. reflexivity. }
  rewrite Ht2, Hfind. cbn iota beta.
  rewrite <- (convert_now_indep sys a t now1 now2 Hcr), Ec.
  rewrite <- (state_updates_now_indep sys a now1 now2 Hfix). fold ls.
  cbv zeta.
  rewrite (set_fields_stable fs lf ls Hfs).
  unfold save_and_link. simpl.
  rewrite (insert_id (findings st3) fid fs Hlook).
  rewrite Hst3 at 2. rewrite Hst3. simpl. rewrite insert_insert_eq. reflexivity.
Qed.

(** C1 counterexample: a [fixed] CodeQL alert without a fix time,
    projected at [now = 100] and again at [now = 200]; the second call
    rewrites [mitigated] from 100 to 200. *)
Lemma create_or_update_finding_mitigated_drift :
  exists f1 f2,
    project_twice Scenarios.system_user (Scenarios.codeql_alert "fixed" (Some "error") None)
      100 200 Scenarios.db0 = Ok ((f1, true), (f2, false)) /\
    f1 !! "mitigated" = Some (PTime 100) /\ f2 !! "mitigated" = Some (PTime 200).
Proof.
  assert (H : match project_twice Scenarios.system_user
                      (Scenarios.codeql_alert "fixed" (Some "error") None) 100 200
                      Scenarios.db0 with
              | Ok ((f1, c1), (f2, c2)) =>
                  c1 = true /\ c2 = false /\
                  f1 !! "mitigated" = Some (PTime 100) /\ f2 !! "mitigated" = Some (PTime 200)
              | Raise _ => False
              end) by (vm_compute; auto).
  destruct (project_twice _ _ _ _ _) as [[[f1 c1] [f2 c2]]|e]; [|contradiction].
  destruct H as (-> & -> & H1 & H2). eauto.
Qed.

(** Witness of C1: a [fixed] CodeQL alert with its fix time, projected
    into [db0] at [now = 100] and again at [now = 200]. *)
Lemma create_or_update_finding_idempotent_witness :
  exists f1 st1,
    create_or_update_finding Scenarios.system_user
      (Scenarios.codeql_alert "fixed" (Some "error") (Some 5000%Z)) 100 Scenarios.db0
      = Ok ((f1, true), st1) /\
    create_or_update_finding Scenarios.system_user
      (Scenarios.codeql_alert "fixed" (Some "error") (Some 5000%Z)) 200 st1
      = Ok ((f1, false), st1).
Proof.
  assert (H : match create_or_update_finding Scenarios.system_user
                      (Scenarios.codeql_alert "fixed" (Some "error") (Some 5000%Z)) 100
                      Scenarios.db0 with
              | Ok ((_, c1), _) => c1 = true
              | Raise _ => False
              end) by (vm_compute; reflexivity).
  destruct (create_or_update_finding _ _ 100 _) as [[[f1 c1] st1]|e] eqn:E;
    [|contradiction].
  subst c1. exists f1, st1. split; [reflexivity|].
  apply (create_or_update_finding_idempotent Scenarios.system_user
           (Scenarios.codeql_alert "fixed" (Some "error") (Some 5000%Z)) 100 200
           Scenarios.db0 f1 true st1 E).
  - intros _. discriminate.
  - discriminate.
Defined.

End FindingsConverterFacts.

Module SeverityFacts.
Import FindingsConverter.

Lemma dict_get_notin {V} (d : list (string * V)) k dflt :
  ~ In k (map fst d) -> dict_get d k dflt = dflt.
Proof.
  induction d as [|[k' v] d IH]; intros Hn; [reflexivity|]. simpl.
  destruct (String.eqb_spec k k') as [->|Hne].
  - exfalso. apply Hn. left. reflexivity.
  - apply IH. intros Hi. apply Hn. right. exact Hi.
Qed.

Lemma map_severity_unrecognized (o : option string) :
  (forall s, o = Some s -> ~ In (str_lower s) (map fst SEVERITY_MAP)) ->
  _map_severity o = "Info".
Proof.
  intros H. unfold _map_severity. destruct o as [s|]; [|reflexivity].
  destruct (String.eqb s "") eqn:Es; [reflexivity|].
  apply dict_get_notin, H. reflexivity.
Qed.

Lemma ascii_lower_idem c : ascii_lower (ascii_lower c) = ascii_lower c.
Proof. destruct c as [[] [] [] [] [] [] [] []]; reflexivity. Qed.

Lemma str_lower_idem s : str_lower (str_lower s) = str_lower s.
Proof. induction s as [|c s IH]; simpl; [reflexivity|]. rewrite ascii_lower_idem, IH. reflexivity. Qed.

Lemma map_codeql_severity_unrecognized level :
  RestClient.codeql_level_unrecognized level -> RestClient._map_codeql_severity level = "medium".
Proof.
  unfold RestClient.codeql_level_unrecognized, RestClient._map_codeql_severity.
  destruct level as [l|]; [|reflexivity]. intros Hn.
  destruct (String.eqb l ""); [reflexivity|]. apply dict_get_notin, Hn.
Qed.

(** C9: the severity defaults differ by taxonomy. A CodeQL alert reaches
    the converter with the severity [rest_client._map_codeql_severity]
    gave its rule's [security_severity_level]; when that level is missing
    or not one the mapping knows, the stored severity is ["medium"] and
    the finding gets [Medium]. A Dependabot alert reaches it with its
    advisory severity lower-cased ([graphql_client]); when that is not a
    key of [SEVERITY_MAP] the finding gets [Info]. (A secret-scanning
    alert is stored with severity ["high"] and always gets [Critical].) *)
Theorem severity_defaults_by_taxonomy sys a t now lf :
  convert_alert_to_finding_fields sys a t now = Ok lf ->
  (a_alert_type a = "codeql" ->
   forall level, RestClient.codeql_level_unrecognized level ->
   a_severity a = Some (RestClient._map_codeql_severity level) ->
   assoc_last lf "severity" = Some (PStr "Medium")) /\
  (a_alert_type a = "dependabot" ->
   forall s, ~ In (str_lower s) (map fst SEVERITY_MAP) ->
   a_severity a = Some (str_lower s) ->
   assoc_last lf "severity" = Some (PStr "Info")).
Proof.
  intros H. unfold convert_alert_to_finding_fields in H.
  destruct (String.eqb_spec (a_alert_type a) "dependabot") as [Ed|_];
    [|destruct (String.eqb_spec (a_alert_type a) "codeql") as [Ec|_];
      [|destruct (String.eqb_spec (a_alert_type a) "secret_scanning") as [Es|_]]];
    injection H as <- || discriminate H.
  - split; [rewrite Ed; discriminate|]. intros _ s Hs Ha.
    unfold _convert_dependabot_alert. simpl. rewrite map_severity_unrecognized; [reflexivity|].
    intros s' Hs'. rewrite Ha in Hs'. injection Hs' as <-. rewrite str_lower_idem. exact Hs.
  - split; [|rewrite Ec; discriminate]. intros _ level Hl Ha.
    unfold _convert_codeql_alert. simpl. unfold _map_severity.
    rewrite Ha, (map_codeql_severity_unrecognized level Hl). reflexivity.
  - split; intros Ht; rewrite Es in Ht; discriminate Ht.
Qed.

(** Witness of C9: a CodeQL alert whose rule has the unknown level
    [unknown] (stored as ["medium"]). *)
Lemma severity_defaults_by_taxonomy_witness :
  assoc_last (_convert_codeql_alert Scenarios.system_user
                (Scenarios.codeql_alert "open" (Some (RestClient._map_codeql_severity (Some "unknown"))) None)
                1 0) "severity"
  = Some (PStr "Medium").
Proof.
  refine (proj1 (severity_defaults_by_taxonomy Scenarios.system_user
                   (Scenarios.codeql_alert "open"
                      (Some (RestClient._map_codeql_severity (Some "unknown"))) None) 1 0 _ _)
            _ (Some "unknown") _ _).
  - vm_compute. reflexivity.
  - reflexivity.
  - intros Hin. vm_compute in Hin.
    repeat destruct Hin as [Hin|Hin]; try discriminate Hin; exact Hin.
  - reflexivity.
Defined.

End SeverityFacts.

Module AlertsCollectorFacts.
Import AlertsCollector.

Lemma truncate_length n s : (String.length (truncate n s) <= n)%nat.
Proof.
  unfold truncate. revert s. induction n as [|n IH]; intros s; simpl.
  - destruct s; simpl; lia.
  - destruct s as [|c s]; simpl; [lia|]. specialize (IH s). lia.
Qed.

Lemma nonempty_true s : s <> "" -> FindingsConverter.nonempty s = true.
Proof.
  intros H. unfold FindingsConverter.nonempty.
  destruct (String.eqb_spec s "") as [E|_]; [contradiction|reflexivity].
Qed.

(** C2: past the eligibility check and the owner/name parse, the cursor's
    success fields (per-taxonomy last-sync times, fetched counts,
    [full_sync_completed], cleared error) are written exactly when the
    three taxonomy fetches all succeed. When one raises an [Exception],
    the later fetches are not run, the result is a failed [SyncResult]
    carrying the message, the repository row is untouched, and the cursor
    keeps every success field it had and records the message cut to 1000
    characters and the error time. *)
Theorem sync_repository_all_or_nothing should_sync repo force tracker now o owner name :
  (force = true \/ should_sync repo tracker now = true) ->
  _parse_repository_identifier repo = (owner, name) -> owner <> "" -> name <> "" ->
  let t0 := default default_alert_sync tracker in
  match sync_repository_alerts should_sync repo force tracker now o with
  | (r, tr, repo') =>
      (forall n1 n2 n3,
         fetch_dependabot o = Ok n1 -> fetch_codeql o = Ok n2 ->
         fetch_secret_scanning o = Ok n3 ->
         r = Ok {| repository_id := r_id repo; repository_name := r_name repo;
                   dependabot_count := n1; codeql_count := n2;
                   secret_scanning_count := n3; errors := []; success := true |} /\
         tr = Some (tracker_after_success t0 now n1 n2 n3) /\
         repo' = repo_after_success repo now n1 n2 n3) /\
      (forall e,
         first_taxonomy_error o = Some e -> is_Exception e = true ->
         exists res t',
           r = Ok res /\ success res = false /\ errors res = [exc_str e] /\
           repo' = repo /\ tr = Some t' /\
           dependabot_last_sync t' = dependabot_last_sync t0 /\
           codeql_last_sync t' = codeql_last_sync t0 /\
           secret_scanning_last_sync t' = secret_scanning_last_sync t0 /\
           dependabot_alerts_fetched t' = dependabot_alerts_fetched t0 /\
           codeql_alerts_fetched t' = codeql_alerts_fetched t0 /\
           secret_scanning_alerts_fetched t' = secret_scanning_alerts_fetched t0 /\
           full_sync_completed t' = full_sync_completed t0 /\
           last_sync_error t' = truncate 1000 (exc_str e) /\
           (String.length (last_sync_error t') <= 1000)%nat /\
           last_sync_error_at t' = Some now)
  end.
Proof.
  intros Hgo Hparse Hown Hname t0.
  unfold sync_repository_alerts.
  replace (negb force && negb (should_sync repo tracker now)) with false
    by (destruct Hgo as [-> | ->]; [reflexivity|symmetry; apply andb_false_r]).
  rewrite Hparse, (nonempty_true owner Hown), (nonempty_true name Hname). simpl.
  fold t0.
  unfold first_taxonomy_error.
  destruct (fetch_dependabot o) as [n1|e1];
    [destruct (fetch_codeql o) as [n2|e2];
     [destruct (fetch_secret_scanning o) as [n3|e3]|]|];
    [| destruct (is_Exception e3) eqn:Hx | destruct (is_Exception e2) eqn:Hx
     | destruct (is_Exception e1) eqn:Hx]; simpl; split;
    try (intros ? ? ? E1 E2 E3; discriminate || congruence);
    try (intros e He Hexc; injection He as <-; congruence).
  - intros m1 m2 m3 E1 E2 E3. injection E1 as <-. injection E2 as <-.
    injection E3 as <-. split_and!; reflexivity.
  - intros e He. discriminate.
  - intros e He _. injection He as <-.
    eexists _, _. split_and!; try reflexivity. apply truncate_length.
  - intros e He _. injection He as <-.
    eexists _, _. split_and!; try reflexivity. apply truncate_length.
  - intros e He _. injection He as <-.
    eexists _, _. split_and!; try reflexivity. apply truncate_length.
Qed.

(** Witness of C2: repository [acme/api] whose CodeQL fetch answers
    [403 Forbidden], synced for the first time at [t = 100]. *)
Lemma sync_repository_all_or_nothing_witness :
  match sync_repository_alerts AlertScenarios.never_synced (AlertScenarios.repo 1 "api")
          false None 100 AlertScenarios.codeql_forbidden with
  | (r, tr, repo') =>
      exists res t', r = Ok res /\ success res = false /\ tr = Some t' /\
        full_sync_completed t' = false /\ last_sync_error t' = "403 Forbidden"
  end.
Proof.
  pose proof (sync_repository_all_or_nothing AlertScenarios.never_synced
                (AlertScenarios.repo 1 "api") false None 100 AlertScenarios.codeql_forbidden
                "acme" "api" (or_intror eq_refl) ltac:(vm_compute; reflexivity)
                ltac:(discriminate) ltac:(discriminate)) as H.
  revert H. cbv zeta.
  destruct (sync_repository_alerts _ _ _ _ _ _) as [[r tr] repo']. intros [_ H].
  destruct (H (Exc "GithubException" "403 Forbidden") eq_refl eq_refl)
    as (res & t' & Hr & Hs & _ & _ & Ht & _ & _ & _ & _ & _ & _ & Hf & He & _).
  exists res, t'. split_and!; assumption.
Defined.

Lemma sync_repository_raise_not_exception should_sync repo force tracker now o e :
  (sync_repository_alerts should_sync repo force tracker now o).1.1 = Raise e ->
  is_Exception e = false.
Proof.
  unfold sync_repository_alerts.
  destruct (negb force && negb (should_sync repo tracker now)); [discriminate|].
  destruct (_parse_repository_identifier repo) as [owner name].
  destruct (negb (FindingsConverter.nonempty owner) || negb (FindingsConverter.nonempty name));
    [discriminate|].
  destruct (fetch_dependabot o) as [n1|e1];
    [destruct (fetch_codeql o) as [n2|e2];
     [destruct (fetch_secret_scanning o) as [n3|e3]|]|];
    [discriminate| destruct (is_Exception e3) eqn:Hx | destruct (is_Exception e2) eqn:Hx
     | destruct (is_Exception e1) eqn:Hx]; simpl; intros H;
    try discriminate H; injection H as <-; exact Hx.
Qed.

(** C4 (code_bug): [_should_pause_for_rate_limits] is the constant
    [False], so the organization sync never stops early: whatever the
    live rate-limit status before each repository, the loop runs
    [sync_repository_alerts] on every selected repository and returns one
    result per repository, unless a non-[Exception] escapes. *)
Theorem sync_organization_never_pauses should_sync force quota outcomes now repos cursors :
  match (sync_organization_alerts should_sync force quota outcomes now repos cursors).1 with
  | Ok results => List.length results = List.length repos
  | Raise e => is_Exception e = false
  end.
Proof.
  unfold sync_organization_alerts. generalize 1%nat as i. revert cursors.
  induction repos as [|repo rest IH]; intros cursors i; [reflexivity|].
  simpl. unfold _should_pause_for_rate_limits.
  pose proof (sync_repository_raise_not_exception should_sync repo force
                (cursors !! r_id repo) now (outcomes repo)) as Hne.
  destruct (sync_repository_alerts should_sync repo force (cursors !! r_id repo) now
              (outcomes repo)) as [[r tr] repo'].
  destruct r as [res|e]; [|exact (Hne e eq_refl)].
  set (cursors' := match tr with Some t => <[r_id repo:=t]> cursors | None => cursors end).
  specialize (IH cursors' (S i)).
  destruct (sync_loop should_sync force quota outcomes now (S i) rest cursors') as [rs c''].
  simpl in *. destruct rs as [l|e]; simpl; [f_equal; exact IH|exact IH].
Qed.

(** C4 failing input: with 10% of the GraphQL quota left before every
    repository ([RateLimitStatus.should_pause] holds), the organization
    sync still processes both selected repositories and advances the
    second one's cursor. *)
Lemma sync_organization_low_quota_processes_all :
  should_pause AlertScenarios.low_graphql_quota = true /\
  match sync_organization_alerts AlertScenarios.never_synced false
          (fun _ => AlertScenarios.low_graphql_quota) (fun _ => AlertScenarios.all_ok) 100
          [AlertScenarios.repo 1 "api"; AlertScenarios.repo 2 "web"] ∅ with
  | (Ok results, cursors) =>
      List.length results = 2%nat /\
      cursors !! 2%nat = Some (tracker_after_success default_alert_sync 100 3 1 0)
  | (Raise _, _) => False
  end.
Proof. vm_compute. auto. Qed.

End AlertsCollectorFacts.

Module PatternFacts.
Import PatternSignals PatternSpec.

#[local] Arguments String.append : simpl nomatch.

Lemma str_app_assoc (a b c : string) : (a ++ b) ++ c = a ++ (b ++ c).
Proof. induction a as [|x a IH]; simpl; [reflexivity|]. rewrite IH. reflexivity. Qed.

Lemma str_app_nil_r (a : string) : a ++ "" = a.
Proof. induction a as [|x a IH]; simpl; [reflexivity|]. rewrite IH. reflexivity. Qed.

Lemma prefix_spec (p s : string) :
  String.prefix p s = true <-> exists r, s = p ++ r.
Proof.
  revert s. induction p as [|c p IH]; intros s; simpl.
  - split; [intros _; exists s; reflexivity|destruct s; reflexivity].
  - destruct s as [|c' s]; simpl.
    + split; [discriminate|]. intros [r Hr]. discriminate.
    + destruct (ascii_dec c c') as [<-|Hne].
      * rewrite IH. split; intros [r Hr]; exists r; [rewrite Hr|injection Hr as Hr]; auto.
      * split; [discriminate|]. intros [r Hr]. injection Hr as Hc _. congruence.
Qed.

Lemma str_contains_spec (hay needle : string) :
  str_contains hay needle = true <-> exists pre post, hay = pre ++ needle ++ post.
Proof.
  induction hay as [|c hay IH].
  - change (String.prefix needle "" || false = true <->
            exists pre post, "" = pre ++ needle ++ post).
    rewrite orb_false_r, prefix_spec. split.
    + intros [r Hr]. exists "", r. exact Hr.
    + intros [pre [post H]]. destruct pre; [|discriminate]. exists post. exact H.
  - change (String.prefix needle (String c hay) || str_contains hay needle = true <->
            exists pre post, String c hay = pre ++ needle ++ post).
    rewrite orb_true_iff, prefix_spec, IH. split.
    + intros [[r Hr] | [pre [post H]]].
      * exists "", r. exact Hr.
      * exists (String c pre), post. simpl. rewrite H. reflexivity.
    + intros [pre [post H]]. destruct pre as [|c' pre].
      * left. exists post. exact H.
      * right. injection H as <- H. exists pre, post. exact H.
Qed.

Lemma list_contains_spec (xs : list string) (x : string) :
  list_contains xs x = true <-> In x xs.
Proof.
  unfold list_contains. rewrite existsb_exists. split.
  - intros [y [Hy E]]. apply String.eqb_eq in E. subst. exact Hy.
  - intros Hx. exists x. split; [exact Hx|apply String.eqb_refl].
Qed.

Lemma substring_long (s : string) m : (String.length s <= m)%nat -> substring 0 m s = s.
Proof.
  revert m. induction s as [|c s IH]; intros m Hm; destruct m; simpl in *; try reflexivity.
  - lia.
  - rewrite IH by lia. reflexivity.
Qed.

Lemma prefix_single c c' s : String.prefix (String c "") (String c' s) = Ascii.eqb c' c.
Proof.
  destruct s; simpl; destruct (ascii_dec c c'), (Ascii.eqb_spec c' c); congruence.
Qed.

Lemma replace_fuel_char n c new s :
  (String.length s <= n)%nat ->
  replace_fuel n (String c "") new s = replace_char c new s.
Proof.
  revert s. induction n as [|n IH]; intros s Hn.
  - destruct s; [reflexivity|simpl in Hn; lia].
  - destruct s as [|c' s]; [reflexivity|]. simpl in Hn.
    change (replace_fuel (S n) (String c "") new (String c' s)) with
      (if String.prefix (String c "") (String c' s)
       then new ++ replace_fuel n (String c "") new (substring 0 (S (String.length s)) s)
       else String c' (replace_fuel n (String c "") new s)).
    change (replace_char c new (String c' s)) with
      (if Ascii.eqb c' c then new ++ replace_char c new s
       else String c' (replace_char c new s)).
    rewrite prefix_single, substring_long, IH by lia. reflexivity.
Qed.

Lemma str_replace_char c new s :
  str_replace (String c "") new s = replace_char c new s.
Proof. apply replace_fuel_char. lia. Qed.

Lemma re_compile_lit c r :
  c <> "\"%char -> c <> "."%char -> re_compile (String c r) = RLit c :: re_compile r.
Proof.
  intros H1 H2.
  destruct c as [[] [] [] [] [] [] [] []]; try reflexivity;
    congruence.
Qed.

Lemma glob_tokens_lit c p :
  c <> "*"%char -> glob_tokens (String c p) = RLit c :: glob_tokens p.
Proof.
  intros H. destruct c as [[] [] [] [] [] [] [] []]; try reflexivity.
  exfalso. apply H. reflexivity.
Qed.

Lemma glob_char_not_backslash c : glob_char c = true -> c <> "\"%char.
Proof. intros H ->. discriminate H. Qed.

Lemma replace_char_cons c0 new c s :
  replace_char c0 new (String c s) =
  if Ascii.eqb c c0 then new ++ replace_char c0 new s else String c (replace_char c0 new s).
Proof. reflexivity. Qed.

Lemma glob_to_regex_tokens p :
  glob_safe p = true -> re_compile (glob_to_regex p) = glob_tokens p.
Proof.
  unfold glob_to_regex. rewrite !str_replace_char.
  induction p as [|c p IH]; intros Hs; [reflexivity|].
  unfold glob_safe in Hs. simpl in Hs. apply andb_true_iff in Hs as [Hc Hs].
  specialize (IH Hs).
  destruct (ascii_dec c ".") as [->|Hdot]; [simpl; f_equal; exact IH|].
  destruct (ascii_dec c "*") as [->|Hstar]; [simpl; f_equal; exact IH|].
  rewrite replace_char_cons.
  replace (Ascii.eqb c ".") with false by (symmetry; apply Ascii.eqb_neq; exact Hdot).
  rewrite replace_char_cons.
  replace (Ascii.eqb c "*") with false by (symmetry; apply Ascii.eqb_neq; exact Hstar).
  rewrite re_compile_lit, glob_tokens_lit by (auto using glob_char_not_backslash).
  f_equal. exact IH.
Qed.

Lemma no_newline_nil : no_newline "".
Proof. intros c []. Qed.

Lemma no_newline_cons c u : c <> newline -> no_newline u -> no_newline (String c u).
Proof. intros Hc Hu c' [<-|Hin]; [exact Hc|exact (Hu c' Hin)]. Qed.

Lemma no_newline_inv c u : no_newline (String c u) -> c <> newline /\ no_newline u.
Proof. intros H. split; [apply H; left; reflexivity|]. intros c' Hin. apply H. right. exact Hin. Qed.

Lemma rmatch_star ic ts s :
  rmatch ic (RDotStar :: ts) s = true <->
  exists u rest, s = u ++ rest /\ no_newline u /\ rmatch ic ts rest = true.
Proof.
  induction s as [|c s IH].
  - change (rmatch ic ts "" || false = true <->
            exists u rest, "" = u ++ rest /\ no_newline u /\ rmatch ic ts rest = true).
    rewrite orb_false_r. split.
    + intros H. exists "", "". split_and!; [reflexivity|apply no_newline_nil|exact H].
    + intros (u & rest & Hs & _ & H). destruct u; [|discriminate]. simpl in Hs. subst. exact H.
  - change (rmatch ic ts (String c s)
            || (negb (Ascii.eqb c newline) && rmatch ic (RDotStar :: ts) s) = true <->
            exists u rest, String c s = u ++ rest /\ no_newline u /\ rmatch ic ts rest = true).
    rewrite orb_true_iff, andb_true_iff, negb_true_iff, IH. split.
    + intros [H | [Hc (u & rest & -> & Hu & H)]].
      * exists "", (String c s). split_and!; [reflexivity|apply no_newline_nil|exact H].
      * exists (String c u), rest. split_and!; [reflexivity| |exact H].
        apply no_newline_cons; [|exact Hu]. apply Ascii.eqb_neq in Hc. exact Hc.
    + intros (u & rest & Hs & Hu & H). destruct u as [|c' u].
      * left. simpl in Hs. subst. exact H.
      * right. injection Hs as <- ->. apply no_newline_inv in Hu as [Hc Hu].
        split; [apply Ascii.eqb_neq; exact Hc|]. exists u, rest. auto.
Qed.

Lemma rmatch_glob ic p s :
  rmatch ic (glob_tokens p) s = true <->
  exists mid post, s = mid ++ post /\ glob_full (char_eq ic) p mid.
Proof.
  revert s. induction p as [|c p IH]; intros s.
  - simpl. split; [intros _|intros _; reflexivity].
    exists "", s. split; [reflexivity|constructor].
  - destruct (ascii_dec c "*") as [->|Hstar].
    + change (rmatch ic (RDotStar :: glob_tokens p) s = true <->
              exists mid post, s = mid ++ post /\ glob_full (char_eq ic) (String "*" p) mid).
      rewrite rmatch_star. split.
      * intros (u & rest & -> & Hu & H). apply IH in H as (mid & post & -> & Hg).
        exists (u ++ mid), post. split; [symmetry; apply str_app_assoc|].
        constructor; assumption.
      * intros (mid & post & -> & Hg). inversion Hg as [|c0 p0 c' s0 Hc _ _ E1 E2|p0 u s0 Hu Hp E1 E2].
        -- exfalso. apply Hc. reflexivity.
        -- subst. exists u, (s0 ++ post). split_and!; [apply str_app_assoc|exact Hu|].
           apply IH. exists s0, post. split; [reflexivity|exact Hp].
    + rewrite glob_tokens_lit by exact Hstar. simpl. destruct s as [|c' s].
      * split; [discriminate|]. intros (mid & post & Hs & Hg).
        inversion Hg; subst; [|congruence]. discriminate.
      * rewrite andb_true_iff, IH. split.
        -- intros [He (mid & post & -> & Hg)]. exists (String c' mid), post.
           split; [reflexivity|]. constructor; assumption.
        -- intros (mid & post & Hs & Hg). inversion Hg as [|c0 p0 c'' s0 Hc He Hp E1 E2|p0 u s0 Hu Hp E1 E2].
           ++ subst. injection Hs as <- ->. split; [exact He|]. exists s0, post. auto.
           ++ exfalso. apply Hstar. congruence.
Qed.

Lemma rsearch_spec ic ts s :
  rsearch ic ts s = true <-> exists pre rest, s = pre ++ rest /\ rmatch ic ts rest = true.
Proof.
  induction s as [|c s IH]; simpl.
  - rewrite orb_false_r. split.
    + intros H. exists "", "". auto.
    + intros (pre & rest & Hs & H). destruct pre; [|discriminate]. simpl in Hs. subst. exact H.
  - rewrite orb_true_iff, IH. split.
    + intros [H | (pre & rest & -> & H)].
      * exists "", (String c s). auto.
      * exists (String c pre), rest. auto.
    + intros (pre & rest & Hs & H). destruct pre as [|c' pre].
      * left. simpl in Hs. subst. exact H.
      * right. injection Hs as <- ->. exists pre, rest. auto.
Qed.

Lemma rsearch_glob ic p path :
  rsearch ic (glob_tokens p) path = true <-> glob_occurs (char_eq ic) p path.
Proof.
  rewrite rsearch_spec. unfold glob_occurs. split.
  - intros (pre & rest & -> & H). apply rmatch_glob in H as (mid & post & -> & Hg).
    exists pre, mid, post. auto.
  - intros (pre & mid & post & -> & Hg). exists pre, (mid ++ post). split; [reflexivity|].
    apply rmatch_glob. exists mid, post. auto.
Qed.

Lemma existsb_in_iff {A} (f : A -> bool) (l : list A) :
  existsb f l = true <-> exists x, In x l /\ f x = true.
Proof. apply existsb_exists. Qed.

(** The per-pattern tests of [_detect_pattern] and [_check_patterns]. *)
Lemma detect_one p tree :
  glob_safe p = true ->
  (if str_contains p "*" then
     existsb (fun path => rsearch false (re_compile (glob_to_regex p)) path) tree
   else if endswith p "/" then existsb (fun path => startswith path p) tree
   else list_contains tree p) = true
  <-> exists path, In path tree /\ matches_exact p path.
Proof.
  intros Hs. unfold matches_exact.
  destruct (str_contains p "*"); [|destruct (endswith p "/")].
  - rewrite glob_to_regex_tokens by exact Hs. rewrite existsb_in_iff.
    split; intros (path & Hin & H); exists path; split; try exact Hin;
      apply (rsearch_glob false); exact H.
  - rewrite existsb_in_iff. unfold startswith.
    split; intros (path & Hin & H); exists path; split; try exact Hin;
      apply prefix_spec; exact H.
  - rewrite list_contains_spec. split.
    + intros Hin. exists p. auto.
    + intros (path & Hin & ->). exact Hin.
Qed.

Lemma check_one p tree :
  glob_safe p = true ->
  (if str_contains p "*" then
     existsb (fun path => rsearch true (re_compile (glob_to_regex p)) path) tree
   else if endswith p "/" then
     existsb (fun path => startswith (str_lower path) (str_lower p)) tree
   else existsb (fun path => str_contains (str_lower path) (str_lower p)) tree) = true
  <-> exists path, In path tree /\ matches_folded p path.
Proof.
  intros Hs. unfold matches_folded.
  destruct (str_contains p "*"); [|destruct (endswith p "/")];
    rewrite existsb_in_iff.
  - rewrite glob_to_regex_tokens by exact Hs.
    split; intros (path & Hin & H); exists path; split; try exact Hin;
      apply (rsearch_glob true); exact H.
  - unfold startswith.
    split; intros (path & Hin & H); exists path; split; try exact Hin;
      apply prefix_spec; exact H.
  - split; intros (path & Hin & H); exists path; split; try exact Hin;
      apply str_contains_spec; exact H.
Qed.

(** C3 (code_bug): for every file listing and every list of patterns
    written in the characters of the configured ones, the REST-path
    signal [SignalDetector._detect_pattern] is true iff some pattern
    matches some path case-sensitively (a wildcard pattern anywhere in
    the path, its [*] standing for any run of characters other than a
    newline; a directory pattern as a prefix; a file pattern as the whole
    path), while the GraphQL-path [_check_patterns], which its docstring
    says uses the same logic, is true iff some pattern matches some path
    case-insensitively, a file pattern as a substring. *)
Theorem path_pattern_signal_semantics tree patterns :
  forallb glob_safe patterns = true ->
  (_detect_pattern tree patterns = true <->
     exists p path, In p patterns /\ In path tree /\ matches_exact p path) /\
  (_check_patterns tree patterns = true <->
     exists p path, In p patterns /\ In path tree /\ matches_folded p path).
Proof.
  intros Hs. rewrite forallb_forall in Hs. split.
  - unfold _detect_pattern. destruct tree as [|path0 tree'].
    + split; [discriminate|]. intros (p & path & _ & [] & _).
    + rewrite existsb_in_iff. split.
      * intros (p & Hp & H). apply (detect_one p _ (Hs p Hp)) in H as (path & Hin & Hm).
        exists p, path. auto.
      * intros (p & path & Hp & Hin & Hm). exists p. split; [exact Hp|].
        apply (detect_one p _ (Hs p Hp)). exists path. auto.
  - unfold _check_patterns. rewrite existsb_in_iff. split.
    + intros (p & Hp & H). apply (check_one p _ (Hs p Hp)) in H as (path & Hin & Hm).
      exists p, path. auto.
    + intros (p & path & Hp & Hin & Hm). exists p. split; [exact Hp|].
      apply (check_one p _ (Hs p Hp)). exists path. auto.
Qed.

(** C3 failing input: the Dockerfile patterns match [src/Dockerfile]
    (a file pattern as a substring) and [dockerfile] (case-insensitively)
    in the sense of the GraphQL path, which reports [has_dockerfile] for
    both listings, yet the REST-path [_detect_pattern] reports it for
    neither. *)
Lemma dockerfile_in_subdirectory_not_detected :
  (exists p path, In p DOCKERFILE_PATTERNS /\ In path ["src/Dockerfile"] /\ matches_folded p path) /\
  _detect_pattern ["src/Dockerfile"] DOCKERFILE_PATTERNS = false /\
  _check_patterns ["src/Dockerfile"] DOCKERFILE_PATTERNS = true /\
  (exists p path, In p DOCKERFILE_PATTERNS /\ In path ["dockerfile"] /\ matches_folded p path) /\
  _detect_pattern ["dockerfile"] DOCKERFILE_PATTERNS = false /\
  _check_patterns ["dockerfile"] DOCKERFILE_PATTERNS = true.
Proof.
  split; [exists "Dockerfile", "src/Dockerfile"; split_and!; [left; reflexivity|left; reflexivity|];
          exists "src/", ""; reflexivity|].
  split; [vm_compute; reflexivity|]. split; [vm_compute; reflexivity|].
  split; [exists "Dockerfile", "dockerfile"; split_and!; [left; reflexivity|left; reflexivity|];
          exists "", ""; reflexivity|].
  split; vm_compute; reflexivity.
Qed.

(** Witness of C3: the Dockerfile patterns on a listing with
    [deploy/Dockerfile.prod]. *)
Lemma path_pattern_signal_semantics_witness :
  (_detect_pattern ["deploy/Dockerfile.prod"] DOCKERFILE_PATTERNS = true <->
     exists p path, In p DOCKERFILE_PATTERNS /\ In path ["deploy/Dockerfile.prod"] /\
                    matches_exact p path) /\
  (_check_patterns ["deploy/Dockerfile.prod"] DOCKERFILE_PATTERNS = true <->
     exists p path, In p DOCKERFILE_PATTERNS /\ In path ["deploy/Dockerfile.prod"] /\
                    matches_folded p path).
Proof.
  apply path_pattern_signal_semantics. vm_compute. reflexivity.
Defined.

End PatternFacts.

Module TierFacts.
Import TierClassifier.

(** C5: a known day count above 180 makes [classify] answer archived
    with confidence 100, whatever the signals. *)
Theorem classify_archived_after_180_days signals d :
  (180 < d)%Z ->
  tier (classify signals (Some d)) = Archived /\
  confidence_score (classify signals (Some d)) = 100%Z /\
  business_criticality (classify signals (Some d)) = "none".
Proof.
  intros Hd. unfold classify.
  replace (negb (d =? 0)%Z && (180 <? d)%Z) with true.
  - repeat split.
  - symmetry. apply andb_true_iff. split.
    + apply negb_true_iff, Z.eqb_neq. lia.
    + apply Z.ltb_lt. exact Hd.
Qed.

(** Witness of C5: the empty signal mapping, 200 days. *)
Lemma classify_archived_after_180_days_witness :
  (180 < 200)%Z /\
  tier (classify [] (Some 200%Z)) = Archived /\
  confidence_score (classify [] (Some 200%Z)) = 100%Z /\
  business_criticality (classify [] (Some 200%Z)) = "none".
Proof. split; [lia|]. apply classify_archived_after_180_days. lia. Defined.

End TierFacts.

Module TriageFacts.
Import AutoTriage TriageScenarios.

Lemma evaluate_rules_first_match r rest f :
  condition r f = Ok true ->
  evaluate_rules (r :: rest) f =
  Ok {| t_decision := decision r; t_reason := reason r; t_rule_name := name r;
        t_confidence := default 80%Z (confidence r) |}.
Proof. intros H. simpl. rewrite H. reflexivity. Qed.

(** C6: a Critical finding scored 0.75 in a "very high" product with a
    production signal is escalated by [critical_high_epss_tier1] with
    confidence 95. *)
Theorem critical_high_epss_tier1_escalates f p :
  severity f = "Critical" ->
  epss_score f = Some (75 # 100) ->
  f_product f = Some p ->
  business_criticality p = "very high" ->
  has_kubernetes_config p || has_environments p || has_releases p = true ->
  triage_single_finding [] f = Ok escalate_critical_tier1.
Proof.
  destruct f as [sev ep prod]. simpl. intros -> -> -> Hbc Hsig.
  unfold triage_single_finding, TRIAGE_RULES.
  rewrite evaluate_rules_first_match; [reflexivity|].
  cbn [mk condition]. f_equal.
  unfold is_tier1_product, is_tierN, has_production_signal, has_high_epss,
    is_critical_or_high_severity, get_product; cbn [f_product epss_score severity].
  rewrite Hbc, Hsig. reflexivity.
Qed.

(** Witness of C6: a Critical finding in a Kubernetes-deployed Tier 1
    product. *)
Lemma critical_high_epss_tier1_escalates_witness :
  triage_single_finding [] critical_finding = Ok escalate_critical_tier1.
Proof.
  apply (critical_high_epss_tier1_escalates _ tier1_k8s_product);
    reflexivity.
Defined.

Lemma evaluate_rules_skip_exception r rest f e :
  condition r f = Raise e -> is_Exception e = true ->
  evaluate_rules (r :: rest) f = evaluate_rules rest f.
Proof. intros H He. simpl. rewrite H, He. reflexivity. Qed.

(** The rule [dismiss_info_severity_low_epss] reads the unbound global
    [finding]: its condition raises [NameError] on every finding. *)
Lemma dismiss_info_severity_low_epss_raises f :
  exists r, In r TRIAGE_RULES /\ name r = "dismiss_info_severity_low_epss" /\
            condition r f = Raise (Exc "NameError" "name 'finding' is not defined").
Proof.
  eexists. split; [do 9 right; left; reflexivity|]. split; reflexivity.
Qed.

Lemma evaluate_rules_cases rules f :
  raises_only_exceptions rules f = true ->
  (evaluate_rules rules f = Ok no_match /\ Forall (fun r => condition r f <> Ok true) rules) \/
  (exists pre r post, rules = (pre ++ r :: post)%list /\
     Forall (fun r' => condition r' f <> Ok true) pre /\
     condition r f = Ok true /\ evaluate_rules rules f = Ok (rule_result r)).
Proof.
  unfold raises_only_exceptions.
  induction rules as [|r rest IH]; intros H.
  - left. split; [reflexivity|constructor].
  - simpl in H. apply andb_true_iff in H as [Hr Hrest].
    destruct (condition r f) as [b|e] eqn:Ec.
    + destruct b.
      * right. exists [], r, rest. split_and!; [reflexivity|constructor|exact Ec|].
        simpl. rewrite Ec. reflexivity.
      * assert (Hne : condition r f <> Ok true) by congruence.
        assert (Hstep : evaluate_rules (r :: rest) f = evaluate_rules rest f)
          by (simpl; rewrite Ec; reflexivity).
        rewrite Hstep. destruct (IH Hrest) as [[Hm Hall] | (pre & r' & post & -> & Hpre & Hr' & Hm)].
        -- left. split; [exact Hm|constructor; assumption].
        -- right. exists (r :: pre), r', post. split_and!; try assumption; [reflexivity|].
           constructor; assumption.
    + assert (Hne : condition r f <> Ok true) by congruence.
      rewrite (evaluate_rules_skip_exception r rest f e Ec Hr).
      destruct (IH Hrest) as [[Hm Hall] | (pre & r' & post & -> & Hpre & Hr' & Hm)].
      * left. split; [exact Hm|constructor; assumption].
      * right. exists (r :: pre), r', post. split_and!; try assumption; [reflexivity|].
        constructor; assumption.
Qed.

(** C7: when the conditions that raise raise an [Exception], each such
    rule is skipped: [triage_single_finding] returns exactly one
    decision, that of the first rule (in order) whose condition holds,
    every earlier rule having raised or answered false; when no rule
    holds it returns the PENDING result [no_match]. [[]] selects
    [TRIAGE_RULES]. *)
Theorem triage_single_finding_skips_raising_rules rules f :
  let rs := match rules with [] => TRIAGE_RULES | _ => rules end in
  raises_only_exceptions rs f = true ->
  (triage_single_finding rules f = Ok no_match /\ Forall (fun r => condition r f <> Ok true) rs) \/
  (exists pre r post, rs = (pre ++ r :: post)%list /\
     Forall (fun r' => condition r' f <> Ok true) pre /\
     condition r f = Ok true /\ triage_single_finding rules f = Ok (rule_result r)).
Proof.
  intros rs H. unfold triage_single_finding. exact (evaluate_rules_cases rs f H).
Qed.

(** Witness of C7: an Info finding of a Tier 2 product, on which
    [dismiss_info_severity_low_epss] raises, and the default rules. *)
Lemma triage_single_finding_skips_raising_rules_witness :
  raises_only_exceptions TRIAGE_RULES info_finding = true /\
  ((triage_single_finding [] info_finding = Ok no_match /\
    Forall (fun r => condition r info_finding <> Ok true) TRIAGE_RULES) \/
   (exists pre r post, TRIAGE_RULES = (pre ++ r :: post)%list /\
      Forall (fun r' => condition r' info_finding <> Ok true) pre /\
      condition r info_finding = Ok true /\
      triage_single_finding [] info_finding = Ok (rule_result r))).
Proof.
  assert (H : raises_only_exceptions TRIAGE_RULES info_finding = true)
    by (vm_compute; reflexivity).
  split; [exact H|]. exact (triage_single_finding_skips_raising_rules [] info_finding H).
Defined.

End TriageFacts.

Module EPSSFacts.
Import EPSSUpdater.

#[local] Set Warnings "-inexact-float".




End EPSSFacts.

Module TransportFacts.
Import PatternSignals SignalSources TierClassifier.

Lemma dict_get_absent {V} (d : list (string * V)) k v :
  ~ In k (map fst d) -> dict_get d k v = v.
Proof.
  induction d as [|[k' v'] d IH]; intros Hk; [reflexivity|]. simpl in *.
  destruct (String.eqb_spec k k') as [->|Hne]; [exfalso; apply Hk; left; reflexivity|].
  apply IH. intros Hin. apply Hk. right. exact Hin.
Qed.

(** Both tier-1 branches of [_is_tier_1] need [has_monitoring_config]. *)
Lemma classify_tier1_needs_monitoring signals days :
  get signals "has_monitoring_config" = false ->
  tier (classify signals days) <> Tier 1.
Proof.
  intros Hm. unfold classify.
  assert (H1 : _is_tier_1 signals = None).
  { unfold _is_tier_1. cbv zeta. rewrite Hm, !andb_false_r. reflexivity. }
  destruct (match days with Some d => negb (d =? 0)%Z && (180 <? d)%Z | None => false end).
  - discriminate.
  - rewrite H1. destruct (_is_tier_2 signals); [discriminate|].
    destruct (_is_tier_3 signals); discriminate.
Qed.

Lemma not_in_keys (k : string) (keys : list string) :
  list_contains keys k = false -> ~ In k keys.
Proof. intros H Hin. apply PatternFacts.list_contains_spec in Hin. congruence. Qed.

Lemma in_keys (k : string) (keys : list string) :
  list_contains keys k = true -> In k keys.
Proof. apply PatternFacts.list_contains_spec. Qed.

(** C10: [_detect_signals_from_graphql] never emits the keys
    [has_monitoring_config] and [multiple_contributors] (it emits
    [has_monitoring] and [active_contributors]) while
    [detect_all_signals] always emits them; so a repository classified
    from its GraphQL signals is never Tier 1, and the same repository
    (a Dockerfile, a Prometheus configuration, environments, recent
    commits) is Tier 1 from its REST signals. *)
Theorem graphql_signals_never_tier1 rd now days :
  ~ In "has_monitoring_config" (map fst (_detect_signals_from_graphql rd now)) /\
  ~ In "multiple_contributors" (map fst (_detect_signals_from_graphql rd now)) /\
  In "has_monitoring" (map fst (_detect_signals_from_graphql rd now)) /\
  In "active_contributors" (map fst (_detect_signals_from_graphql rd now)) /\
  tier (classify (_detect_signals_from_graphql rd now) days) <> Tier 1 /\
  (forall tree probes,
     In "has_monitoring_config" (map fst (detect_all_signals tree probes)) /\
     In "multiple_contributors" (map fst (detect_all_signals tree probes))) /\
  tier (classify (detect_all_signals SignalScenarios.prod_tree SignalScenarios.prod_probes) None)
    = Tier 1 /\
  tier (classify (_detect_signals_from_graphql SignalScenarios.prod_repo_data
                    SignalScenarios.now) None) <> Tier 1.
Proof.
  assert (Hg : forall rd now,
             ~ In "has_monitoring_config" (map fst (_detect_signals_from_graphql rd now))).
  { intros rd' now'. apply not_in_keys. reflexivity. }
  split_and!.
  - apply Hg.
  - apply not_in_keys. reflexivity.
  - apply in_keys. reflexivity.
  - apply in_keys. reflexivity.
  - apply classify_tier1_needs_monitoring. unfold get. apply dict_get_absent, Hg.
  - intros tree probes. split; apply in_keys; reflexivity.
  - vm_compute. reflexivity.
  - apply classify_tier1_needs_monitoring. unfold get. apply dict_get_absent, Hg.
Qed.

End TransportFacts.

Module TierExtraFacts.
Import TierClassifier.

Lemma count_nonneg_acc signals names acc :
  (0 <= acc)%Z ->
  (0 <= fold_left (fun acc s => acc + (if get signals s then 1 else 0))%Z names acc)%Z.
Proof.
  revert acc. induction names as [|n ns IH]; intros acc Hacc; simpl; [exact Hacc|].
  apply IH. destruct (get signals n); lia.
Qed.

Lemma count_nonneg signals names : (0 <= count signals names)%Z.
Proof. unfold count. apply count_nonneg_acc. lia. Qed.

Lemma calculate_confidence_bounds signals t :
  (0 <= _calculate_confidence signals t <= 100)%Z.
Proof.
  unfold _calculate_confidence.
  pose proof (count_nonneg signals ["has_dockerfile"; "has_kubernetes_config"; "has_environments";
     "has_releases"; "has_monitoring_config"; "has_branch_protection"]).
  pose proof (count_nonneg signals ["has_ci_cd"; "has_tests"; "recent_commits_30d"; "active_prs_30d";
     "multiple_contributors"; "consistent_commit_pattern"]).
  pose proof (count_nonneg signals ["has_security_scanning"; "has_secret_scanning"; "has_dependency_scanning";
     "has_sast_config"]).
  pose proof (count_nonneg signals ["has_documentation"; "has_api_specs"; "has_codeowners"; "has_security_md"]).
  destruct t as [|[|[|[|]]]]; lia.
Qed.

(** X1: whatever the signals and the day count, [classify] answers one of
    the five tiers, the criticality [TIER_MAPPING] gives that tier (one of
    five non-empty labels), and a confidence between 0 and 100. *)
Theorem classify_result_well_formed signals days :
  let c := classify signals days in
  (tier c = Tier 1 \/ tier c = Tier 2 \/ tier c = Tier 3 \/ tier c = Tier 4 \/ tier c = Archived) /\
  business_criticality c = TIER_MAPPING (tier c) /\
  In (business_criticality c) ["very high"; "high"; "medium"; "low"; "none"] /\
  (0 <= confidence_score c <= 100)%Z.
Proof.
  unfold classify.
  destruct (match days with Some d => _ | None => false end).
  { cbn. repeat split; [tauto | right; right; right; right; left; reflexivity | lia | lia]. }
  destruct (_is_tier_1 signals);
  [|destruct (_is_tier_2 signals); [|destruct (_is_tier_3 signals)]];
  cbn; (split; [tauto|]); (split; [reflexivity|]); (split; [cbn; tauto|]);
  apply calculate_confidence_bounds.
Qed.

(** X2: [classify] answers archived exactly when the day count is known
    and above 180; a missing count, 0 or any count up to 180 never
    archives. *)
Theorem classify_archived_iff signals days :
  tier (classify signals days) = Archived <->
  exists d, days = Some d /\ (180 < d)%Z.
Proof.
  unfold classify. split.
  - destruct days as [d|]; cbn.
    + destruct (negb (d =? 0)%Z && (180 <? d)%Z) eqn:E.
      * intros _. exists d. split; [reflexivity|].
        apply andb_true_iff in E as [_ E]. apply Z.ltb_lt. exact E.
      * destruct (_is_tier_1 signals);
        [|destruct (_is_tier_2 signals); [|destruct (_is_tier_3 signals)]];
        cbn; discriminate.
    + destruct (_is_tier_1 signals);
      [|destruct (_is_tier_2 signals); [|destruct (_is_tier_3 signals)]];
      cbn; discriminate.
  - intros [d [-> Hd]]. cbn.
    replace (negb (d =? 0)%Z && (180 <? d)%Z) with true; [reflexivity|].
    symmetry. apply andb_true_iff. split.
    + apply negb_true_iff, Z.eqb_neq. lia.
    + apply Z.ltb_lt. exact Hd.
Qed.

End TierExtraFacts.

Module TriageExtraFacts.
Import AutoTriage TriageScenarios TriageFacts.

Lemma default_rules_raise_only_exceptions f :
  raises_only_exceptions TRIAGE_RULES f = true.
Proof.
  unfold raises_only_exceptions, TRIAGE_RULES. cbn.
  destruct (_ || _); reflexivity.
Qed.

(** X3: with the default rules ([AutoTriageEngine()] or an empty rule
    list), [triage_single_finding] never raises and never falls back to
    [no_match]: it answers with a rule of [TRIAGE_RULES] whose condition
    holds, and that rule is never [dismiss_info_severity_low_epss] nor
    [review_high_severity_no_epss]. *)
Theorem default_rules_always_decide f :
  exists r, In r TRIAGE_RULES /\ condition r f = Ok true /\
    triage_single_finding [] f = Ok (rule_result r) /\
    name r <> "dismiss_info_severity_low_epss" /\
    name r <> "review_high_severity_no_epss".
Proof.
  destruct (evaluate_rules_cases TRIAGE_RULES f (default_rules_raise_only_exceptions f))
    as [[_ Hall] | (pre & r & post & Heq & _ & Hr & Hm)].
  - exfalso. rewrite Forall_forall in Hall.
    refine (Hall (mk "default_pending" (fun _ => Ok true) PENDING
                 "No specific auto-triage rule matched - requires manual review" 50) _ eq_refl).
    unfold TRIAGE_RULES. do 13 right; left; reflexivity.
  - assert (Hin : In r TRIAGE_RULES) by (rewrite Heq; apply in_or_app; right; left; reflexivity).
    exists r. split_and!; [exact Hin | exact Hr | exact Hm | |];
    unfold TRIAGE_RULES in Hin;
    repeat (destruct Hin as [<- | Hin]; [|]); try contradiction;
    intros Hn; cbn in Hn, Hr; try discriminate; destruct (_ || _); discriminate.
Qed.

(** X4: every finding of a product whose business criticality is
    ["none"] (an archived repository) is answered by
    [accept_archived_repo]: ACCEPT_RISK with confidence 95, whatever its
    severity and EPSS score. *)
Theorem archived_product_accepts_risk f p :
  f_product f = Some p ->
  business_criticality p = "none" ->
  exists r, triage_single_finding [] f = Ok r /\ t_decision r = ACCEPT_RISK /\
            t_rule_name r = "accept_archived_repo" /\ t_confidence r = 95%Z.
Proof.
  destruct f as [sev ep prod]. cbn. intros -> Hbc.
  destruct p as [bc k8s envs rels rc prs mc days]. cbn in Hbc. subst bc.
  eexists. split; [unfold triage_single_finding, TRIAGE_RULES; cbn; reflexivity|].
  split_and!; reflexivity.
Qed.

(** X5: a finding with no product (no [test.engagement.product]) is
    answered by [default_pending]: PENDING with confidence 50, whatever
    its severity and EPSS score. *)
Theorem no_product_default_pending f :
  f_product f = None ->
  exists r, triage_single_finding [] f = Ok r /\ t_decision r = PENDING /\
            t_rule_name r = "default_pending" /\ t_confidence r = 50%Z.
Proof.
  destruct f as [sev ep prod]. cbn. intros ->.
  unfold triage_single_finding, TRIAGE_RULES. cbn.
  destruct (_ || _); (eexists; split; [reflexivity|]); split_and!; reflexivity.
Qed.

(** Witness of X4: a Critical finding with an EPSS score of 0.9 in a
    product classified ["none"]. *)
Lemma archived_product_accepts_risk_witness :
  let p := {| business_criticality := "none"; has_kubernetes_config := false;
              has_environments := false; has_releases := false;
              recent_commits_30d := false; active_prs_30d := false;
              multiple_contributors := false; days_since_last_commit := Some 400%Z |} in
  let f := {| severity := "Critical"; epss_score := Some (9 # 10); f_product := Some p |} in
  exists r, triage_single_finding [] f = Ok r /\ t_decision r = ACCEPT_RISK /\
            t_rule_name r = "accept_archived_repo" /\ t_confidence r = 95%Z.
Proof. intros p f. apply (archived_product_accepts_risk f p); reflexivity. Defined.

(** Witness of X5: a High finding with no product. *)
Lemma no_product_default_pending_witness :
  let f := {| severity := "High"; epss_score := Some (5 # 10); f_product := None |} in
  exists r, triage_single_finding [] f = Ok r /\ t_decision r = PENDING /\
            t_rule_name r = "default_pending" /\ t_confidence r = 50%Z.
Proof. intros f. apply (no_product_default_pending f); reflexivity. Defined.

End TriageExtraFacts.

Module EPSSFetchFacts.
Import EPSSFetch EPSSFetchSpec.
#[local] Arguments String.append : simpl nomatch.

Lemma ascii_upper_cve_char c : cve_char (ascii_upper c) = cve_char c.
Proof. destruct c as [[] [] [] [] [] [] [] []]; reflexivity. Qed.

Lemma ascii_upper_idem c : ascii_upper (ascii_upper c) = ascii_upper c.
Proof. destruct c as [[] [] [] [] [] [] [] []]; reflexivity. Qed.

Lemma str_upper_idem s : str_upper (str_upper s) = str_upper s.
Proof. induction s as [|c s IH]; simpl; [reflexivity|]. rewrite ascii_upper_idem, IH. reflexivity. Qed.

Lemma str_upper_cve_chars s :
  forallb cve_char (list_ascii_of_string (str_upper s)) =
  forallb cve_char (list_ascii_of_string s).
Proof. induction s as [|c s IH]; simpl; [reflexivity|]. rewrite ascii_upper_cve_char, IH. reflexivity. Qed.

Lemma is_space_comma : is_space "," = false.
Proof. reflexivity. Qed.

(** No word of [split_on "," s] contains a comma. *)
Lemma split_on_comma_words s :
  Forall (fun w => forallb (fun c => negb (Ascii.eqb c ",")) (list_ascii_of_string w) = true)
         (split_on "," s).
Proof.
  induction s as [|c s IH]; simpl.
  - constructor; [reflexivity|constructor].
  - destruct (Ascii.eqb c ",") eqn:E.
    + constructor; [reflexivity|exact IH].
    + destruct (split_on "," s) as [|w ws] eqn:Es.
      * constructor; [simpl; rewrite E; reflexivity|constructor].
      * inversion IH as [|? ? Hw Hws]; subst.
        constructor; [simpl; rewrite E, Hw; reflexivity|exact Hws].
Qed.

Lemma hd_split_on_comma s :
  forallb (fun c => negb (Ascii.eqb c ",")) (list_ascii_of_string (hd "" (split_on "," s))) = true.
Proof.
  pose proof (split_on_comma_words s) as H.
  destruct (split_on "," s) as [|w ws]; [reflexivity|]. inversion H; assumption.
Qed.

(** The words of [s.split()] are made of the non-blank characters of [s]. *)
Lemma split_ws_go_words (P : ascii -> bool) s :
  forallb P (list_ascii_of_string s) = true ->
  let '(w, ws) := split_ws_go s in
  forallb (fun c => negb (is_space c) && P c) (list_ascii_of_string w) = true /\
  Forall (fun w' => forallb (fun c => negb (is_space c) && P c) (list_ascii_of_string w') = true) ws.
Proof.
  induction s as [|c s IH]; simpl; intros H.
  - split; [reflexivity|constructor].
  - apply andb_true_iff in H as [Hc Hs].
    specialize (IH Hs). destruct (split_ws_go s) as [w ws]. destruct IH as [Hw Hws].
    destruct (is_space c) eqn:Esp.
    + split; [reflexivity|]. destruct w; [exact Hws|]. constructor; assumption.
    + simpl. rewrite Esp, Hc, Hw. split; [reflexivity|exact Hws].
Qed.

Lemma split_ws_words (P : ascii -> bool) s :
  forallb P (list_ascii_of_string s) = true ->
  Forall (fun w => forallb (fun c => negb (is_space c) && P c) (list_ascii_of_string w) = true)
         (split_ws s).
Proof.
  intros H. pose proof (split_ws_go_words P s H) as Hg. unfold split_ws.
  destruct (split_ws_go s) as [w ws]. destruct Hg as [Hw Hws].
  destruct w; [exact Hws|]. constructor; assumption.
Qed.

Lemma split_ws_go_blank s :
  split_ws_go s = ("", []) <-> forallb is_space (list_ascii_of_string s) = true.
Proof.
  induction s as [|c s IH]; simpl; [split; reflexivity|].
  destruct (split_ws_go s) as [w ws] eqn:Eg.
  destruct (is_space c) eqn:Esp; simpl.
  - rewrite <- IH. destruct w; [tauto|]. split; intros H; congruence.
  - split; [congruence|discriminate].
Qed.

Lemma split_ws_nil s :
  split_ws s = [] <-> forallb is_space (list_ascii_of_string s) = true.
Proof.
  rewrite <- split_ws_go_blank. unfold split_ws.
  destruct (split_ws_go s) as [w ws]. destruct w; split; intros H; congruence.
Qed.

Lemma hd_split_on_blank t :
  forallb is_space (list_ascii_of_string (hd "" (split_on "," t))) = first_field_blank t.
Proof.
  unfold first_field_blank.
  induction t as [|c t IH]; simpl; [reflexivity|].
  destruct (Ascii.eqb c ",") eqn:E.
  - apply Ascii.eqb_eq in E. subst c. reflexivity.
  - assert (Hhd : hd "" (match split_on "," t with
                        | w :: ws => String c w :: ws
                        | [] => [String c ""] end) = String c (hd "" (split_on "," t)))
      by (destruct (split_on "," t); reflexivity).
    rewrite Hhd. simpl. destruct (is_space c) eqn:Esp; simpl.
    + exact IH.
    + rewrite E. reflexivity.
Qed.

Lemma str_rev_app (a b : string) : str_rev (a ++ b) = str_rev b ++ str_rev a.
Proof.
  induction a as [|c a IH]; simpl.
  - rewrite PatternFacts.str_app_nil_r. reflexivity.
  - rewrite IH. apply PatternFacts.str_app_assoc.
Qed.

Lemma lstrip_snoc c x :
  is_space c = false -> exists y, lstrip (x ++ String c "") = y ++ String c "".
Proof.
  intros Hc. induction x as [|d x IH]; simpl.
  - rewrite Hc. exists "". reflexivity.
  - destruct (is_space d); [exact IH|]. exists (String d x). reflexivity.
Qed.

Lemma strip_first_char s :
  match lstrip s with
  | EmptyString => strip s = ""
  | String c _ => exists v, strip s = String c v
  end.
Proof.
  unfold strip. destruct (lstrip s) as [|c u] eqn:Eu; [reflexivity|].
  assert (Hc : is_space c = false).
  { clear -Eu. induction s as [|d s IH]; simpl in Eu; [discriminate|].
    destruct (is_space d) eqn:Ed; [exact (IH Eu)|]. congruence. }
  simpl. destruct (lstrip_snoc c (str_rev u) Hc) as [y Hy]. rewrite Hy.
  rewrite str_rev_app. simpl. exists (str_rev y). reflexivity.
Qed.

Lemma first_field_blank_strip s : first_field_blank (strip s) = first_field_blank s.
Proof.
  unfold first_field_blank at 2. pose proof (strip_first_char s) as H.
  destruct (lstrip s) as [|c u] eqn:Eu.
  - rewrite H. reflexivity.
  - destruct H as [v Hv]. rewrite Hv. unfold first_field_blank. simpl.
    assert (Hc : is_space c = false).
    { clear -Eu. induction s as [|d s IH]; simpl in Eu; [discriminate|].
      destruct (is_space d) eqn:Ed; [exact (IH Eu)|]. congruence. }
    rewrite Hc. reflexivity.
Qed.

Lemma forallb_pointwise {A} (f g : A -> bool) l :
  (forall x, f x = g x) -> forallb f l = forallb g l.
Proof. intros H. induction l as [|x l IH]; simpl; [reflexivity|]. rewrite H, IH. reflexivity. Qed.

Lemma extract_loop_shape fs cves m :
  map_Forall (fun _ c => kept_cve c) cves ->
  extract_loop fs cves = Ok m ->
  map_Forall (fun _ c => kept_cve c) m.
Proof.
  revert cves. induction fs as [|f fs IH]; intros cves Hc Hm; simpl in Hm.
  - injection Hm as <-. exact Hc.
  - destruct (cf_cve f) as [s|]; [|exact (IH _ Hc Hm)].
    destruct (FindingsConverter.nonempty s); [|exact (IH _ Hc Hm)].
    pose proof (split_ws_words (fun c => negb (Ascii.eqb c ","))
                  (hd "" (split_on "," (strip s))) (hd_split_on_comma _)) as Hw.
    destruct (split_ws (hd "" (split_on "," (strip s)))) as [|w ws]; [discriminate|].
    inversion Hw as [|? ? Hw1 _]; subst.
    refine (IH _ _ Hm).
    destruct (startswith (str_upper w) "CVE-") eqn:Epre; [|exact Hc].
    apply map_Forall_insert_2; [|exact Hc].
    split_and!; [exact Epre | apply str_upper_idem |].
    rewrite str_upper_cve_chars.
    replace (forallb cve_char (list_ascii_of_string w))
      with (forallb (fun c => negb (is_space c) && negb (c =? ",")%char) (list_ascii_of_string w));
      [exact Hw1|].
    apply forallb_pointwise. intros c. unfold cve_char. apply andb_comm.
Qed.

(** X6: every CVE id [_extract_cves_from_findings] keeps starts with
    ["CVE-"], is already upper case, and contains no comma and no
    whitespace. *)
Theorem extract_cves_shape fs m i c :
  _extract_cves_from_findings fs = Ok m ->
  m !! i = Some c ->
  startswith c "CVE-" = true /\ str_upper c = c /\
  forallb (fun ch => negb (Ascii.eqb ch ",") && negb (is_space ch)) (list_ascii_of_string c) = true.
Proof.
  intros Hm Hi. apply (extract_loop_shape fs ∅ m) in Hm; [|apply map_Forall_empty].
  exact (Hm i c Hi).
Qed.

Lemma extract_loop_raise fs cves :
  (forall e, extract_loop fs cves = Raise e -> e = index_error) /\
  (extract_loop fs cves = Raise index_error <-> Exists blank_cve fs).
Proof.
  revert cves. induction fs as [|f fs IH]; intros cves; simpl.
  - split; [discriminate|]. split; [discriminate|]. intros H; inversion H.
  - rewrite Exists_cons. unfold blank_cve at 1.
    destruct (cf_cve f) as [s|]; [|destruct (IH cves) as [H1 H2]; split; [exact H1|];
                                   rewrite H2; tauto].
    unfold FindingsConverter.nonempty.
    destruct (String.eqb s "") eqn:Es; simpl.
    + apply String.eqb_eq in Es. destruct (IH cves) as [H1 H2]. split; [exact H1|].
      rewrite H2. split; [tauto|]. intros [[Hne _]|H]; [congruence|exact H].
    + apply String.eqb_neq in Es.
      rewrite <- first_field_blank_strip, <- hd_split_on_blank.
      destruct (split_ws (hd "" (split_on "," (strip s)))) as [|w ws] eqn:Ew.
      * apply split_ws_nil in Ew. rewrite Ew.
        split; [congruence|]. split; [tauto|reflexivity].
      * assert (Hnb : forallb is_space (list_ascii_of_string (hd "" (split_on "," (strip s)))) = false).
        { destruct (forallb is_space _) eqn:Eb; [|reflexivity].
          apply split_ws_nil in Eb. congruence. }
        rewrite Hnb.
        destruct (IH (if startswith (str_upper w) "CVE-" then <[cf_id f:=str_upper w]> cves else cves))
          as [H1 H2].
        split; [exact H1|]. rewrite H2. split; [tauto|]. intros [[_ Hf]|H]; [discriminate|exact H].
Qed.

(** X7: [_extract_cves_from_findings] raises only [IndexError], and it
    raises exactly when some finding has a non-empty [cve] which, after
    its leading whitespace, is empty or starts with a comma (for example
    [" "] or [",CVE-2024-1"]): one such row aborts the whole extraction. *)
Theorem extract_cves_index_error fs :
  (forall e, _extract_cves_from_findings fs = Raise e -> e = index_error) /\
  (_extract_cves_from_findings fs = Raise index_error <->
   Exists (fun f => match cf_cve f with
                    | Some s => s <> "" /\
                        match lstrip s with
                        | EmptyString => True
                        | String c _ => c = ","%char
                        end
                    | None => False
                    end) fs).
Proof.
  destruct (extract_loop_raise fs ∅) as [H1 H2]. split; [exact H1|].
  unfold _extract_cves_from_findings. rewrite H2.
  split; intros H; (eapply Exists_impl; [exact H|]); intros f; unfold blank_cve, first_field_blank;
    destruct (cf_cve f) as [s|]; try tauto;
    destruct (lstrip s) as [|c u]; try tauto; rewrite Ascii.eqb_eq; tauto.
Qed.

(** Witness of X6: a finding whose [cve] lists two ids, the first in
    lower case and padded with spaces. *)
Lemma extract_cves_shape_witness :
  let fs := [{| cf_id := 1; cf_cve := Some " cve-2024-1234 , CVE-2023-0001" |}] in
  _extract_cves_from_findings fs = Ok {[ 1%nat := "CVE-2024-1234" ]} /\
  startswith "CVE-2024-1234" "CVE-" = true /\ str_upper "CVE-2024-1234" = "CVE-2024-1234" /\
  forallb (fun ch => negb (Ascii.eqb ch ",") && negb (is_space ch))
    (list_ascii_of_string "CVE-2024-1234") = true.
Proof.
  intros fs.
  assert (H : _extract_cves_from_findings fs = Ok {[ 1%nat := "CVE-2024-1234" ]})
    by (vm_compute; reflexivity).
  split; [exact H|].
  apply (extract_cves_shape fs {[ 1%nat := "CVE-2024-1234" ]} 1 "CVE-2024-1234" H).
  vm_compute. reflexivity.
Defined.

End EPSSFetchFacts.

Module EPSSBatchFacts.
Import EPSSUpdater EPSSFetch EPSSBatchSpec.

#[local] Set Warnings "-inexact-float".

Lemma batches_concat_from {A} (l : list A) k m :
  (List.length (skipn (m * 100) l) <= k * 100)%nat ->
  List.concat (map (fun j => firstn 100 (skipn (j * 100) l)) (seq m k)) = skipn (m * 100) l.
Proof.
  revert m. induction k as [|k IH]; intros m Hlen; simpl.
  - symmetry. apply length_zero_iff_nil. lia.
  - rewrite IH.
    + replace (S m * 100)%nat with (100 + m * 100)%nat by lia.
      rewrite <- skipn_skipn. apply take_drop.
    + replace (S m * 100)%nat with (100 + m * 100)%nat by lia.
      rewrite <- skipn_skipn, !length_skipn. rewrite length_skipn in Hlen. lia.
Qed.

Lemma ceil_div_bound n : (n <= (n + 100 - 1) / 100 * 100)%nat.
Proof.
  pose proof (Nat.div_mod (n + 100 - 1) 100 ltac:(lia)) as H.
  pose proof (Nat.mod_upper_bound (n + 100 - 1) 100 ltac:(lia)). lia.
Qed.

Lemma ceil_div_lt n j : (j < (n + 100 - 1) / 100)%nat -> (j * 100 < n)%nat.
Proof.
  intros Hj.
  pose proof (Nat.div_mod (n + 100 - 1) 100 ltac:(lia)) as H.
  pose proof (Nat.mod_upper_bound (n + 100 - 1) 100 ltac:(lia)). nia.
Qed.

Lemma batches_as_seq (cves : list string) :
  batches cves =
  map (fun j => firstn 100 (skipn (j * 100) cves)) (seq 0 ((List.length cves + 100 - 1) / 100)).
Proof. unfold batches, batch_starts, BATCH_SIZE. rewrite map_map. reflexivity. Qed.

(** X8: [_fetch_epss_scores] sends every CVE of its list exactly once and
    in order: the batches [cves[i:i+100]] concatenate to [cves], each
    holds between 1 and 100 ids, and there are [ceil(len(cves)/100)] of
    them (none for an empty list). *)
Theorem batches_partition cves :
  List.concat (batches cves) = cves /\
  Forall (fun b => 1 <= List.length b <= 100)%nat (batches cves) /\
  List.length (batches cves) = ((List.length cves + 99) / 100)%nat.
Proof.
  rewrite batches_as_seq. split_and!.
  - apply (batches_concat_from cves _ 0). simpl. apply ceil_div_bound.
  - apply List.Forall_forall. intros b Hb. apply in_map_iff in Hb as (j & <- & Hj).
    apply in_seq in Hj. pose proof (ceil_div_lt (List.length cves) j ltac:(lia)).
    rewrite length_firstn, length_skipn. lia.
  - rewrite length_map, length_seq. f_equal. lia.
Qed.

Section FetchFacts.
Variable get_scores : list string -> py (gmap string score_data).

Lemma fetch_loop_spec bs acc errs m e :
  fetch_loop get_scores bs acc errs = Ok (m, e) ->
  e = (errs + List.length (List.filter (batch_failed get_scores) bs))%nat /\
  forall k v, m !! k = Some v ->
    acc !! k = Some v \/
    exists b sb, In b bs /\ get_scores b = Ok sb /\ sb !! k = Some v.
Proof.
  revert acc errs. induction bs as [|b bs IH]; intros acc errs H; simpl in H.
  - injection H as <- <-. simpl. split; [lia|]. intros k v Hk. left. exact Hk.
  - cbn [List.filter].
    destruct (get_scores b) as [sb|ex] eqn:Eb.
    + assert (Hf : (batch_failed get_scores) b = false) by (unfold batch_failed; rewrite Eb; reflexivity).
      rewrite Hf.
      destruct (IH _ _ H) as [He Hk]. split; [exact He|].
      intros k v Hv. destruct (Hk k v Hv) as [Hu | (b' & sb' & Hin & Hg & Hs)].
      * apply lookup_union_Some_raw in Hu as [Hs | [_ Ha]].
        -- right. exists b, sb. split_and!; [left; reflexivity|exact Eb|exact Hs].
        -- left. exact Ha.
      * right. exists b', sb'. split_and!; [right; exact Hin|exact Hg|exact Hs].
    + destruct (is_Exception ex); [|discriminate].
      assert (Hf : (batch_failed get_scores) b = true) by (unfold batch_failed; rewrite Eb; reflexivity).
      rewrite Hf. destruct (IH _ _ H) as [He Hk]. split; [cbn [List.length]; lia|].
      intros k v Hv. destruct (Hk k v Hv) as [Hu | (b' & sb' & Hin & Hg & Hs)].
      * left. exact Hu.
      * right. exists b', sb'. split_and!; [right; exact Hin|exact Hg|exact Hs].
Qed.

End FetchFacts.

(** X9: when [_fetch_epss_scores] returns, its [errors] counter has grown
    by the number of batches whose [get_scores] call raised, and every
    score it returns was returned for that CVE by the call on one of the
    batches. *)
Theorem fetch_epss_scores_spec get_scores cves errs m e :
  _fetch_epss_scores get_scores cves errs = Ok (m, e) ->
  e = (errs + List.length (List.filter (fun b => match get_scores b with Ok _ => false | Raise _ => true end)
                        (batches cves)))%nat /\
  forall k v, m !! k = Some v ->
    exists b sb, In b (batches cves) /\ get_scores b = Ok sb /\ sb !! k = Some v.
Proof.
  intros H. destruct (fetch_loop_spec get_scores _ _ _ _ _ H) as [He Hk].
  split; [exact He|]. intros k v Hv.
  destruct (Hk k v Hv) as [Hu|Hb]; [|exact Hb]. rewrite lookup_empty in Hu. discriminate.
Qed.

(** Witness of X9: a client that scores one CVE, on a one-CVE list. *)
Lemma fetch_epss_scores_spec_witness :
  let gs := fun (_ : list string) =>
    Ok ({[ "CVE-2024-0001" := {| epss := 0.4%float; percentile := 0.9%float |} ]}
        : gmap string score_data) in
  _fetch_epss_scores gs ["CVE-2024-0001"] 0 =
    Ok ({[ "CVE-2024-0001" := {| epss := 0.4%float; percentile := 0.9%float |} ]}, 0%nat) /\
  0%nat = (0 + List.length (List.filter (fun b => match gs b with Ok _ => false | Raise _ => true end)
                              (batches ["CVE-2024-0001"])))%nat.
Proof.
  intros gs.
  assert (H : _fetch_epss_scores gs ["CVE-2024-0001"] 0 =
    Ok ({[ "CVE-2024-0001" := {| epss := 0.4%float; percentile := 0.9%float |} ]}, 0%nat))
    by (vm_compute; reflexivity).
  split; [exact H|]. exact (proj1 (fetch_epss_scores_spec gs _ 0 _ _ H)).
Defined.

End EPSSBatchFacts.

Module EPSSUpdateFacts.
Import EPSSUpdater EPSSUpdateSpec.

#[local] Set Warnings "-inexact-float".

Section Update.
Variable save : nat -> py unit.
Variable cves : gmap nat string.
Variable scores : gmap string score_data.
Variable trigger_triage : bool.

Lemma update_one_effect st f :
  let '(r, st') := update_one save cves scores trigger_triage st f in
  match r with
  | Ok _ =>
      counted (st_stats st') = (counted (st_stats st) + (if (scored cves scores) f then 1 else 0))%nat /\
      balanced st st'
  | Raise e => is_Exception e = false
  end /\
  (forall w, In w (writes st') -> In w (writes st) \/ (carries_score cves scores) f w).
Proof.
  unfold update_one, scored, counted, balanced.
  destruct (cves !! f_id f) as [c|] eqn:Ec; [|simpl; split_and!; [lia|lia|tauto]].
  destruct (FindingsConverter.nonempty c) eqn:Ene; simpl; [|split_and!; [lia|lia|tauto]].
  destruct (scores !! c) as [sd|] eqn:Es; simpl; [|split_and!; [lia|lia|tauto]].
  assert (Hnew : forall w, In w [{| f_id := f_id f; epss_score := Some (epss sd);
                                      epss_percentile := Some (percentile sd) |}] ->
                   (carries_score cves scores) f w).
  { intros w [<-|[]]. split; [reflexivity|]. exists c, sd. split_and!; first [reflexivity | assumption]. }
  assert (Happ : forall l w, In w (l ++ [{| f_id := f_id f; epss_score := Some (epss sd);
                                              epss_percentile := Some (percentile sd) |}])%list ->
                   In w l \/ (carries_score cves scores) f w).
  { intros l w Hw. apply in_app_or in Hw. destruct Hw as [Hw|Hw]; [left; exact Hw|right; exact (Hnew w Hw)]. }
  destruct (epss_score f) as [old|];
    [destruct (PrimFloat.eqb old (epss sd) && opt_float_eq (epss_percentile f) (percentile sd));
     simpl; [split_and!; [lia|lia|tauto]|]|];
    destruct (PrimFloat.leb SIGNIFICANT_CHANGE_THRESHOLD _);
    (destruct (save (f_id f)) as [u|e]; [|destruct (is_Exception e) eqn:Ex]); simpl;
    first [ split_and!; [lia|rewrite length_app; simpl; lia|apply Happ]
          | split_and!; [lia|lia|tauto]
          | split; [exact Ex|tauto] ].
Qed.

Lemma update_loop_effect fs st :
  let '(r, st') := update_loop save cves scores trigger_triage fs st in
  match r with
  | Ok _ =>
      counted (st_stats st') =
        (counted (st_stats st) + List.length (List.filter (scored cves scores) fs))%nat /\
      balanced st st'
  | Raise e => is_Exception e = false
  end /\
  (forall w, In w (writes st') -> In w (writes st) \/ exists f, In f fs /\ (carries_score cves scores) f w).
Proof.
  unfold balanced. revert st.
  induction fs as [|f fs IH]; intros st; cbn [update_loop].
  - split_and!; [simpl; lia|lia|tauto].
  - pose proof (update_one_effect st f) as H.
    destruct (update_one save cves scores trigger_triage st f) as [[u|e] st1].
    + destruct H as ((H1 & H2) & H3). unfold balanced in H2. specialize (IH st1).
      destruct (update_loop save cves scores trigger_triage fs st1) as [[u'|e'] st'].
      * destruct IH as ((I1 & I2) & I3). split; [split|].
        -- rewrite I1, H1. cbn [List.filter]. destruct ((scored cves scores) f); simpl; lia.
        -- lia.
        -- intros w Hw. destruct (I3 w Hw) as [Hw1 | (f' & Hf' & Hc)].
           ++ destruct (H3 w Hw1) as [Hw2 | Hc]; [left; exact Hw2|].
              right. exists f. split; [left; reflexivity|exact Hc].
           ++ right. exists f'. split; [right; exact Hf'|exact Hc].
      * destruct IH as (I1 & I3). split; [exact I1|].
        intros w Hw. destruct (I3 w Hw) as [Hw1 | (f' & Hf' & Hc)].
        -- destruct (H3 w Hw1) as [Hw2 | Hc]; [left; exact Hw2|].
           right. exists f. split; [left; reflexivity|exact Hc].
        -- right. exists f'. split; [right; exact Hf'|exact Hc].
    + destruct H as (H1 & H3). split; [exact H1|].
      intros w Hw. destruct (H3 w Hw) as [Hw2 | Hc]; [left; exact Hw2|].
      right. exists f. split; [left; reflexivity|exact Hc].
Qed.

End Update.

(** X10: when [_update_findings_with_scores] completes, it has counted
    every finding that has a non-empty CVE with a fetched score exactly
    once, as updated, unchanged or new, and every finding counted as
    updated or new has either had its row saved or, its save raising an
    [Exception], added one to [errors] (none is saved for the unchanged
    ones). Only a non-[Exception] raised by a save escapes the loop. *)
Theorem update_findings_accounting save fs cves scores trigger_triage st :
  let '(r, st') := _update_findings_with_scores save fs cves scores trigger_triage st in
  match r with
  | Ok _ =>
      (findings_updated (st_stats st') + findings_unchanged (st_stats st') +
       findings_new_score (st_stats st') =
       findings_updated (st_stats st) + findings_unchanged (st_stats st) +
       findings_new_score (st_stats st) +
       List.length (List.filter (scored cves scores) fs))%nat /\
      (List.length (writes st') + errors (st_stats st') +
       findings_updated (st_stats st) + findings_new_score (st_stats st) =
       List.length (writes st) + errors (st_stats st) +
       findings_updated (st_stats st') + findings_new_score (st_stats st'))%nat
  | Raise e => is_Exception e = false
  end.
Proof.
  unfold _update_findings_with_scores.
  pose proof (update_loop_effect save cves scores trigger_triage fs st) as H.
  destruct (update_loop save cves scores trigger_triage fs st) as [[u|e] st'].
  - destruct H as ((H1 & H2) & _). exact (conj H1 H2).
  - exact (proj1 H).
Qed.

(** X11: every row [_update_findings_with_scores] saves belongs to one of
    the given findings and carries the score and percentile fetched for
    that finding's CVE. *)
Theorem update_findings_writes_fetched_scores save fs cves scores trigger_triage st w :
  In w (writes (_update_findings_with_scores save fs cves scores trigger_triage st).2) ->
  In w (writes st) \/
  exists f c sd, In f fs /\ f_id w = f_id f /\ cves !! f_id f = Some c /\ scores !! c = Some sd /\
                 epss_score w = Some (epss sd) /\ epss_percentile w = Some (percentile sd).
Proof.
  intros Hw. unfold _update_findings_with_scores in Hw.
  pose proof (update_loop_effect save cves scores trigger_triage fs st) as H.
  destruct (update_loop save cves scores trigger_triage fs st) as [r st'].
  destruct H as (_ & H3).
  destruct (H3 w Hw) as [H|(f & Hf & Hid & c & sd & Hc & Hs & He & Hp)]; [left; exact H|].
  right. exists f, c, sd. split_and!; assumption.
Qed.

(** Witness of X11: the finding scored 0.1 whose CVE is now scored 0.4
    gets one row with the new score. *)
Lemma update_findings_writes_fetched_scores_witness :
  let w := {| f_id := 1; epss_score := Some 0.4%float; epss_percentile := Some 0.9%float |} in
  In w (writes (_update_findings_with_scores EPSSScenarios.save_ok [EPSSScenarios.f1]
                  EPSSScenarios.cves1 EPSSScenarios.scores1 false EPSSScenarios.st0).2) /\
  (In w (writes EPSSScenarios.st0) \/
   exists f c sd, In f [EPSSScenarios.f1] /\ f_id w = f_id f /\
     EPSSScenarios.cves1 !! f_id f = Some c /\ EPSSScenarios.scores1 !! c = Some sd /\
     epss_score w = Some (epss sd) /\ epss_percentile w = Some (percentile sd)).
Proof.
  intros w.
  assert (Hin : In w (writes (_update_findings_with_scores EPSSScenarios.save_ok [EPSSScenarios.f1]
                                EPSSScenarios.cves1 EPSSScenarios.scores1 false EPSSScenarios.st0).2))
    by (vm_compute; left; reflexivity).
  split; [exact Hin|]. exact (update_findings_writes_fetched_scores _ _ _ _ _ _ w Hin).
Defined.

End EPSSUpdateFacts.

Module AlertsExtraFacts.
Import AlertsCollector AlertsSpec.
#[local] Arguments String.append : simpl nomatch.

Local Abbreviation DROP :=
  (fix drop (r : string) : string :=
     match r with
     | String "/" r' => drop r'
     | _ => r
     end).

Lemma str_rev_involutive s : str_rev (str_rev s) = s.
Proof.
  induction s as [|c s IH]; simpl; [reflexivity|].
  rewrite EPSSFetchFacts.str_rev_app, IH. reflexivity.
Qed.

Lemma all_slashes_app a b :
  all_slashes (a ++ b) = all_slashes a && all_slashes b.
Proof.
  unfold all_slashes. induction a as [|c a IH]; simpl; [reflexivity|].
  rewrite IH. apply andb_assoc.
Qed.

Lemma all_slashes_rev t : all_slashes t = true -> all_slashes (str_rev t) = true.
Proof.
  induction t as [|c t IH]; simpl; [reflexivity|].
  intros H. unfold all_slashes in H. simpl in H. apply andb_true_iff in H as [Hc Ht].
  rewrite all_slashes_app, IH by exact Ht. unfold all_slashes. simpl. rewrite Hc. reflexivity.
Qed.

Lemma drop_slashes t x : all_slashes t = true -> DROP (t ++ x) = DROP x.
Proof.
  induction t as [|c t IH]; intros H; [reflexivity|].
  unfold all_slashes in H. simpl in H. apply andb_true_iff in H as [Hc Ht].
  apply Ascii.eqb_eq in Hc. subst c. exact (IH Ht).
Qed.

Lemma drop_nonslash c r : c <> "/"%char -> DROP (String c r) = String c r.
Proof.
  intros Hc. destruct c as [[] [] [] [] [] [] [] []]; try reflexivity.
  exfalso. apply Hc. reflexivity.
Qed.

Lemma no_slash_cons c s :
  str_contains (String c s) "/" = false <-> c <> "/"%char /\ str_contains s "/" = false.
Proof.
  change (String.prefix (String "/" "") (String c s) || str_contains s "/" = false <->
          c <> "/"%char /\ str_contains s "/" = false).
  rewrite PatternFacts.prefix_single, orb_false_iff.
  destruct (Ascii.eqb_spec c "/"); split; intros [H1 H2]; try discriminate; tauto.
Qed.

Lemma str_rev_no_slash n :
  str_contains n "/" = false -> n <> "" -> exists c r, str_rev n = String c r /\ c <> "/"%char.
Proof.
  induction n as [|c n IH]; intros Hn Hne; [congruence|].
  apply no_slash_cons in Hn as [Hc Hn]. simpl.
  destruct n as [|c' n'].
  - exists c, "". split; [reflexivity|exact Hc].
  - destruct (IH Hn ltac:(discriminate)) as (c0 & r & Hr & Hc0).
    rewrite Hr. exists c0, (r ++ String c ""). split; [reflexivity|exact Hc0].
Qed.

Lemma split_on_nonnil sep s : split_on sep s <> [].
Proof.
  destruct s as [|c s]; simpl; [discriminate|].
  destruct (Ascii.eqb c sep); [discriminate|]. destruct (split_on sep s); discriminate.
Qed.

Lemma split_on_app_sep sep a b :
  split_on sep (a ++ String sep b) = (split_on sep a ++ split_on sep b)%list.
Proof.
  induction a as [|c a IH]; simpl.
  - rewrite Ascii.eqb_refl. reflexivity.
  - destruct (Ascii.eqb c sep); [rewrite IH; reflexivity|].
    rewrite IH. destruct (split_on sep a) as [|w ws] eqn:E.
    + exfalso. exact (split_on_nonnil sep a E).
    + reflexivity.
Qed.

Lemma split_on_no_slash s : str_contains s "/" = false -> split_on "/" s = [s].
Proof.
  induction s as [|c s IH]; intros H; [reflexivity|].
  apply no_slash_cons in H as [Hc Hs]. simpl.
  destruct (Ascii.eqb_spec c "/"); [contradiction|]. rewrite (IH Hs). reflexivity.
Qed.

Lemma split_on_words_no_slash s :
  Forall (fun w => str_contains w "/" = false) (split_on "/" s).
Proof.
  induction s as [|c s IH]; simpl; [constructor; [reflexivity|constructor]|].
  destruct (Ascii.eqb_spec c "/").
  - constructor; [reflexivity|exact IH].
  - destruct (split_on "/" s) as [|w ws].
    + constructor; [|constructor]. apply no_slash_cons. split; [exact n|reflexivity].
    + inversion IH as [|? ? Hw Hws]; subst.
      constructor; [|exact Hws]. apply no_slash_cons. split; assumption.
Qed.

(** X12: a repository whose [github_url] is any base, then [/owner/name],
    then any run of trailing slashes, parses to [(owner, name)] when
    neither contains ['/'] and the name is not empty. *)
Theorem parse_repository_identifier_url repo base o n t :
  str_contains o "/" = false -> str_contains n "/" = false -> n <> "" ->
  all_slashes t = true ->
  r_github_url repo = base ++ "/" ++ o ++ "/" ++ n ++ t ->
  _parse_repository_identifier repo = (o, n).
Proof.
  intros Ho Hn Hne Ht Hurl. unfold _parse_repository_identifier. rewrite Hurl.
  set (S0 := base ++ String "/" (o ++ String "/" n)).
  assert (Hurl' : base ++ "/" ++ o ++ "/" ++ n ++ t = S0 ++ t).
  { unfold S0. rewrite PatternFacts.str_app_assoc. simpl.
    rewrite PatternFacts.str_app_assoc. reflexivity. }
  rewrite Hurl'.
  assert (Hstrip : rstrip_slash (S0 ++ t) = S0).
  { unfold rstrip_slash. rewrite EPSSFetchFacts.str_rev_app, (drop_slashes _ _ (all_slashes_rev t Ht)).
    destruct (str_rev_no_slash n Hn Hne) as (c & r & Hr & Hc).
    assert (HS : str_rev S0 = String c (r ++ str_rev (base ++ String "/" (o ++ "/")))).
    { unfold S0.
      replace (base ++ String "/" (o ++ String "/" n))
        with ((base ++ String "/" (o ++ "/")) ++ n)
        by (rewrite PatternFacts.str_app_assoc; simpl;
            rewrite PatternFacts.str_app_assoc; reflexivity).
      rewrite EPSSFetchFacts.str_rev_app, Hr. reflexivity. }
    rewrite HS, (drop_nonslash c _ Hc), <- HS. apply str_rev_involutive. }
  rewrite Hstrip.
  assert (Hne0 : FindingsConverter.nonempty (S0 ++ t) = true).
  { unfold S0. destruct base; reflexivity. }
  rewrite Hne0. unfold S0.
  rewrite split_on_app_sep, split_on_app_sep, (split_on_no_slash o Ho), (split_on_no_slash n Hn).
  rewrite rev_app_distr. reflexivity.
Qed.

(** X13: neither component [_parse_repository_identifier] returns
    contains ['/'] (and the pair is [("", "")] when nothing parses). *)
Theorem parse_repository_identifier_no_slash repo :
  let '(o, n) := _parse_repository_identifier repo in
  str_contains o "/" = false /\ str_contains n "/" = false.
Proof.
  unfold _parse_repository_identifier.
  destruct (if FindingsConverter.nonempty (r_github_url repo) then _ else None) as [[o n]|] eqn:Eu.
  - destruct (FindingsConverter.nonempty (r_github_url repo)); [|discriminate].
    pose proof (split_on_words_no_slash (rstrip_slash (r_github_url repo))) as H.
    apply Forall_rev in H.
    destruct (rev (split_on "/" (rstrip_slash (r_github_url repo)))) as [|n' [|o' rest]];
      try discriminate.
    injection Eu as <- <-. inversion H as [|? ? Hn' Hrest]; subst.
    inversion Hrest; subst. split; assumption.
  - destruct (if str_contains (r_name repo) "/" then _ else None) as [[o n]|] eqn:En.
    + destruct (str_contains (r_name repo) "/"); [|discriminate].
      pose proof (split_on_words_no_slash (r_name repo)) as H.
      destruct (split_on "/" (r_name repo)) as [|o' [|n' [|]]]; try discriminate.
      injection En as <- <-. inversion H as [|? ? Ho' Hrest]; subst.
      inversion Hrest; subst. split; assumption.
    + split; reflexivity.
Qed.

Lemma pct_gt80 r l : (0 < l)%Z ->
  Qle_bool ((1 - inject_Z r / inject_Z l) * 100) 80 = false <-> (5 * r < l)%Z.
Proof.
  intros Hl. destruct l as [|p|p]; try lia.
  unfold Qle_bool. cbn. rewrite Z.leb_gt. lia.
Qed.

(** X14: [RateLimitStatus.should_pause] holds exactly when, on one of the
    two APIs, the limit is positive and fewer than a fifth of it remain
    (more than 80% used); a non-positive limit never asks for a pause. *)
Theorem should_pause_iff q :
  should_pause q = true <->
  ((0 < graphql_limit q)%Z /\ (5 * graphql_remaining q < graphql_limit q)%Z) \/
  ((0 < rest_limit q)%Z /\ (5 * rest_remaining q < rest_limit q)%Z).
Proof.
  unfold should_pause, graphql_percent_used, rest_percent_used.
  rewrite orb_true_iff, !negb_true_iff.
  destruct (Z.ltb_spec 0 (graphql_limit q)) as [Hg|Hg];
  destruct (Z.ltb_spec 0 (rest_limit q)) as [Hr|Hr];
  rewrite ?(pct_gt80 _ _ Hg), ?(pct_gt80 _ _ Hr); split;
  (intros [H|H]; [left|right]); try tauto; try discriminate; lia.
Qed.

Lemma sync_repository_result_id should_sync repo force tracker now o res :
  (sync_repository_alerts should_sync repo force tracker now o).1.1 = Ok res ->
  repository_id res = r_id repo.
Proof.
  unfold sync_repository_alerts.
  destruct (negb force && negb (should_sync repo tracker now));
    [intros H; injection H as <-; reflexivity|].
  destruct (_parse_repository_identifier repo) as [owner name].
  destruct (negb (FindingsConverter.nonempty owner) || negb (FindingsConverter.nonempty name));
    [intros H; injection H as <-; reflexivity|].
  destruct (fetch_dependabot o) as [n1|e1];
    [destruct (fetch_codeql o) as [n2|e2];
     [destruct (fetch_secret_scanning o) as [n3|e3]|]|];
    [| destruct (is_Exception e3) | destruct (is_Exception e2)
     | destruct (is_Exception e1)]; simpl; intros H;
    try discriminate H; injection H as <-; reflexivity.
Qed.

(** X15: a successful organization sync returns its results in the order
    of the selected repositories, one per repository. *)
Theorem sync_organization_results_in_order should_sync force quota outcomes now repos
    cursors rs :
  (sync_organization_alerts should_sync force quota outcomes now repos cursors).1 = Ok rs ->
  map repository_id rs = map r_id repos.
Proof.
  unfold sync_organization_alerts. generalize 1%nat as i. revert cursors rs.
  induction repos as [|repo rest IH]; intros cursors rs i.
  { simpl. intros H. injection H as <-. reflexivity. }
  simpl. unfold _should_pause_for_rate_limits.
  pose proof (sync_repository_result_id should_sync repo force
                (cursors !! r_id repo) now (outcomes repo)) as Hid.
  destruct (sync_repository_alerts should_sync repo force (cursors !! r_id repo) now
              (outcomes repo)) as [[r tr] repo'].
  destruct r as [res|e]; [|discriminate].
  set (cursors' := match tr with Some t => <[r_id repo:=t]> cursors | None => cursors end).
  specialize (IH cursors').
  destruct (sync_loop should_sync force quota outcomes now (S i) rest cursors') as [rs0 c'']
    eqn:Hl.
  destruct rs0 as [l|e]; simpl; [|discriminate].
  intros H. injection H as <-. simpl. rewrite (Hid res eq_refl).
  f_equal. apply (IH l (S i)). rewrite Hl. reflexivity.
Qed.

(** X16: a repository that is not due for a sync (and not forced), or
    whose owner/name cannot be parsed, is answered without any fetch: the
    cursor row and the repository row are returned as they were, with a
    fresh result, or a failed one carrying "Could not parse repository
    owner/name". *)
Theorem sync_repository_skip_or_unparsable should_sync repo force tracker now o :
  match sync_repository_alerts should_sync repo force tracker now o with
  | (r, tr, repo') =>
      (force = false -> should_sync repo tracker now = false ->
       r = Ok (new_result repo) /\ tr = tracker /\ repo' = repo) /\
      ((force = true \/ should_sync repo tracker now = true) ->
       ((_parse_repository_identifier repo).1 = "" \/ (_parse_repository_identifier repo).2 = "") ->
       r = Ok (fail_result (new_result repo) "Could not parse repository owner/name") /\
       tr = tracker /\ repo' = repo)
  end.
Proof.
  unfold sync_repository_alerts.
  destruct (negb force && negb (should_sync repo tracker now)) eqn:Hgo.
  - split; [intros _ _; split_and!; reflexivity|].
    intros H _. exfalso. destruct force, (should_sync repo tracker now);
      destruct H; discriminate.
  - assert (Hsk : force = false -> should_sync repo tracker now = false -> False).
    { intros -> Hs. rewrite Hs in Hgo. discriminate. }
    destruct (_parse_repository_identifier repo) as [owner name].
    destruct (negb (FindingsConverter.nonempty owner) || negb (FindingsConverter.nonempty name))
      eqn:Hn.
    + split; [intros H1 H2; destruct (Hsk H1 H2)|]. intros _ _. split_and!; reflexivity.
    + match goal with |- match ?X with _ => _ end => destruct X as [[r tr] repo'] end.
      split; [intros H1 H2; destruct (Hsk H1 H2)|].
      intros _ Hp. exfalso. apply orb_false_iff in Hn as [H1 H2].
      simpl in Hp. destruct Hp as [-> | ->]; discriminate.
Qed.

(** Witness of X12: [https://github.com/acme/api//] parses to
    [("acme", "api")]. *)
Lemma parse_repository_identifier_url_witness :
  _parse_repository_identifier
    {| r_id := 1; r_name := "api"; r_github_url := "https://github.com/acme/api//";
       r_dependabot_alert_count := 0; r_codeql_alert_count := 0;
       r_secret_scanning_alert_count := 0; r_last_alert_sync := None |} = ("acme", "api").
Proof.
  apply (parse_repository_identifier_url _ "https://github.com" "acme" "api" "//");
    [reflexivity|reflexivity|discriminate|reflexivity|reflexivity].
Defined.

(** Witness of X15: two never-synced repositories, every fetch
    succeeding. *)
Lemma sync_organization_results_in_order_witness :
  exists rs,
    (sync_organization_alerts AlertScenarios.never_synced false
       (fun _ => AlertScenarios.low_graphql_quota) (fun _ => AlertScenarios.all_ok) 100
       [AlertScenarios.repo 1 "api"; AlertScenarios.repo 2 "web"] ∅).1 = Ok rs /\
    map repository_id rs = [1; 2]%nat.
Proof.
  destruct (sync_organization_alerts AlertScenarios.never_synced false
       (fun _ => AlertScenarios.low_graphql_quota) (fun _ => AlertScenarios.all_ok) 100
       [AlertScenarios.repo 1 "api"; AlertScenarios.repo 2 "web"] ∅) as [r c] eqn:E.
  destruct r as [rs|e].
  - exists rs. split; [reflexivity|].
    exact (sync_organization_results_in_order _ _ _ _ _ _ _ rs (f_equal fst E)).
  - exfalso. vm_compute in E. discriminate E.
Defined.

End AlertsExtraFacts.

Module AlertFieldsFacts.
Import AlertFields AlertFieldsSpec.

Lemma guarded_get_bound d k n :
  exists s, guarded_get d k n = PStr s /\ (String.length s <= n)%nat.
Proof.
  unfold guarded_get. destruct (dict_get d k None) as [s|].
  - destruct (FindingsConverter.nonempty s).
    + eexists. split; [reflexivity|apply AlertsCollectorFacts.truncate_length].
    + exists "". split; [reflexivity|simpl; lia].
  - exists "". split; [reflexivity|simpl; lia].
Qed.

(** X17: [_build_alert_fields] raises exactly when the alert data holds a
    [null] title or html_url, and then raises the [TypeError] of slicing
    [None]; otherwise each of the eight cut text fields is a string within
    its column limit. *)
Theorem build_alert_fields_bounds _parse_datetime d :
  match _build_alert_fields _parse_datetime d with
  | Ok fields =>
      Forall (fun '(k, n) => exists s, dict_get fields k PNone = PStr s /\
                                       (String.length s <= n)%nat) text_limits
  | Raise e =>
      e = type_error /\
      (dict_get d "title" (Some "") = None \/ dict_get d "html_url" (Some "") = None)
  end /\
  ((exists e, _build_alert_fields _parse_datetime d = Raise e) <->
   dict_get d "title" (Some "") = None \/ dict_get d "html_url" (Some "") = None).
Proof.
  unfold _build_alert_fields, slice_get.
  split; [|destruct (dict_get d "title" (Some "")), (dict_get d "html_url" (Some ""));
           simpl; split; intros H;
           first [ destruct H as [? H]; discriminate H | destruct H as [H|H]; discriminate H
                 | eexists; reflexivity | left; reflexivity | right; reflexivity ]].
  destruct (dict_get d "title" (Some "")) as [t|] eqn:Ht; [|split; [reflexivity|left; reflexivity]].
  destruct (dict_get d "html_url" (Some "")) as [u|] eqn:Hu;
    [|split; [reflexivity|right; reflexivity]].
  simpl. unfold text_limits.
  repeat constructor; simpl;
    first [ eexists; split; [reflexivity|apply AlertsCollectorFacts.truncate_length]
          | apply guarded_get_bound ].
Qed.

End AlertFieldsFacts.

Module FindingsSyncFacts.
Import FindingsConverter FindingsSync FindingsSyncSpec.

Lemma str_lower_empty s : String.eqb (str_lower s) "" = String.eqb s "".
Proof. destruct s; reflexivity. Qed.

(** X18: [_map_severity] always answers one of DefectDojo's five
    severities, and lower-casing the GitHub severity first changes
    nothing. *)
Theorem map_severity_range_and_case o :
  In (_map_severity o) ["Critical"; "High"; "Medium"; "Low"; "Info"] /\
  (forall s, _map_severity (Some (str_lower s)) = _map_severity (Some s)).
Proof.
  split.
  - unfold _map_severity. generalize (match o with
      | Some s => if String.eqb s "" then "info" else str_lower s
      | None => "info" end) as k. intros k.
    unfold SEVERITY_MAP. simpl.
    repeat match goal with |- context [if String.eqb ?a ?b then _ else _] =>
      destruct (String.eqb a b) end; simpl; tauto.
  - intros s. unfold _map_severity. rewrite str_lower_empty, SeverityFacts.str_lower_idem. reflexivity.
Qed.

Lemma engagement_raise_exception a st e :
  _get_or_create_engagement a st = Raise e -> is_Exception e = true.
Proof.
  unfold _get_or_create_engagement. destruct (a_repo_product a); [|intros H; injection H as <-; reflexivity].
  destruct (get_or_create_row _ _). discriminate.
Qed.

Lemma test_raise_exception t eng st e :
  _get_or_create_test t eng st = Raise e -> is_Exception e = true.
Proof.
  unfold _get_or_create_test.
  destruct (String.eqb _ _); [intros H; injection H as <-; reflexivity|].
  destruct (negb _); [intros H; injection H as <-; reflexivity|].
  destruct (get_or_create_row _ _). discriminate.
Qed.

Lemma find_finding_raise_exception t uid st e :
  find_finding t uid st = Raise e -> is_Exception e = true.
Proof.
  unfold find_finding. destruct (map_to_list _) as [|? [|? ?]];
    try discriminate. intros H; injection H as <-; reflexivity.
Qed.

Lemma convert_raise_exception u a t now e :
  convert_alert_to_finding_fields u a t now = Raise e -> is_Exception e = true.
Proof.
  unfold convert_alert_to_finding_fields.
  repeat (destruct (String.eqb _ _); [discriminate|]). intros H; injection H as <-; reflexivity.
Qed.

(** What one call to [create_or_update_finding] does to the findings
    table: it raises only [Exception]s, raises for an alert whose
    repository has no product, and never removes a finding. *)
Lemma create_or_update_finding_effect u a now st :
  match create_or_update_finding u a now st with
  | Ok (_, st') => a_repo_product a <> None /\
                   forall k, is_Some (findings st !! k) -> is_Some (findings st' !! k)
  | Raise e => is_Exception e = true
  end.
Proof.
  unfold create_or_update_finding.
  pose proof (engagement_raise_exception a st) as He.
  destruct (_get_or_create_engagement a st) as [[eng st1]|e1] eqn:E1; [|exact (He e1 eq_refl)].
  assert (Hp : a_repo_product a <> None).
  { intros Hn. unfold _get_or_create_engagement in E1. rewrite Hn in E1. discriminate. }
  assert (Hf1 : findings st1 = findings st).
  { unfold _get_or_create_engagement in E1. destruct (a_repo_product a); [|discriminate].
    destruct (get_or_create_row _ _). injection E1 as _ <-. reflexivity. }
  pose proof (test_raise_exception (a_alert_type a) eng st1) as Ht.
  destruct (_get_or_create_test (a_alert_type a) eng st1) as [[test st2]|e2] eqn:E2;
    [|exact (Ht e2 eq_refl)].
  assert (Hf2 : findings st2 = findings st1).
  { unfold _get_or_create_test in E2. destruct (String.eqb _ _); [discriminate|].
    destruct (negb _); [discriminate|].
    destruct (get_or_create_row _ _). injection E2 as _ <-. reflexivity. }
  pose proof (find_finding_raise_exception test (_build_unique_id a) st2) as Hff.
  destruct (find_finding test (_build_unique_id a) st2) as [found|e3];
    [|exact (Hff e3 eq_refl)].
  destruct (match found with Some (fid, f) => (Some fid, f, false)
            | None => (None, new_finding, true) end) as [[existing finding] created].
  pose proof (convert_raise_exception u a test now) as Hc.
  destruct (convert_alert_to_finding_fields u a test now) as [fields|e4];
    [|exact (Hc e4 eq_refl)].
  unfold save_and_link.
  destruct (match existing with
            | Some fid => (fid, _apply_state_to_finding u (set_fields finding fields) a now, next_finding_id st2)
            | None => _ end) as [[fid f'] next].
  split; [exact Hp|]. intros k Hk. simpl.
  apply lookup_insert_is_Some. destruct (decide (fid = k)) as [Heq|Hne]; [left; exact Heq|].
  right. split; [exact Hne|]. rewrite Hf2, Hf1. exact Hk.
Qed.

Lemma sync_findings_loop_spec u clock alerts : forall i s st,
  exists s' st',
    sync_findings_loop u clock i alerts s st = Ok (s', st') /\
    total_alerts s' = total_alerts s /\
    (created s' + updated s' + errors s' = created s + updated s + errors s + List.length alerts)%nat /\
    (errors s + List.length (List.filter no_product alerts) <= errors s')%nat /\
    (forall k, is_Some (findings st !! k) -> is_Some (findings st' !! k)).
Proof.
  induction alerts as [|a rest IH]; intros i s st.
  - exists s, st. simpl. split_and!; try reflexivity; try lia. tauto.
  - simpl. pose proof (create_or_update_finding_effect u a (clock i) st) as Hc.
    destruct (create_or_update_finding u a (clock i) st) as [[[f was] st1]|e].
    + destruct Hc as [Hp Hsub].
      assert (Hnp : no_product a = false).
      { unfold no_product. destruct (a_repo_product a); [reflexivity|contradiction]. }
      rewrite Hnp.
      destruct was;
        match goal with |- exists _ _, sync_findings_loop _ _ _ _ ?s1 _ = _ /\ _ =>
          destruct (IH (S i) s1 st1) as (s' & st' & Hl & Ht & Hsum & Herr & Hsub')
        end; exists s', st'; simpl in *; split_and!; try assumption; try lia;
        intros k Hk; exact (Hsub' k (Hsub k Hk)).
    + rewrite Hc.
      destruct (IH (S i) {| total_alerts := total_alerts s; created := created s;
                           updated := updated s; errors := S (errors s) |} st)
        as (s' & st' & Hl & Ht & Hsum & Herr & Hsub').
      exists s', st'. simpl in *. split_and!; try assumption; try lia.
      destruct (no_product a); simpl; lia.
Qed.

(** X19: [sync_repository_findings] never lets an exception escape: it
    returns statistics whose [total_alerts] is the number of alerts and
    equals [created + updated + errors]; every alert whose repository has
    no product is counted as an error, and no existing finding is
    deleted. *)
Theorem sync_repository_findings_stats u clock alerts st :
  exists s st',
    sync_repository_findings u clock alerts st = Ok (s, st') /\
    total_alerts s = List.length alerts /\
    (created s + updated s + errors s = total_alerts s)%nat /\
    (List.length (List.filter no_product alerts) <= errors s)%nat /\
    (forall k, is_Some (findings st !! k) -> is_Some (findings st' !! k)).
Proof.
  unfold sync_repository_findings.
  destruct (sync_findings_loop_spec u clock alerts 0
              {| total_alerts := List.length alerts; created := 0; updated := 0; errors := 0 |} st)
    as (s' & st' & Hl & Ht & Hsum & Herr & Hsub).
  exists s', st'. simpl in *. split_and!; try assumption; lia.
Qed.

End FindingsSyncFacts.

Module TriageEngineFacts.
Import AutoTriage TriageEngine TriageEngineSpec.

Section Facts.
Variable rules : list rule.
Variable save : nat -> py unit.
Variable now : nat -> Z.

Lemma bump_decision_total d s : stats_total (bump_decision d s) = S (stats_total s).
Proof.
  unfold bump_decision, stats_total.
  repeat destruct (String.eqb _ _); simpl; lia.
Qed.

Lemma bump_decision_errors d s : errors (bump_decision d s) = errors s.
Proof. unfold bump_decision. repeat destruct (String.eqb _ _); reflexivity. Qed.

Lemma apply_triage_spec tf st ws :
  match _apply_triage_to_finding rules save now tf st ws with
  | Ok (st', ws') =>
      stats_total st' = S (stats_total st) /\ errors st' = errors st /\
      (failed rules save) tf = false /\
      (((written rules save) tf = true /\ exists w, ws' = (ws ++ [w])%list /\ (decision_write rules now) [tf] w) \/
       ((written rules save) tf = false /\ ws' = ws))
  | Raise e => (failed rules save) tf = true
  end.
Proof.
  unfold _apply_triage_to_finding, written, failed.
  destruct (triage_single_finding rules (tf_finding tf)) as [d|e] eqn:Ht; [|reflexivity].
  destruct (String.eqb_spec (auto_triage_decision tf) (t_decision d)) as [Heq|Hne].
  - unfold stats_total. simpl. split_and!; try reflexivity; try lia. right. split; reflexivity.
  - destruct (save (tf_id tf)) as [[]|e]; [|reflexivity].
    split_and!; [apply bump_decision_total|apply bump_decision_errors|reflexivity|].
    left. split; [reflexivity|]. eexists. split; [reflexivity|].
    exists tf, d. simpl. split_and!; try (left; reflexivity); try reflexivity.
    + exact Ht.
    + intros H. apply Hne. symmetry. exact H.
Qed.

Lemma decision_write_cons tf fs w : (decision_write rules now) fs w -> (decision_write rules now) (tf :: fs) w.
Proof.
  intros (tf' & d & Hin & H). exists tf', d. split; [right; exact Hin|exact H].
Qed.

Lemma decision_write_head tf fs w : (decision_write rules now) [tf] w -> (decision_write rules now) (tf :: fs) w.
Proof.
  intros (tf' & d & Hin & H). exists tf', d. split; [|exact H].
  destruct Hin as [<-|[]]. left. reflexivity.
Qed.

(** X20: [_triage_findings_queryset] lets only a non-[Exception] escape.
    When it completes, the five counters grow by one per finding, [errors]
    by the number of findings whose triage or save raised, and the writes
    are appended in the order of the findings: one per finding whose rule
    decision differs from the stored one and whose save went through, each
    recording that decision and the clock reading. *)
Theorem triage_findings_queryset_effect fs : forall st ws,
  match _triage_findings_queryset rules save now fs st ws with
  | Ok (st', ws') =>
      (stats_total st' = stats_total st + List.length fs)%nat /\
      (errors st' = errors st + List.length (List.filter (failed rules save) fs))%nat /\
      exists new, ws' = (ws ++ new)%list /\
        map w_id new = map tf_id (List.filter (written rules save) fs) /\
        Forall ((decision_write rules now) fs) new
  | Raise e => is_Exception e = false
  end.
Proof.
  induction fs as [|tf rest IH]; intros st ws.
  - simpl. split_and!; try lia. exists []. rewrite app_nil_r. split_and!; constructor.
  - simpl. pose proof (apply_triage_spec tf st ws) as Ha.
    destruct (_apply_triage_to_finding rules save now tf st ws) as [[st1 ws1]|e].
    + destruct Ha as (Htot & Herr & Hf & Hw). specialize (IH st1 ws1).
      destruct (_triage_findings_queryset rules save now rest st1 ws1) as [[st' ws']|e];
        [|exact IH].
      destruct IH as (Htot' & Herr' & new & -> & Hids & Hall).
      rewrite Hf. split_and!; [lia|lia|].
      destruct Hw as [(Hwr & w & -> & Hdw)|(Hwr & ->)]; rewrite Hwr.
      * exists (w :: new). split_and!.
        -- rewrite <- app_assoc. reflexivity.
        -- simpl. f_equal; [|exact Hids].
           destruct Hdw as (tf' & d & [<-|[]] & Hid & _). exact Hid.
        -- constructor; [apply decision_write_head; exact Hdw|].
           eapply Forall_impl; [exact Hall|]. intros x. apply decision_write_cons.
      * exists new. split_and!; [reflexivity|exact Hids|].
        eapply Forall_impl; [exact Hall|]. intros x. apply decision_write_cons.
    + destruct (is_Exception e) eqn:Hx; [|exact Hx].
      specialize (IH (bump_errors st) ws).
      destruct (_triage_findings_queryset rules save now rest (bump_errors st) ws)
        as [[st' ws']|e']; [|exact IH].
      destruct IH as (Htot' & Herr' & new & -> & Hids & Hall).
      assert (Hwr : (written rules save) tf = false).
      { revert Ha. unfold written, failed.
        destruct (triage_single_finding rules (tf_finding tf)); [|reflexivity].
        destruct (String.eqb _ _); [discriminate|]. destruct (save (tf_id tf)); [discriminate|reflexivity]. }
      rewrite Ha, Hwr. unfold stats_total in *. simpl in *.
      split_and!; [lia|lia|]. exists new. split_and!; [reflexivity|exact Hids|].
      eapply Forall_impl; [exact Hall|]. intros x. apply decision_write_cons.
Qed.

End Facts.

End TriageEngineFacts.

Module SignalExtraFacts.
Import PatternSignals SignalSources.

Lemma existsb_subset {A} (f : A -> bool) (l1 l2 : list A) :
  (forall x, In x l1 -> In x l2) -> existsb f l1 = true -> existsb f l2 = true.
Proof.
  intros Hs H. apply existsb_exists in H as (x & Hx & Hf).
  apply existsb_exists. exists x. split; [apply Hs; exact Hx|exact Hf].
Qed.

Lemma existsb_subset' {A} (f g : A -> bool) (l : list A) :
  (forall x, f x = true -> g x = true) -> existsb f l = true -> existsb g l = true.
Proof.
  intros Hfg H. apply existsb_exists in H as (x & Hx & Hf).
  apply existsb_exists. exists x. split; [exact Hx|apply Hfg; exact Hf].
Qed.

(** X21: the path-pattern detectors only look for a matching path: a
    signal that [_detect_pattern] or [_check_patterns] reports for a list
    of paths is still reported for any list that contains all of those
    paths (in any order, with duplicates or more paths). *)
Theorem pattern_detection_monotone ps l1 l2 :
  (forall x, In x l1 -> In x l2) ->
  (_detect_pattern l1 ps = true -> _detect_pattern l2 ps = true) /\
  (_check_patterns l1 ps = true -> _check_patterns l2 ps = true).
Proof.
  intros Hs. split.
  - unfold _detect_pattern. destruct l1 as [|x1 l1']; [discriminate|].
    destruct l2 as [|x2 l2']; [exfalso; exact (Hs x1 (or_introl eq_refl))|].
    apply existsb_subset' ; intros p.
    destruct (str_contains p "*"); [|destruct (endswith p "/")];
      [apply existsb_subset; exact Hs|apply existsb_subset; exact Hs|].
    rewrite !PatternFacts.list_contains_spec. apply Hs.
  - unfold _check_patterns. apply existsb_subset'; intros p.
    destruct (str_contains p "*"); [|destruct (endswith p "/")]; apply existsb_subset; exact Hs.
Qed.

Lemma ascii_lower_newline c : Ascii.eqb (ascii_lower c) newline = Ascii.eqb c newline.
Proof. destruct c as [[] [] [] [] [] [] [] []]; reflexivity. Qed.

Lemma char_eq_lower c c' : char_eq true c (ascii_lower c') = char_eq true c c'.
Proof. unfold char_eq. rewrite SeverityFacts.ascii_lower_idem. reflexivity. Qed.

Lemma rmatch_lower ts : forall s, rmatch true ts (str_lower s) = rmatch true ts s.
Proof.
  induction ts as [|t ts IH]; intros s; [reflexivity|]. destruct t as [c| |].
  - destruct s as [|c' s]; cbn [rmatch str_lower]; [reflexivity|]. rewrite char_eq_lower, IH. reflexivity.
  - destruct s as [|c' s]; cbn [rmatch str_lower]; [reflexivity|]. rewrite ascii_lower_newline, IH. reflexivity.
  - induction s as [|c s IHs]; simpl; [reflexivity|].
    pose proof (IH (String c s)) as H. simpl in H, IHs. rewrite H, ascii_lower_newline, IHs.
    reflexivity.
Qed.

Lemma rsearch_lower ts s : rsearch true ts (str_lower s) = rsearch true ts s.
Proof.
  induction s as [|c s IHs]; [reflexivity|].
  pose proof (rmatch_lower ts (String c s)) as H. simpl in H |- *. rewrite H, IHs. reflexivity.
Qed.

Lemma existsb_map_lower (f : string -> bool) paths :
  (forall s, f (str_lower s) = f s) -> existsb f (map str_lower paths) = existsb f paths.
Proof.
  intros Hf. induction paths as [|x l IH]; simpl; [reflexivity|]. rewrite Hf, IH. reflexivity.
Qed.

(** X22: [_check_patterns] ignores the case of the paths: lower-casing
    every path first never changes a signal. *)
Theorem check_patterns_path_case paths ps :
  _check_patterns (map str_lower paths) ps = _check_patterns paths ps.
Proof.
  unfold _check_patterns. induction ps as [|p ps IH]; simpl; [reflexivity|].
  rewrite IH. f_equal.
  destruct (str_contains p "*"); [|destruct (endswith p "/")]; apply existsb_map_lower; intros s.
  - apply rsearch_lower.
  - rewrite SeverityFacts.str_lower_idem. reflexivity.
  - rewrite SeverityFacts.str_lower_idem. reflexivity.
Qed.

(** X23: in the GraphQL signal set, [recent_commits_30d] implies
    [recent_commits_90d] and [readme_length_500] implies [has_readme]. *)
Theorem graphql_signal_implications rd now :
  let sig k := dict_get (_detect_signals_from_graphql rd now) k false in
  implb (sig "recent_commits_30d") (sig "recent_commits_90d") = true /\
  implb (sig "readme_length_500") (sig "has_readme") = true.
Proof.
  intros sig.
  change (sig "recent_commits_30d") with (_has_recent_commits rd now 30).
  change (sig "recent_commits_90d") with (_has_recent_commits rd now 90).
  change (sig "readme_length_500") with
    (match readme rd with
     | Some r => FindingsConverter.nonempty r && (500 <=? String.length r)%nat
     | None => false end).
  change (sig "has_readme") with
    (match readme rd with Some r => FindingsConverter.nonempty r | None => false end).
  split.
  - unfold _has_recent_commits, days_s. destruct (commits_lastCommitDate rd) as [d|]; [|reflexivity].
    destruct (Z.leb_spec (now - 30 * 86400) d); [|reflexivity].
    simpl. apply Z.leb_le. lia.
  - destruct (readme rd) as [r|]; [|reflexivity].
    destruct (FindingsConverter.nonempty r); [apply implb_true_r|reflexivity].
Qed.

(** Witness of X21: adding a README to a tree with a root [Dockerfile]
    keeps the [has_dockerfile] signal on both paths. *)
Lemma pattern_detection_monotone_witness :
  _detect_pattern ["README.md"; "Dockerfile"] DOCKERFILE_PATTERNS = true /\
  _check_patterns ["README.md"; "Dockerfile"] DOCKERFILE_PATTERNS = true.
Proof.
  destruct (pattern_detection_monotone DOCKERFILE_PATTERNS ["Dockerfile"] ["README.md"; "Dockerfile"]
              ltac:(intros x [<-|[]]; right; left; reflexivity)) as [H1 H2].
  split; [apply H1|apply H2]; vm_compute; reflexivity.
Defined.

End SignalExtraFacts.

Module ConverterExtraFacts.
Import FindingsConverter FindingsConverterFacts.
#[local] Arguments String.append : simpl nomatch.

(** X24: [convert_alert_to_finding_fields] raises the [ValueError]
    "Unknown alert type: ..." exactly for an alert type other than
    dependabot, codeql and secret_scanning; otherwise the fields it
    builds carry a title of at most 511 characters, the alert's unique id,
    the test and the reporter. *)
Theorem convert_alert_fields_shape sys a test now :
  match convert_alert_to_finding_fields sys a test now with
  | Ok lf =>
      In (a_alert_type a) ["dependabot"; "codeql"; "secret_scanning"] /\
      (exists t, assoc_last lf "title" = Some (PStr t) /\ (String.length t <= 511)%nat) /\
      assoc_last lf "unique_id_from_tool" = Some (PStr (_build_unique_id a)) /\
      assoc_last lf "test" = Some (PTest test) /\
      assoc_last lf "reporter" = Some sys
  | Raise e =>
      ~ In (a_alert_type a) ["dependabot"; "codeql"; "secret_scanning"] /\
      e = Exc "ValueError" ("Unknown alert type: " ++ a_alert_type a)
  end.
Proof.
  unfold convert_alert_to_finding_fields.
  destruct (String.eqb_spec (a_alert_type a) "dependabot") as [Ht|Ht];
    [|destruct (String.eqb_spec (a_alert_type a) "codeql") as [Ht'|Ht'];
      [|destruct (String.eqb_spec (a_alert_type a) "secret_scanning") as [Ht''|Ht'']]].
  1: split; [rewrite Ht; simpl; tauto|].
  2: split; [rewrite Ht'; simpl; tauto|].
  3: split; [rewrite Ht''; simpl; tauto|].
  1-3: split_and!; try reflexivity; eexists; split; [reflexivity|apply AlertsCollectorFacts.truncate_length].
  split; [|reflexivity]. simpl. intros [H|[H|[H|[]]]]; congruence.
Qed.

Lemma convert_alert_fields_unique_id sys a test now lf :
  convert_alert_to_finding_fields sys a test now = Ok lf ->
  assoc_last lf "unique_id_from_tool" = Some (PStr (_build_unique_id a)).
Proof.
  unfold convert_alert_to_finding_fields.
  destruct (String.eqb (a_alert_type a) "dependabot");
    [|destruct (String.eqb (a_alert_type a) "codeql");
      [|destruct (String.eqb (a_alert_type a) "secret_scanning")]];
    intros H; try discriminate H; injection H as <-; reflexivity.
Qed.

Lemma str_app_inv_l (p x y : string) : p ++ x = p ++ y -> x = y.
Proof. induction p as [|c p IH]; simpl; [tauto|]. intros H. injection H as H. exact (IH H). Qed.

(** X25: two alerts of the same type and GitHub repository id with
    different alert numbers get different unique ids, so their findings
    never collide in [Finding.objects.get(test, unique_id_from_tool)]. *)
Theorem build_unique_id_distinct a b :
  a_alert_type a = a_alert_type b ->
  a_repo_github_repo_id a = a_repo_github_repo_id b ->
  a_github_alert_id a <> a_github_alert_id b ->
  _build_unique_id a <> _build_unique_id b.
Proof.
  intros Ht Hr Hn H. apply Hn. unfold _build_unique_id in H. rewrite Ht, Hr in H.
  set (p := "github-" ++ a_alert_type b ++ "-" ++ str_of_Z (a_repo_github_repo_id b) ++ "-") in *.
  assert (E : forall s, "github-" ++ a_alert_type b ++ "-" ++ str_of_Z (a_repo_github_repo_id b)
                        ++ "-" ++ s = p ++ s).
  { intros s. unfold p. rewrite !PatternFacts.str_app_assoc. reflexivity. }
  rewrite !E in H. exact (str_app_inv_l p _ _ H).
Qed.

(** X26: after [create_or_update_finding] succeeds, the alert is linked
    to the saved finding it returns, and that finding carries the
    alert's unique id. *)
Theorem create_or_update_finding_links sys a now st f c st' :
  create_or_update_finding sys a now st = Ok ((f, c), st') ->
  exists fid, alert_finding st' !! a_id a = Some fid /\ findings st' !! fid = Some f /\
    f !! "unique_id_from_tool" = Some (PStr (_build_unique_id a)).
Proof.
  rewrite create_or_update_unfold.
  destruct (_get_or_create_engagement a st) as [[e st1]|]; [|discriminate].
  destruct (_get_or_create_test (a_alert_type a) e st1) as [[t st2]|]; [|discriminate].
  destruct (find_finding t (_build_unique_id a) st2) as [found|]; [|discriminate].
  destruct (convert_alert_to_finding_fields sys a t now) as [lf|] eqn:Hc; [|discriminate].
  pose proof (convert_alert_fields_unique_id _ _ _ _ _ Hc) as Huid.
  set (g := set_fields (set_fields (match found with Some (_, f) => f | None => new_finding end) lf)
              (state_updates sys a now)).
  assert (Hg : g !! "unique_id_from_tool" = Some (PStr (_build_unique_id a))).
  { unfold g. rewrite !lookup_set_fields, Huid.
    unfold state_updates.
    destruct (String.eqb (a_state a) "open"); [reflexivity|].
    destruct (String.eqb (a_state a) "fixed"); [reflexivity|].
    destruct (String.eqb (a_state a) "dismissed"); reflexivity. }
  unfold save_and_link. simpl.
  destruct (option_map fst found) as [fid|].
  - intros H. injection H as <- _ <-. exists fid. simpl.
    rewrite !lookup_insert_eq. split_and!; [reflexivity|reflexivity|exact Hg].
  - intros H. injection H as <- _ <-. exists (next_finding_id st2). simpl.
    rewrite !lookup_insert_eq. split_and!; [reflexivity|reflexivity|].
    rewrite lookup_insert_ne by discriminate. exact Hg.
Qed.

(** Witness of X25: CodeQL alerts 3 and 4 of the same repository. *)
Lemma build_unique_id_distinct_witness :
  _build_unique_id (Scenarios.codeql_alert "open" None None) <>
  _build_unique_id {|
    a_id := 8; a_repo_name := "acme/api"; a_repo_github_repo_id := 42;
    a_repo_product := Some 1%nat; a_alert_type := "codeql"; a_github_alert_id := "4";
    a_state := "open"; a_severity := None; a_title := "XSS";
    a_description := ""; a_html_url := "https://github.com/acme/api/security/code-scanning/4";
    a_cve := ""; a_package_name := ""; a_package_ecosystem := "";
    a_vulnerable_version := ""; a_patched_version := ""; a_cwe := "CWE-79";
    a_rule_id := "js/xss"; a_file_path := "web.js"; a_secret_type := "";
    a_start_line := Some 5%Z; a_end_line := None; a_created_at := Some 1000%Z;
    a_fixed_at := None |}.
Proof. apply build_unique_id_distinct; [reflexivity|reflexivity|discriminate]. Defined.

(** Witness of X26: an open CodeQL alert saved into the scenario database. *)
Lemma create_or_update_finding_links_witness :
  exists f st',
    create_or_update_finding Scenarios.system_user (Scenarios.codeql_alert "open" (Some "high") None)
      100 Scenarios.db0 = Ok ((f, true), st') /\
    exists fid, alert_finding st' !! 7%nat = Some fid /\ findings st' !! fid = Some f /\
      f !! "unique_id_from_tool" = Some (PStr "github-codeql-42-3").
Proof.
  assert (H : match create_or_update_finding Scenarios.system_user
                      (Scenarios.codeql_alert "open" (Some "high") None) 100 Scenarios.db0 with
              | Ok ((_, c), _) => c = true
              | Raise _ => False
              end) by (vm_compute; reflexivity).
  destruct (create_or_update_finding Scenarios.system_user
              (Scenarios.codeql_alert "open" (Some "high") None) 100 Scenarios.db0)
    as [[[f c] st']|e] eqn:E; [|contradiction].
  subst c. exists f, st'. split; [reflexivity|].
  destruct (create_or_update_finding_links _ _ _ _ _ _ _ E) as (fid & H1 & H2 & H3).
  exists fid. split_and!; [exact H1|exact H2|]. rewrite H3. vm_compute. reflexivity.
Defined.

End ConverterExtraFacts.
